(** * Decoupled trajectory sampling for deep Gaussian processes

    A shallow embedding of [trieste/models/gpflux/sampler.py] (the decoupled,
    Matheron's-rule trajectory sampler) and of [DeepGaussianProcess.update]
    from [trieste/models/gpflux/models.py].

    Tensors are dense arrays given by a shape and an index function; the
    operations of TensorFlow, GPflow and GPflux that the code calls are
    modelled by their documented index formulas, with the genuinely external
    scalar functions (kernels, random streams, Cholesky factorisation,
    triangular solves) collected in the class [Backend].  Python exceptions
    are values of [exn]; mutable objects are threaded as explicit state, and
    the managers of a program are kept by identity where a trajectory of one
    can be given to another. *)

From Stdlib Require Import ZArith Ring.

From stdpp Require Import base functions option list gmap strings.

(** ** Exceptions and results *)

(** What a raised exception reports; one constructor per raise site. *)
Inductive why :=
  | ModelNotPredictor      (* "Model must be a gpflux.interface.GPfluxPredictor" *)
  | ModelNotDeepGP         (* "GPflux model must be a gpflux.models.DeepGP" *)
  | LayerNotSupported      (* "Layers other than gpflux.layers.GPLayer are not currently supported" *)
  | FeaturesNeedGPLayer    (* "... currently only work with gpflux.layers.GPLayer layers" *)
  | NotPositive            (* tf.debugging.assert_positive *)
  | BatchSizeChanged       (* "This trajectory only supports batch sizes of ..." *)
  | AssertFailed           (* tf.debugging.Assert *)
  | ShapesAsserted         (* tf.debugging.assert_shapes *)
  | OpShapes               (* an operation applied to tensors of incompatible shapes *)
  | CholeskyFailed         (* "Cholesky decomposition was not successful" *)
  | UnsupportedKernel      (* "Unsupported Kernel", the assertion of GPflux *)
  | InputTrailingDim       (* "Shape ... of input to layer ... is incompatible" *)
  | ObservationTrailingDim (* "Shape ... of new observations is incompatible" *)
  | TupleIndex             (* indexing the shape of a scalar *)
  | NoSuchAttribute        (* an attribute the object does not have *).

Inductive exn :=
  | ValueError (w : why)
  | InvalidArgumentError (w : why)
  | NotImplementedError (w : why)
  | IndexError (w : why)
  | AttributeError (w : why)
  | AssertionError (w : why).

Inductive result (A : Type) :=
  | Ok (a : A)
  | Err (e : exn).
Arguments Ok {A} a.
Arguments Err {A} e.

#[global] Instance result_ret : MRet result := fun A a => Ok a.

#[global] Instance result_bind : MBind result := fun A B f m =>
  match m with Ok a => f a | Err e => Err e end.

Definition is_ok {A} (r : result A) : bool :=
  match r with Ok _ => true | Err _ => false end.

(** The value a computation returned, and a default when it raised. *)
Definition returned_or {A} (d : A) (r : result A) : A :=
  match r with Ok a => a | Err _ => d end.

(** ** The external numerical interface *)

(** Scalars stand for float64 values with exact arithmetic.  The remaining
    fields are the functions of TensorFlow, GPflow and GPflux that the sampler
    calls and that are not part of this repository. *)
Class Backend := {
  R : Type;
  r0 : R;
  r1 : R;
  radd : R -> R -> R;
  rmul : R -> R -> R;
  rsub : R -> R -> R;
  ropp : R -> R;
  (** [DEFAULTS.JITTER] of [trieste.utils]. *)
  JITTER : R;
  (** Hyper-parameters of a GPflow kernel, and the kernel function on points. *)
  kern : Type;
  kfun : kern -> list R -> list R -> R;
  (** One random Fourier feature of GPflux: [rff_fun k L w b x] is the feature
      with frequency row [w] and phase [b], out of [L], at the point [x]. *)
  rff_fun : kern -> nat -> list R -> R -> list R -> R;
  (** The constructor of the random Fourier features of GPflux refuses the
      kernels it does not support: the exception it raises for a kernel, if
      any. *)
  rff_refusal : kern -> option exn;
  (** The random streams behind [tf.random.normal], the phase sampler and the
      spectral-density sampler of the kernel, indexed by generator position. *)
  normal : nat -> R;
  bias_stream : nat -> R;
  weights_stream : kern -> nat -> R;
  (** The initialisers of older GPflux versions ([_bias_init], [_weights_init]). *)
  bias_init_stream : nat -> R;
  weights_init_stream : kern -> nat -> R;
  (** [tf.linalg.cholesky] on an [m x m] matrix: the lower factor, if any. *)
  chol : nat -> (nat -> nat -> R) -> option (nat -> nat -> R);
  (** What [tf.linalg.cholesky] does with a matrix that has no factor: by
      the release of TensorFlow and the device, it raises, or it returns a
      matrix all the same (of NaN). *)
  chol_no_factor : nat -> (nat -> nat -> R) -> result (nat -> nat -> R);
  (** [tf.linalg.triangular_solve] with [lower=True] for one right-hand-side
      column: [tsolve adjoint m L rhs] solves [L x = rhs], or [L^T x = rhs]
      when [adjoint] is set. *)
  tsolve : bool -> nat -> (nat -> nat -> R) -> (nat -> R) -> nat -> R;
  (** Whether the installed GPflux is an older one, whose feature class has
      the attributes [_bias_init] and [_weights_init]. *)
  has_bias_init : bool;
  (** A GPflow mean function on a point: output dimension and components. *)
  meanfn : Type;
  mean_dim : meanfn -> nat;
  mean_at : meanfn -> list R -> nat -> R;
}.

(** [rsum n f] is [f 0 + ... + f (n-1)]. *)
Fixpoint rsum {BE : Backend} (n : nat) (f : nat -> R) : R :=
  match n with
  | 0 => r0
  | S k => radd (rsum k f) (f k)
  end.

(** The laws the proofs of the linear algebra need: the scalars form a
    commutative ring; a Cholesky factor [L] of [A] satisfies [L L^T = A]; and
    the triangular solves with a Cholesky factor solve their systems. *)
Class BackendLaws (BE : Backend) : Prop := {
  scalar_ring : ring_theory r0 r1 radd rmul rsub ropp eq;
  chol_factor : forall m A L, chol m A = Some L ->
    forall i j, i < m -> j < m ->
    rsum m (fun k => rmul (L i k) (L j k)) = A i j;
  tsolve_lower : forall m A L rhs, chol m A = Some L ->
    forall i, i < m ->
    rsum m (fun j => rmul (L i j) (tsolve false m L rhs j)) = rhs i;
  tsolve_adjoint : forall m A L rhs, chol m A = Some L ->
    forall i, i < m ->
    rsum m (fun j => rmul (L j i) (tsolve true m L rhs j)) = rhs i;
}.

(** ** Tensors *)

Section Tensors.

Context {BE : Backend}.

Record tensor := mkT { shape : list nat; get : list nat -> R }.

Definition rank (t : tensor) : nat := length (shape t).

Definition prod_dims (s : list nat) : nat := foldr Nat.mul 1 s.

(** Row-major position of the index [i] in an array of shape [s]. *)
Definition ravel (s i : list nat) : nat :=
  fold_left (fun acc dk => acc * fst dk + snd dk) (zip s i) 0.

Fixpoint unravel_rev (srev : list nat) (r : nat) : list nat :=
  match srev with
  | [] => []
  | d :: s' => (r mod d) :: unravel_rev s' (r / d)
  end.

Definition unravel (s : list nat) (r : nat) : list nat :=
  reverse (unravel_rev (reverse s) r).

(** [tf.shape(t)[-k-1]]: the dimension [k] places from the end. *)
Definition dim_from_end (k : nat) (t : tensor) : result nat :=
  match reverse (shape t) !! k with
  | Some d => Ok d
  | None => Err (InvalidArgumentError OpShapes)
  end.

(** [tf.shape(t)[k]]. *)
Definition dim_at (k : nat) (t : tensor) : result nat :=
  match shape t !! k with
  | Some d => Ok d
  | None => Err (InvalidArgumentError OpShapes)
  end.

(** *** Broadcasting *)

Definition bdim (a b : nat) : option nat :=
  if a =? b then Some a
  else if a =? 1 then Some b
  else if b =? 1 then Some a
  else None.

Fixpoint bshape_rev (s1 s2 : list nat) : option (list nat) :=
  match s1, s2 with
  | [], s => Some s
  | s, [] => Some s
  | a :: s1', b :: s2' =>
      match bdim a b, bshape_rev s1' s2' with
      | Some d, Some r => Some (d :: r)
      | _, _ => None
      end
  end.

Definition broadcast_shapes (s1 s2 : list nat) : option (list nat) :=
  reverse <$> bshape_rev (reverse s1) (reverse s2).

(** The index into an operand of shape [s] for the result index [i]: the
    trailing [length s] components, with [0] along dimensions of size 1. *)
Definition bidx (s i : list nat) : list nat :=
  zip_with (fun d k => if d =? 1 then 0 else k) s (drop (length i - length s) i).

Definition ewise_at (f : R -> R -> R) (A B : tensor) (i : list nat) : R :=
  f (get A (bidx (shape A) i)) (get B (bidx (shape B) i)).

Definition ewise (f : R -> R -> R) (A B : tensor) : result tensor :=
  match broadcast_shapes (shape A) (shape B) with
  | Some s => Ok (mkT s (ewise_at f A B))
  | None => Err (InvalidArgumentError OpShapes)
  end.

Definition tadd := ewise radd.

Definition tsub := ewise rsub.

Definition tmul := ewise rmul.

(** *** Shapes split at the last axes *)

Definition split_last (s : list nat) : option (list nat * nat) :=
  match reverse s with
  | d :: b => Some (reverse b, d)
  | [] => None
  end.

Definition split_last2 (s : list nat) : option (list nat * nat * nat) :=
  match reverse s with
  | n :: m :: b => Some (reverse b, m, n)
  | _ => None
  end.

(** The entry of a matrix product at the index [i]: the leading components
    of [i] select the matrices, the last two the row and the column. *)
Definition matmul_at (ba bb : list nat) (k : nat) (A B : tensor) (i : list nat) : R :=
  let bi := take (length i - 2) i in
  let r := nth (length i - 2) i 0 in
  let c := nth (length i - 1) i 0 in
  rsum k (fun l =>
    rmul (get A (bidx ba bi ++ [r; l])) (get B (bidx bb bi ++ [l; c]))).

(** [tf.matmul], with broadcasting of the leading (batch) dimensions. *)
Definition matmul (A B : tensor) : result tensor :=
  match split_last2 (shape A), split_last2 (shape B) with
  | Some (ba, m, k), Some (bb, k', n) =>
      if k =? k' then
        match broadcast_shapes ba bb with
        | Some b => Ok (mkT (b ++ [m; n]) (matmul_at ba bb k A B))
        | None => Err (InvalidArgumentError OpShapes)
        end
      else Err (InvalidArgumentError OpShapes)
  | _, _ => Err (InvalidArgumentError OpShapes)
  end.

Definition transpose_at (A : tensor) (i : list nat) : R :=
  let bi := take (length i - 2) i in
  let r := nth (length i - 2) i 0 in
  let c := nth (length i - 1) i 0 in
  get A (bi ++ [c; r]).

(** [tf.linalg.matrix_transpose]: the last two axes exchanged. *)
Definition matrix_transpose (A : tensor) : result tensor :=
  match split_last2 (shape A) with
  | Some (b, m, n) => Ok (mkT (b ++ [n; m]) (transpose_at A))
  | None => Err (InvalidArgumentError OpShapes)
  end.

Definition last_axis_0_at (A : tensor) (i : list nat) : R := get A (i ++ [0]).

(** [t[..., 0]]. *)
Definition last_axis_0 (A : tensor) : result tensor :=
  match split_last (shape A) with
  | Some (b, d) =>
      if 0 <? d then Ok (mkT b (last_axis_0_at A))
      else Err (InvalidArgumentError OpShapes)
  | None => Err (InvalidArgumentError OpShapes)
  end.

Definition new_last_axis_at (A : tensor) (i : list nat) : R :=
  get A (take (length i - 1) i).

(** [t[..., None]]. *)
Definition new_last_axis (A : tensor) : tensor :=
  mkT (shape A ++ [1]) (new_last_axis_at A).

(** [t[:, :n]] on a matrix. *)
Definition first_columns (n : nat) (A : tensor) : result tensor :=
  match shape A with
  | [r; c] => Ok (mkT [r; n `min` c] (get A))
  | _ => Err (InvalidArgumentError OpShapes)
  end.

(** [t[0:1, :]] on a matrix. *)
Definition first_row (A : tensor) : result tensor :=
  match shape A with
  | [r; c] => Ok (mkT [1 `min` r; c] (get A))
  | _ => Err (InvalidArgumentError OpShapes)
  end.

Definition concat_at (axis da : nat) (A B : tensor) (i : list nat) : R :=
  let k := nth axis i 0 in
  if k <? da then get A i else get B (<[axis := k - da]> i).

(** [tf.concat([A, B], axis)] for a non-negative [axis]. *)
Definition concat (axis : nat) (A B : tensor) : result tensor :=
  match shape A !! axis, shape B !! axis with
  | Some da, Some db =>
      if bool_decide (<[axis := 0]> (shape A) = <[axis := 0]> (shape B)) then
        Ok (mkT (<[axis := da + db]> (shape A)) (concat_at axis da A B))
      else Err (InvalidArgumentError OpShapes)
  | _, _ => Err (InvalidArgumentError OpShapes)
  end.

(** [tf.concat([A, B], axis=-1)]. *)
Definition concat_last (A B : tensor) : result tensor :=
  if 0 <? rank A then concat (rank A - 1) A B
  else Err (InvalidArgumentError OpShapes).

Definition reduce_sum_m2_at (m : nat) (A : tensor) (i : list nat) : R :=
  let bi := take (length i - 1) i in
  let c := nth (length i - 1) i 0 in
  rsum m (fun l => get A (bi ++ [l; c])).

(** [tf.reduce_sum(t, -2)]. *)
Definition reduce_sum_m2 (A : tensor) : result tensor :=
  match split_last2 (shape A) with
  | Some (b, m, n) => Ok (mkT (b ++ [n]) (reduce_sum_m2_at m A))
  | None => Err (InvalidArgumentError OpShapes)
  end.

Definition scaled_eye_at (c : R) (i : list nat) : R :=
  match i with
  | [r; k] => if r =? k then c else r0
  | _ => r0
  end.

(** [tf.eye(m) * c]. *)
Definition scaled_eye (m : nat) (c : R) : tensor := mkT [m; m] (scaled_eye_at c).

(** [tf.ones(s)]. *)
Definition ones (s : list nat) : tensor := mkT s (fun _ => r1).

(** A tensor of shape [s] filled from a random stream, starting at position
    [pos]; the generator moves on by the number of entries. *)
Definition draw_at (stream : nat -> R) (s : list nat) (pos : nat) (i : list nat) : R :=
  stream (pos + ravel s i).

Definition draw (stream : nat -> R) (s : list nat) (pos : nat) : tensor * nat :=
  (mkT s (draw_at stream s pos), pos + prod_dims s).

(** [tf.random.normal(s)]. *)
Definition random_normal := draw normal.

(** The row [i] of a matrix as a point. *)
Definition row (A : tensor) (i : nat) : list R :=
  match shape A with
  | [_; d] => map (fun k => get A [i; k]) (seq 0 d)
  | _ => []
  end.

(** The entries of a matrix as a function of row and column, and back. *)
Definition entries (A : tensor) (i j : nat) : R := get A [i; j].

Definition of_entries (L : nat -> nat -> R) (i : list nat) : R :=
  match i with
  | [r; c] => L r c
  | _ => r0
  end.

(** The matrix [tf.linalg.cholesky] computes from an [m x m] matrix: its
    lower factor when it has one. *)
Definition factorise (m : nat) (A : nat -> nat -> R) : result (nat -> nat -> R) :=
  match chol m A with
  | Some L => Ok L
  | None => chol_no_factor m A
  end.

(** [tf.linalg.cholesky] on a matrix. *)
Definition cholesky (A : tensor) : result tensor :=
  match shape A with
  | [m; m'] =>
      if m =? m' then
        L ← factorise m (entries A); Ok (mkT [m; m] (of_entries L))
      else Err (InvalidArgumentError OpShapes)
  | _ => Err (InvalidArgumentError OpShapes)
  end.

Definition triangular_solve_at (adjoint : bool) (m : nat) (L rhs : tensor)
    (i : list nat) : R :=
  let bi := take (length i - 2) i in
  let r := nth (length i - 2) i 0 in
  let c := nth (length i - 1) i 0 in
  tsolve adjoint m (entries L) (fun p => get rhs (bi ++ [p; c])) r.

(** [tf.linalg.triangular_solve(L, rhs, adjoint=adjoint)] for a matrix [L]
    and a right-hand side with any number of leading dimensions. *)
Definition triangular_solve (adjoint : bool) (L rhs : tensor) : result tensor :=
  match shape L, split_last2 (shape rhs) with
  | [m; m'], Some (b, k, n) =>
      if (m =? m') && (m =? k) then
        Ok (mkT (b ++ [m; n]) (triangular_solve_at adjoint m L rhs))
      else Err (InvalidArgumentError OpShapes)
  | _, _ => Err (InvalidArgumentError OpShapes)
  end.

(** [gpflux.math.compute_A_inv_b]: the Cholesky factor of [A], then two
    triangular solves. *)
Definition compute_A_inv_b (A b : tensor) : result tensor :=
  L ← cholesky A;
  L_inv_b ← triangular_solve false L b;
  triangular_solve true L L_inv_b.

(** The point at the leading index [bi] of a tensor whose last axis has
    size [d]. *)
Definition point_at (A : tensor) (d : nat) (bi : list nat) : list R :=
  map (fun k => get A (bi ++ [k])) (seq 0 d).

Definition apply_mean_at (mf : meanfn) (d : nat) (x : tensor) (i : list nat) : R :=
  mean_at mf (point_at x d (take (length i - 1) i)) (nth (length i - 1) i 0).

(** A GPflow mean function applied along the last axis. *)
Definition apply_mean (mf : meanfn) (x : tensor) : result tensor :=
  match split_last (shape x) with
  | Some (b, d) => Ok (mkT (b ++ [mean_dim mf]) (apply_mean_at mf d x))
  | None => Err (InvalidArgumentError OpShapes)
  end.

(** The Gram matrix [K(X, Y)] of a GPflow kernel on two matrices of points. *)
Definition K (k : kern) (X Y : tensor) : result tensor :=
  match shape X, shape Y with
  | [n; d], [m; d'] =>
      if d =? d' then
        Ok (mkT [n; m] (of_entries (fun a c => kfun k (row X a) (row Y c))))
      else Err (InvalidArgumentError OpShapes)
  | _, _ => Err (InvalidArgumentError OpShapes)
  end.

Definition unflatten_at (batch_shape : list nat) (y : tensor) (i : list nat) : R :=
  get y (ravel batch_shape (take (length batch_shape) i)
           :: drop (length batch_shape) i).

(** The function [unflatten] that [flatten_leading_dims] returns. *)
Definition unflatten (batch_shape : list nat) (y : tensor) : result tensor :=
  match shape y with
  | n :: output_shape =>
      if n =? prod_dims batch_shape then
        Ok (mkT (batch_shape ++ output_shape) (unflatten_at batch_shape y))
      else Err (InvalidArgumentError OpShapes)
  | [] => Err (InvalidArgumentError OpShapes)
  end.

(** Modelled from the spec: [flatten_leading_dims] of [trieste.utils], which
    is not among the sources.  The leading dimensions of [x] are flattened
    into one, and the returned function restores them on a result. *)
Definition flatten_leading_dims (x : tensor)
  : result (tensor * (tensor -> result tensor)) :=
  match split_last (shape x) with
  | Some (batch_shape, d) =>
      if 2 <=? rank x then
        Ok (mkT [prod_dims batch_shape; d]
                (of_entries (fun r k => get x (unravel batch_shape r ++ [k]))),
            unflatten batch_shape)
      else Err (InvalidArgumentError OpShapes)
  | None => Err (InvalidArgumentError OpShapes)
  end.

End Tensors.

(** ** The GPflux model objects the sampler reads *)

Section Layers.

Context {BE : Backend}.

(** [layer.kernel]: a kernel, possibly wrapped in [SharedIndependent]. *)
Inductive kernel_obj :=
  | PlainKernel (k : kern)
  | SharedIndependent (k : kern).

(** [layer.inducing_variable]: [InducingPoints], or a wrapper around them. *)
Inductive inducing_obj :=
  | InducingPoints (Z : tensor)
  | SharedInducing (Z : tensor).

(** The state of a [gpflux.layers.GPLayer].  Its parameters are trained in
    place, so the samplers, which hold the layer by reference, are given its
    current state. *)
Record GPLayer := mkGPLayer {
  kernel : kernel_obj;
  inducing_variable : inducing_obj;
  q_mu : tensor;                (* [M, P] *)
  q_sqrt : tensor;              (* [P, M, M] *)
  whiten : bool;
  mean_function : meanfn;
  num_data : nat;
}.

(** A [gpflux.layers.LatentVariableLayer]: the size of its latent variable. *)
Record LatentVariableLayer := mkLVLayer {
  latent_dim : nat;
  lv_num_data : nat;
}.

Inductive layer :=
  | IsGPLayer (l : GPLayer)
  | IsLatentVariableLayer (l : LatentVariableLayer)
  | OtherLayer.

(** [layer.kernel.kernel if isinstance(layer.kernel, SharedIndependent)
    else layer.kernel]. *)
Definition base_kernel (l : GPLayer) : kern :=
  match kernel l with
  | SharedIndependent k => k
  | PlainKernel k => k
  end.

(** [layer.inducing_variable.Z], or [.inducing_variable.Z] of a wrapper. *)
Definition inducing_points (l : GPLayer) : tensor :=
  match inducing_variable l with
  | InducingPoints Z => Z
  | SharedInducing Z => Z
  end.

Inductive gpflux_model :=
  | DeepGP (f_layers : list layer)
  | OtherGPfluxModel.

Inductive model :=
  | GPfluxPredictor (model_gpflux : gpflux_model)
  | OtherModel.

End Layers.

(** ** The feature function bank *)

Module ResampleableDecoupledDeepGaussianProcessFeatureFunctions.

Section Bank.

Context {BE : Backend}.

(** The random parameters of the Fourier features.  The kernel and the
    inducing points are held by reference and read from the layer. *)
Record t := mk {
  n_components : nat;
  b : tensor;                   (* [1, L] *)
  W : tensor;                   (* [L, D] *)
}.

(** [RFF.__call__]: the [L] random Fourier features at each row of [x]. *)
Definition rff_call (l : GPLayer) (self : t) (x : tensor) : result tensor :=
  match shape x, shape (W self) with
  | [n; d], [c; d'] =>
      if d =? d' then
        Ok (mkT [n; c] (of_entries (fun a j =>
              rff_fun (base_kernel l) (n_components self)
                      (row (W self) j) (get (b self) [0; j]) (row x a))))
      else Err (InvalidArgumentError OpShapes)
  | _, _ => Err (InvalidArgumentError OpShapes)
  end.

(** [_canonical_feature_functions]. *)
Definition canonical_feature_functions (l : GPLayer) (x : tensor) : result tensor :=
  Kzx ← K (base_kernel l) (inducing_points l) x;
  matrix_transpose Kzx.

(** [__call__]: [N, D] -> [N, L + M]. *)
Definition call (l : GPLayer) (self : t) (x : tensor) : result tensor :=
  fourier_feature_eval ← rff_call l self x;
  canonical_feature_eval ← canonical_feature_functions l x;
  concat_last fourier_feature_eval canonical_feature_eval.

Definition sample_bias (s : list nat) (g : nat) : tensor * nat :=
  if has_bias_init then draw bias_init_stream s g else draw bias_stream s g.

Definition sample_weights (k : kern) (s : list nat) (g : nat) : tensor * nat :=
  if has_bias_init then draw (weights_init_stream k) s g
  else draw (weights_stream k) s g.

(** [__init__]: the constructor of GPflux's features, which refuses the
    kernels it does not support; then the first call, on one inducing point,
    builds [b] and [W]. *)
Definition init (lay : layer) (n : nat) (g : nat) : result t * nat :=
  match lay with
  | IsGPLayer l =>
      match rff_refusal (base_kernel l) with
      | Some e => (Err e, g)
      | None =>
          match first_row (inducing_points l) ≫= fun dummy_X =>
                D ← dim_from_end 0 dummy_X; Ok (dummy_X, D) with
          | Ok (dummy_X, D) =>
              let '(b0, g1) := sample_bias [1; n] g in
              let '(W0, g2) := sample_weights (base_kernel l) [n; D] g1 in
              let self := mk n b0 W0 in
              (call l self dummy_X ≫= fun _ => Ok self, g2)
          | Err e => (Err e, g)
          end
      end
  | _ => (Err (NotImplementedError FeaturesNeedGPLayer), g)
  end.

(** [resample]: new [b] and [W] of the same shapes, in place. *)
Definition resample (l : GPLayer) (self : t) (g : nat) : t * nat :=
  let '(b', g1) := sample_bias (shape (b self)) g in
  let '(W', g2) := sample_weights (base_kernel l) (shape (W self)) g1 in
  (mk (n_components self) b' W', g2).

End Bank.

End ResampleableDecoupledDeepGaussianProcessFeatureFunctions.

Module FF := ResampleableDecoupledDeepGaussianProcessFeatureFunctions.

(** ** The decoupled sampler of one layer *)

Module DeepGaussianProcessDecoupledLayer.

Section Sampler.

Context {BE : Backend}.

(** The closure returned by [_prepare_weight_sampler]: the values it
    captured.  [q_mu], [q_sqrt] and the inducing points are captured as
    parameter objects and read from the layer when the closure runs; so are
    [self._num_features] and [self._feature_functions]. *)
Record weight_sampler_closure := mkClosure {
  Kmm : tensor;                 (* [M, M] *)
  captured_whiten : bool;
  captured_M : nat;
  captured_P : nat;
}.

Record t := mk {
  num_features : nat;
  feature_functions : FF.t;
  weight_sampler : weight_sampler_closure;
  initialized : bool;
  weights_sample : tensor;      (* [B, L + M, P] *)
  batch_size : nat;
}.

Definition set_weight_sampler (ws : weight_sampler_closure) (self : t) : t :=
  mk (num_features self) (feature_functions self) ws (initialized self)
     (weights_sample self) (batch_size self).

Definition set_initialized (v : bool) (self : t) : t :=
  mk (num_features self) (feature_functions self) (weight_sampler self) v
     (weights_sample self) (batch_size self).

Definition set_weights_sample (w : tensor) (self : t) : t :=
  mk (num_features self) (feature_functions self) (weight_sampler self)
     (initialized self) w (batch_size self).

Definition set_batch_size (n : nat) (self : t) : t :=
  mk (num_features self) (feature_functions self) (weight_sampler self)
     (initialized self) (weights_sample self) n.

(** The [tf.debugging.assert_shapes] of [_prepare_weight_sampler]:
    [(inducing_points, [M, D]); (q_mu, [M, P]); (q_sqrt, [P, M, M]);
    (Kmm, [M, M])]. *)
Definition assert_shapes (Z qmu qsqrt kmm : tensor) : result unit :=
  match shape Z, shape qmu, shape qsqrt, shape kmm with
  | [m1; _], [m2; p1], [p2; m3; m4], [m5; m6] =>
      if (m1 =? m2) && (m1 =? m3) && (m1 =? m4) && (m1 =? m5) && (m1 =? m6)
         && (p1 =? p2)
      then Ok ()
      else Err (ValueError ShapesAsserted)
  | _, _, _, _ => Err (ValueError ShapesAsserted)
  end.

(** The Gram matrix of the inducing points, with jitter on the diagonal. *)
Definition gram (l : GPLayer) : result tensor :=
  Kzz ← K (base_kernel l) (inducing_points l) (inducing_points l);
  m ← dim_at 0 (inducing_points l);
  tadd Kzz (scaled_eye m JITTER).

Definition _prepare_weight_sampler (l : GPLayer) : result weight_sampler_closure :=
  kmm ← gram l;
  M ← dim_at 0 (q_mu l);
  P ← dim_at 1 (q_mu l);
  _ ← assert_shapes (inducing_points l) (q_mu l) (q_sqrt l) kmm;
  Ok (mkClosure kmm (whiten l) M P).

(** The body of the closure, from the two random draws on. *)
Definition weights_from (l : GPLayer) (self : t) (c : weight_sampler_closure)
    (prior_weights noise : tensor) : result tensor :=
  u_noise_sample ← matmul (q_sqrt l) noise;
  u_noise0 ← last_axis_0 u_noise_sample;
  u_noise_t ← matrix_transpose u_noise0;
  u_sample ← tadd (q_mu l) u_noise_t;
  u_sample ← (if captured_whiten c
              then Luu ← cholesky (Kmm c); matmul Luu u_sample
              else Ok u_sample);
  phi ← FF.call l (feature_functions self) (inducing_points l);
  phi_Z ← first_columns (num_features self) phi;
  weight_space_prior_Z ← matmul phi_Z prior_weights;
  diff ← tsub u_sample weight_space_prior_Z;
  v ← compute_A_inv_b (Kmm c) diff;
  concat 1 prior_weights v.

(** Calling the closure [self._weight_sampler] with a batch size. *)
Definition call_weight_sampler (l : GPLayer) (self : t) (batch_size : nat)
    (g : nat) : result tensor * nat :=
  let c := weight_sampler self in
  let '(prior_weights, g1) :=
    random_normal [batch_size; num_features self; captured_P c] g in
  let '(noise, g2) :=
    random_normal [batch_size; captured_P c; captured_M c; 1] g1 in
  (weights_from l self c prior_weights noise, g2).

Definition init (lay : layer) (num_features : nat) (g : nat) : result t * nat :=
  match lay with
  | IsGPLayer l =>
      match FF.init lay num_features g with
      | (Ok ff, g1) =>
          (ws ← _prepare_weight_sampler l;
           Ok (mk num_features ff ws false (ones [0; 0; 0]) 0), g1)
      | (Err e, g1) => (Err e, g1)
      end
  | _ => (Err (ValueError LayerNotSupported), g)
  end.

Definition resample (l : GPLayer) (self : t) (g : nat) : result unit * t * nat :=
  match call_weight_sampler l self (batch_size self) g with
  | (Ok w, g1) => (Ok (), set_weights_sample w self, g1)
  | (Err e, g1) => (Err e, self, g1)
  end.

Definition update (l : GPLayer) (self : t) (g : nat) : result unit * t * nat :=
  match _prepare_weight_sampler l with
  | Ok ws => resample l (set_weight_sampler ws self) g
  | Err e => (Err e, self, g)
  end.

(** The [tf.debugging.assert_equal] on the batch dimension. *)
Definition assert_batch_size (self : t) (x : tensor) : result unit :=
  B ← dim_from_end 1 x;
  if B =? batch_size self then Ok ()
  else Err (InvalidArgumentError BatchSizeChanged).

(** The evaluation proper: features times cached weights, plus the mean. *)
Definition evaluate (l : GPLayer) (self : t) (x : tensor) : result tensor :=
  '(flat_x, unflatten) ← flatten_leading_dims x;
  flattened_feature_evaluations ← FF.call l (feature_functions self) flat_x;
  unflattened ← unflatten flattened_feature_evaluations;
  let feature_evaluations := new_last_axis unflattened in
  weighted ← tmul feature_evaluations (weights_sample self);
  summed ← reduce_sum_m2 weighted;
  mean ← apply_mean (mean_function l) x;
  tadd summed mean.

(** The first-call branch of [__call__]. *)
Definition initialize (l : GPLayer) (self : t) (x : tensor) (g : nat)
  : result unit * t * nat :=
  match dim_from_end 1 x with
  | Ok B =>
      match resample l (set_batch_size B self) g with
      | (Ok _, self', g1) => (Ok (), set_initialized true self', g1)
      | (Err e, self', g1) => (Err e, self', g1)
      end
  | Err e => (Err e, self, g)
  end.

(** [__call__]: [N, B, D] -> [N, B, P]. *)
Definition call (l : GPLayer) (self : t) (x : tensor) (g : nat)
  : result tensor * t * nat :=
  let '(r, self1, g1) :=
    if initialized self then (Ok (), self, g) else initialize l self x g in
  match r with
  | Ok _ => (_ ← assert_batch_size self1 x; evaluate l self1 x, self1, g1)
  | Err e => (Err e, self1, g1)
  end.

End Sampler.

End DeepGaussianProcessDecoupledLayer.

Module DL := DeepGaussianProcessDecoupledLayer.

(** ** The composed trajectory *)

Module dgp_feature_decomposition_trajectory.

Section Trajectory.

Context {BE : Backend}.

(** The trajectory holds the list [_sampling_layers]; each sampler is
    paired with the current state of the layer it refers to. *)

(** [for layer in self._sampling_layers: x = layer(x)]. *)
Fixpoint call_layers (ls : list GPLayer) (ss : list DL.t) (x : tensor) (g : nat)
  : result tensor * list DL.t * nat :=
  match ls, ss with
  | l :: ls', s :: ss' =>
      match DL.call l s x g with
      | (Ok y, s', g1) =>
          let '(r, ss'', g2) := call_layers ls' ss' y g1 in (r, s' :: ss'', g2)
      | (Err e, s', g1) => (Err e, s' :: ss', g1)
      end
  | _, _ => (Ok x, ss, g)
  end.

(** [__call__]: the layers in order, then the first output channel. *)
Definition call (ls : list GPLayer) (ss : list DL.t) (x : tensor) (g : nat)
  : result tensor * list DL.t * nat :=
  let '(r, ss', g1) := call_layers ls ss x g in
  (r ≫= last_axis_0, ss', g1).

(** A method of the samplers applied to each of them in order. *)
Fixpoint each (f : GPLayer -> DL.t -> nat -> result unit * DL.t * nat)
    (ls : list GPLayer) (ss : list DL.t) (g : nat)
  : result unit * list DL.t * nat :=
  match ls, ss with
  | l :: ls', s :: ss' =>
      match f l s g with
      | (Ok _, s', g1) =>
          let '(r, ss'', g2) := each f ls' ss' g1 in (r, s' :: ss'', g2)
      | (Err e, s', g1) => (Err e, s' :: ss', g1)
      end
  | _, _ => (Ok (), ss, g)
  end.

Definition update := each DL.update.

Definition resample := each DL.resample.

End Trajectory.

End dgp_feature_decomposition_trajectory.

Module Traj := dgp_feature_decomposition_trajectory.

(** ** The trajectory sampler (manager) *)

Module DeepGaussianProcessDecoupledTrajectorySampler.

Section Manager.

Context {BE : Backend}.

(** The manager and what it refers to: the current state of the layers of
    its model, the list object [_sampling_layers] (which every trajectory it
    hands out holds too), the next free object identity and the random
    generator. *)
Record t := mk {
  num_features : Z;
  gp_layers : list GPLayer;
  sampling_layers : list DL.t;
  next_object : nat;
  generator : nat;
}.

(** Python values that can be passed where a [TrajectoryFunction] is
    expected: an object of class [dgp_feature_decomposition_trajectory], or
    any other callable; each with its identity. *)
Inductive value :=
  | TrajectoryObject (id : nat)
  | OtherCallable (id : nat).

(** [[DeepGaussianProcessDecoupledLayer(layer, num_features) for layer in
    f_layers]]: the samplers in order, up to the first that raises. *)
Fixpoint build_layers (f_layers : list layer) (n : nat) (g : nat)
  : result (list DL.t) * nat :=
  match f_layers with
  | [] => (Ok [], g)
  | lay :: rest =>
      match DL.init lay n g with
      | (Ok s, g1) =>
          let '(r, g2) := build_layers rest n g1 in
          (ss ← r; Ok (s :: ss), g2)
      | (Err e, g1) => (Err e, g1)
      end
  end.

Definition gp_of (lay : layer) : option GPLayer :=
  match lay with
  | IsGPLayer l => Some l
  | _ => None
  end.

Definition init (m : model) (num_features : Z) (g : nat) : result t * nat :=
  match m with
  | GPfluxPredictor (DeepGP f_layers) =>
      if (0 <? num_features)%Z then
        match build_layers f_layers (Z.to_nat num_features) g with
        | (Ok ss, g1) =>
            (Ok (mk num_features (omap gp_of f_layers) ss 0 g1), g1)
        | (Err e, g1) => (Err e, g1)
        end
      else (Err (InvalidArgumentError NotPositive), g)
  | GPfluxPredictor OtherGPfluxModel => (Err (ValueError ModelNotDeepGP), g)
  | OtherModel => (Err (ValueError ModelNotPredictor), g)
  end.

Definition set_samplers (ss : list DL.t) (g : nat) (self : t) : t :=
  mk (num_features self) (gp_layers self) ss (next_object self) g.

(** [get_trajectory]: a new trajectory object around [_sampling_layers]. *)
Definition get_trajectory (self : t) : value * t :=
  (TrajectoryObject (next_object self),
   mk (num_features self) (gp_layers self) (sampling_layers self)
      (S (next_object self)) (generator self)).

(** Evaluating a trajectory object handed out by this manager. *)
Definition call_trajectory (x : tensor) (self : t) : result tensor * t :=
  let '(r, ss, g) := Traj.call (gp_layers self) (sampling_layers self) x (generator self) in
  (r, set_samplers ss g self).

End Manager.

End DeepGaussianProcessDecoupledTrajectorySampler.

Module Manager := DeepGaussianProcessDecoupledTrajectorySampler.

(** ** The managers of a program and their trajectories

    [update_trajectory] and [resample_trajectory] do not read the manager
    they are called on: they run a method of the trajectory they are given,
    on the list [_sampling_layers] that trajectory holds, which is the list
    of the manager that handed it out.  So the managers of a program are kept
    by identity, and a trajectory object names the manager whose list it
    holds. *)

Module Program.

Section Program.

Context {BE : Backend}.

(** The managers by identity, each with what it refers to, and the random
    generator, of which the program has one: the field [generator] of a
    manager in [managers] is not read. *)
Record t := mk {
  managers : nat -> Manager.t;
  generator : nat;
}.

(** Python values that can be passed where a [TrajectoryFunction] is
    expected: an object of class [dgp_feature_decomposition_trajectory],
    which holds the list [_sampling_layers] of the manager [owner], or any
    other callable. *)
Inductive value :=
  | TrajectoryObject (owner : nat) (id : nat)
  | OtherCallable (id : nat).

(** The manager [k] and what it refers to, with the generator where the
    program has it. *)
Definition view (k : nat) (p : t) : Manager.t :=
  Manager.set_samplers (Manager.sampling_layers (managers p k)) (generator p)
                       (managers p k).

(** The program in which the manager [k] and what it refers to have become
    [m], the generator included. *)
Definition store (k : nat) (m : Manager.t) (p : t) : t :=
  mk (<[k := m]> (managers p)) (Manager.generator m).

(** [get_trajectory] of the manager [self]: a new trajectory object around
    the list [_sampling_layers] of [self]. *)
Definition get_trajectory (self : nat) (p : t) : value * t :=
  let '(_, m) := Manager.get_trajectory (view self p) in
  (TrajectoryObject self (Manager.next_object (managers p self)), store self m p).

(** The common shape of [update_trajectory] and [resample_trajectory]: the
    [tf.debugging.Assert] on the class, the method of the trajectory, which
    loops over the list the trajectory holds, and the trajectory itself as
    the result. *)
Definition on_trajectory
    (method : list GPLayer -> list DL.t -> nat -> result unit * list DL.t * nat)
    (trajectory : value) (p : t) : result value * t :=
  match trajectory with
  | TrajectoryObject owner _ =>
      let m := view owner p in
      let '(r, ss, g) :=
        method (Manager.gp_layers m) (Manager.sampling_layers m) (Manager.generator m) in
      (_ ← r; Ok trajectory, store owner (Manager.set_samplers ss g m) p)
  | OtherCallable _ => (Err (InvalidArgumentError AssertFailed), p)
  end.

(** [update_trajectory] and [resample_trajectory] of the manager [self]. *)
Definition update_trajectory (self : nat) (trajectory : value) (p : t)
  : result value * t :=
  on_trajectory Traj.update trajectory p.

Definition resample_trajectory (self : nat) (trajectory : value) (p : t)
  : result value * t :=
  on_trajectory Traj.resample trajectory p.

End Program.

End Program.

(** ** The model wrapper of [models.py] *)

Module DeepGaussianProcess.

Section Wrapper.

Context {BE : Backend}.

(** The samples a layer returns when called, as GPflux draws them; only
    their shape is fixed here. *)
Variable gp_sample : GPLayer -> tensor -> nat -> list nat -> R.

Variable lv_sample : LatentVariableLayer -> tensor -> nat -> list nat -> R.

Record Dataset := mkDataset {
  query_points : tensor;
  observations : tensor;
}.

(** The wrapped [DeepGP]: [model_gpflux.num_data] and [f_layers]. *)
Record t := mk {
  model_num_data : nat;
  f_layers : list layer;
}.

(** [t.shape[-1]]. *)
Definition trailing_dim (x : tensor) : result nat :=
  match split_last (shape x) with
  | Some (_, d) => Ok d
  | None => Err (IndexError TupleIndex)
  end.

(** [t.shape[0]]. *)
Definition leading_dim (x : tensor) : result nat :=
  match shape x with
  | d :: _ => Ok d
  | [] => Err (IndexError TupleIndex)
  end.

(** [layer.num_data = n]. *)
Definition set_num_data (n : nat) (lay : layer) : layer :=
  match lay with
  | IsGPLayer l =>
      IsGPLayer (mkGPLayer (kernel l) (inducing_variable l) (q_mu l) (q_sqrt l)
                           (whiten l) (mean_function l) n)
  | IsLatentVariableLayer l => IsLatentVariableLayer (mkLVLayer (latent_dim l) n)
  | OtherLayer => OtherLayer
  end.

(** Calling a GP layer: one sample of its [P] outputs at each input. *)
Definition call_gp (l : GPLayer) (inputs : tensor) (g : nat) : result tensor * nat :=
  match split_last (shape inputs), shape (inducing_points l), shape (q_mu l) with
  | Some (batch, d), [_; d'], [_; P] =>
      if d =? d' then
        (Ok (mkT (batch ++ [P]) (gp_sample l inputs g)), g + prod_dims (batch ++ [P]))
      else (Err (InvalidArgumentError OpShapes), g)
  | _, _, _ => (Err (InvalidArgumentError OpShapes), g)
  end.

(** Calling a latent-variable layer: the inputs with a sample of the latent
    variable appended to each. *)
Definition call_lv (l : LatentVariableLayer) (inputs : tensor) (g : nat)
  : result tensor * nat :=
  match split_last (shape inputs) with
  | Some (batch, d) =>
      (Ok (mkT (batch ++ [d + latent_dim l]) (lv_sample l inputs g)),
       g + prod_dims (batch ++ [latent_dim l]))
  | None => (Err (InvalidArgumentError OpShapes), g)
  end.

(** The checks of [update] on one GP layer. *)
Definition check_gp (l : GPLayer) (is_last : bool) (inputs : tensor)
    (dataset : Dataset) : result unit :=
  d ← trailing_dim inputs;
  dz ← trailing_dim (inducing_points l);
  if negb (d =? dz) then Err (ValueError InputTrailingDim)
  else if is_last then
    o ← trailing_dim (observations dataset);
    p ← trailing_dim (q_mu l);
    if negb (o =? p) then Err (ValueError ObservationTrailingDim) else Ok ()
  else Ok ().

(** The loop of [update] from layer [i] on, [len] being the number of
    layers.  It returns the loop variable [inputs] as the loop leaves it,
    and the layers with [num_data] set as far as the loop went. *)
Fixpoint update_layers (new_num_data len i : nat) (layers : list layer)
    (inputs : tensor) (dataset : Dataset) (g : nat)
  : result tensor * list layer * nat :=
  match layers with
  | [] => (Ok inputs, [], g)
  | lay :: rest =>
      let lay' := set_num_data new_num_data lay in
      match lay with
      | IsLatentVariableLayer l =>
          match call_lv l inputs g with
          | (Ok y, g1) =>
              let '(r, rest', g2) :=
                update_layers new_num_data len (S i) rest y dataset g1 in
              (r, lay' :: rest', g2)
          | (Err e, g1) => (Err e, lay' :: rest, g1)
          end
      | IsGPLayer l =>
          match check_gp l (i =? len - 1) inputs dataset with
          | Ok _ =>
              match call_gp l inputs g with
              | (Ok y, g1) =>
                  let '(r, rest', g2) :=
                    update_layers new_num_data len (S i) rest y dataset g1 in
                  (r, lay' :: rest', g2)
              | (Err e, g1) => (Err e, lay' :: rest, g1)
              end
          | Err e => (Err e, lay' :: rest, g)
          end
      | OtherLayer => (Err (AttributeError NoSuchAttribute), lay' :: rest, g)
      end
  end.

Definition update (self : t) (dataset : Dataset) (g : nat) : result unit * t * nat :=
  match leading_dim (query_points dataset) with
  | Ok new_num_data =>
      let '(r, layers, g1) :=
        update_layers new_num_data (length (f_layers self)) 0 (f_layers self)
                      (query_points dataset) dataset g in
      (_ ← r; Ok (), mk new_num_data layers, g1)
  | Err e => (Err e, self, g)
  end.

End Wrapper.

End DeepGaussianProcess.

(** * The vocabulary of the statements *)

Section Vocabulary.
Context {BE : Backend}.

(** A sampler and the current state of its layer agree on the dimensions:
    [M] inducing points in dimension [D], [P] outputs, [L] features. *)
Record consistent (l : GPLayer) (self : DL.t) (M D P L : nat) : Prop := {
  shape_Z : shape (inducing_points l) = [M; D];
  shape_q_mu : shape (q_mu l) = [M; P];
  shape_q_sqrt : shape (q_sqrt l) = [P; M; M];
  shape_Kmm : shape (DL.Kmm (DL.weight_sampler self)) = [M; M];
  closure_M : DL.captured_M (DL.weight_sampler self) = M;
  closure_P : DL.captured_P (DL.weight_sampler self) = P;
  shape_W : shape (FF.W (DL.feature_functions self)) = [L; D];
  features_L : DL.num_features self = L;
}.

(** The Fourier features [Phi(x)[:, :L]] and the canonical features of the
    bank, entry by entry. *)
Definition fourier_at (l : GPLayer) (ff : FF.t) (x : tensor) (a j : nat) : R :=
  rff_fun (base_kernel l) (FF.n_components ff) (row (FF.W ff) j)
          (get (FF.b ff) [0; j]) (row x a).

Definition fourier_features (l : GPLayer) (ff : FF.t) (x : tensor) (n c : nat) : tensor :=
  mkT [n; c] (of_entries (fourier_at l ff x)).

Definition canonical_features (l : GPLayer) (x : tensor) (n m : nat) : tensor :=
  mkT [n; m] (transpose_at (mkT [m; n] (of_entries (fun a c =>
    kfun (base_kernel l) (row (inducing_points l) a) (row x c))))).

(** The Gram matrix with jitter, entry by entry. *)
Definition gram_at (l : GPLayer) (i j : nat) : R :=
  radd (kfun (base_kernel l) (row (inducing_points l) i) (row (inducing_points l) j))
       (if i =? j then JITTER else r0).

Definition gram_tensor (l : GPLayer) (M : nat) : tensor :=
  mkT [M; M]
    (ewise_at radd
       (mkT [M; M] (of_entries (fun a c =>
          kfun (base_kernel l) (row (inducing_points l) a) (row (inducing_points l) c))))
       (scaled_eye M JITTER)).

(** The draw [u = q_mu + q_sqrt noise] from the variational posterior. *)
Definition posterior_u (l : GPLayer) (noise : tensor) (M : nat) (x i c : nat) : R :=
  radd (get (q_mu l) [i; c])
       (rsum M (fun j => rmul (get (q_sqrt l) [c; i; j]) (get noise [x; c; j; 0]))).

(** [u], left-multiplied by the Cholesky factor [Luu] when [whiten] is set. *)
Definition inducing_u (whiten : bool) (Luu : nat -> nat -> R) (l : GPLayer)
    (noise : tensor) (M : nat) (x i c : nat) : R :=
  if whiten then rsum M (fun j => rmul (Luu i j) (posterior_u l noise M x j c))
  else posterior_u l noise M x i c.

(** [Phi(Z) prior]: the prior function at the inducing points. *)
Definition prior_at_Z (l : GPLayer) (ff : FF.t) (prior : tensor) (L : nat)
    (x i c : nat) : R :=
  rsum L (fun j =>
    rmul (fourier_at l ff (inducing_points l) i j) (get prior [x; j; c])).

(** The intermediate tensors of the closure, as the operations build them. *)
Definition u_tensor (l : GPLayer) (noise : tensor) (B M P : nat) : tensor :=
  mkT [B; M; P]
    (ewise_at radd (q_mu l)
       (mkT [B; M; P]
          (transpose_at
             (mkT [B; P; M]
                (last_axis_0_at
                   (mkT [B; P; M; 1] (matmul_at [P] [B; P] M (q_sqrt l) noise))))))).

Definition whitened_tensor (whiten : bool) (Luu : nat -> nat -> R) (u : tensor)
    (B M P : nat) : tensor :=
  if whiten then mkT [B; M; P] (matmul_at [] [B] M (mkT [M; M] (of_entries Luu)) u)
  else u.

Definition phi_Z_tensor (l : GPLayer) (ff : FF.t) (M L : nat) : tensor :=
  mkT [M; L `min` (L + M)]
    (concat_at 1 L (fourier_features l ff (inducing_points l) M L)
                   (canonical_features l (inducing_points l) M M)).

Definition diff_tensor (l : GPLayer) (self : DL.t) (Luu : nat -> nat -> R)
    (prior noise : tensor) (B M P L : nat) : tensor :=
  mkT [B; M; P]
    (ewise_at rsub
       (whitened_tensor (DL.captured_whiten (DL.weight_sampler self)) Luu
          (u_tensor l noise B M P) B M P)
       (mkT [B; M; P]
          (matmul_at [] [B] L (phi_Z_tensor l (DL.feature_functions self) M L) prior))).

Definition v_tensor (Luu : nat -> nat -> R) (diff : tensor) (B M P : nat) : tensor :=
  mkT [B; M; P]
    (triangular_solve_at true M (mkT [M; M] (of_entries Luu))
       (mkT [B; M; P]
          (triangular_solve_at false M (mkT [M; M] (of_entries Luu)) diff))).

(** The weights one call of the closure draws, for a consistent sampler. *)
Definition drawn_weights (l : GPLayer) (self : DL.t) (Luu : nat -> nat -> R)
    (M P L B g : nat) : tensor :=
  let prior := fst (random_normal [B; L; P] g) in
  let noise := fst (random_normal [B; P; M; 1] (g + prod_dims [B; L; P])) in
  mkT [B; L + M; P]
    (concat_at 1 L prior
       (v_tensor Luu (diff_tensor l self Luu prior noise B M P L) B M P)).

Definition after_draw (M P L B g : nat) : nat :=
  g + prod_dims [B; L; P] + prod_dims [B; P; M; 1].

(** The operations a caller can apply to a layer sampler, each with the state
    of the layer at that time (the model may be retrained in between). *)
Inductive operation :=
  | Call (l : GPLayer) (x : tensor)
  | Resample (l : GPLayer)
  | Update (l : GPLayer).

Definition apply_operation (st : DL.t * nat) (o : operation) : DL.t * nat :=
  match o with
  | Call l x => let '(_, s, g) := DL.call l (fst st) x (snd st) in (s, g)
  | Resample l => let '(_, s, g) := DL.resample l (fst st) (snd st) in (s, g)
  | Update l => let '(_, s, g) := DL.update l (fst st) (snd st) in (s, g)
  end.

Definition run (ops : list operation) (st : DL.t * nat) : DL.t * nat :=
  fold_left apply_operation ops st.

(** The state of the layer an operation sees. *)
Definition layer_of (o : operation) : GPLayer :=
  match o with
  | Call l _ => l
  | Resample l => l
  | Update l => l
  end.

(** The samplers a trajectory would call are initialized. *)
Fixpoint ready (ls : list GPLayer) (ss : list DL.t) : Prop :=
  match ls, ss with
  | _ :: ls', s :: ss' => DL.initialized s = true /\ ready ls' ss'
  | _, _ => True
  end.

(** Two outcomes agree in shape: both tensors of one shape, or both the same
    exception. *)
Definition same_shape (r r' : result tensor) : Prop :=
  match r, r' with
  | Ok t, Ok t' => shape t = shape t'
  | Err e, Err e' => e = e'
  | _, _ => False
  end.

(** A sampler that has not been evaluated yet, holding weights for batch
    size 0. *)
Definition awaiting_first_call (s : DL.t) (M P L : nat) : Prop :=
  DL.initialized s = false
  /\ DL.batch_size s = 0
  /\ shape (DL.weights_sample s) = [0; L + M; P].

(** The next call, on an input with batch dimension [B], initializes the
    sampler: it records [B] and caches the weights the weight sampler draws
    for [B], from the generator position of the call on. *)
Definition first_call_initializes (l : GPLayer) (s : DL.t) (x : tensor)
    (M P L B : nat) : Prop :=
  forall g0,
    let '(_, s', g') := DL.call l s x g0 in
    DL.initialized s' = true
    /\ DL.batch_size s' = B
    /\ shape (DL.weights_sample s') = [B; L + M; P]
    /\ g' = after_draw M P L B g0
    /\ DL.call_weight_sampler l s B g0 = (Ok (DL.weights_sample s'), g').

End Vocabulary.

(** * A concrete backend: integer scalars

    Integers as scalars, a linear kernel [k(x, y) = variance * <x, y>], which
    the feature constructor accepts, and a Cholesky factorisation that is
    defined on identity matrices only (where the factor is the identity and
    the triangular solves return their right-hand side) and raises on every
    other matrix.  It is used to run the model on concrete inputs. *)

Module IntegerBackend.

Definition dot (x y : list Z) : Z := foldr Z.add 0%Z (zip_with Z.mul x y).

Definition delta (i j : nat) : Z := if i =? j then 1%Z else 0%Z.

Definition is_identity (m : nat) (A : nat -> nat -> Z) : bool :=
  forallb (fun i => forallb (fun j => (A i j =? delta i j)%Z) (seq 0 m)) (seq 0 m).

#[global] Instance backend : Backend := {|
  R := Z; r0 := 0%Z; r1 := 1%Z;
  radd := Z.add; rmul := Z.mul; rsub := Z.sub; ropp := Z.opp;
  JITTER := 1%Z;
  kern := Z;
  kfun variance x y := (variance * dot x y)%Z;
  rff_fun _ _ w b x := (dot w x + b)%Z;
  rff_refusal _ := None;
  normal n := (Z.of_nat n + 1)%Z;
  bias_stream n := (10 + Z.of_nat n)%Z;
  weights_stream _ n := (100 + Z.of_nat n)%Z;
  bias_init_stream n := (20 + Z.of_nat n)%Z;
  weights_init_stream _ n := (200 + Z.of_nat n)%Z;
  chol m A := if is_identity m A then Some delta else None;
  chol_no_factor _ _ := Err (InvalidArgumentError CholeskyFailed);
  tsolve _ _ _ rhs := rhs;
  has_bias_init := false;
  meanfn := nat;
  mean_dim p := p;
  mean_at _ _ _ := 0%Z;
|}.

(** Matrices and rank-3 tensors from nested lists. *)
Definition matrix (rows : list (list Z)) : tensor :=
  mkT [length rows; length (hd [] rows)]
      (of_entries (fun r c => nth c (nth r rows []) 0%Z)).

Definition tensor3 (xs : list (list (list Z))) : tensor :=
  mkT [length xs; length (hd [] xs); length (hd [] (hd [] xs))]
      (fun i =>
         match i with
         | [a; r; c] => nth c (nth r (nth a xs []) []) 0%Z
         | _ => 0%Z
         end).

(** One GP layer on one input dimension: three inducing points at -1, 0
    and 1, [q_mu = 0], [q_sqrt = 2 I], a linear kernel of the given
    variance, one output. *)
Definition gp_layer (variance : Z) : GPLayer :=
  mkGPLayer (PlainKernel variance)
            (InducingPoints (matrix [[-1]; [0]; [1]]%Z))
            (matrix [[0]; [0]; [0]]%Z)
            (tensor3 [[[2; 0; 0]; [0; 2; 0]; [0; 0; 2]]]%Z)
            false 1 0.

(** The sampler [init] builds for the layer with variance 0 and two
    features, from generator position 0. *)
Definition sampler : DL.t :=
  match DL.init (IsGPLayer (gp_layer 0)) 2 0 with
  | (Ok s, _) => s
  | (Err _, _) => DL.mk 0 (FF.mk 0 (ones []) (ones [])) (DL.mkClosure (ones []) false 0 0)
                        false (ones []) 0
  end.

(** Points [-1], [0], [1], each with batch size 1: shape [3, 1, 1]. *)
Definition x_3_1_1 : tensor := tensor3 [[[-1]]; [[0]]; [[1]]]%Z.

(** The same points with batch size 2: shape [3, 2, 1]. *)
Definition x_3_2_1 : tensor := tensor3 [[[-1]; [-1]]; [[0]; [0]]; [[1]; [1]]]%Z.

End IntegerBackend.

Module DGP := DeepGaussianProcess.

(** A GP layer of the integer backend with the given inducing points and
    variational mean (one row per inducing point). *)
Definition integer_gp (Z q_mu : list (list Z)) : GPLayer :=
  mkGPLayer (PlainKernel 1%Z)
            (InducingPoints (IntegerBackend.matrix Z))
            (IntegerBackend.matrix q_mu)
            (IntegerBackend.tensor3 [[[1%Z]]]) false 1 0.

Definition integer_layer (Z q_mu : list (list Z)) : layer :=
  IsGPLayer (integer_gp Z q_mu).

(** The samples of the layers do not matter to the checks: all zero. *)
Definition zero_gp_sample (_ : GPLayer) (_ : tensor) (_ : nat) (_ : list nat)
  : @R IntegerBackend.backend := 0%Z.

Definition zero_lv_sample (_ : LatentVariableLayer) (_ : tensor) (_ : nat)
    (_ : list nat) : @R IntegerBackend.backend := 0%Z.

(** * The vocabulary of the further properties *)

Section EvaluationVocabulary.

Context {BE : Backend}.

(** The feature [j] of the bank at a point: a random Fourier feature for
    [j < L], the canonical feature [k(z, .)] of the inducing point [j - L]
    after that. *)
Definition feature_at (l : GPLayer) (ff : FF.t) (L : nat) (pt : list R) (j : nat) : R :=
  if j <? L then
    rff_fun (base_kernel l) (FF.n_components ff) (row (FF.W ff) j)
            (get (FF.b ff) [0; j]) pt
  else kfun (base_kernel l) (row (inducing_points l) (j - L)) pt.

(** The value of the sampled function of a layer at a point, for the member
    [b] of the batch and the output [p]: the features weighted by the cached
    weights, plus the mean function. *)
Definition trajectory_value (l : GPLayer) (s : DL.t) (L M : nat) (pt : list R)
    (b p : nat) : R :=
  radd (rsum (L + M) (fun j =>
          rmul (feature_at l (DL.feature_functions s) L pt j)
               (get (DL.weights_sample s) [b; j; p])))
       (mean_at (mean_function l) pt p).

(** The tensors of [__call__], as the operations build them. *)
Definition flat_tensor (x : tensor) (N B D : nat) : tensor :=
  mkT [prod_dims [N; B]; D] (of_entries (fun r k => get x (unravel [N; B] r ++ [k]))).

Definition features_tensor (l : GPLayer) (s : DL.t) (x : tensor) (N B M D L : nat)
  : tensor :=
  new_last_axis
    (mkT [N; B; L + M]
       (unflatten_at [N; B]
          (mkT [prod_dims [N; B]; L + M]
             (concat_at 1 L
                (fourier_features l (DL.feature_functions s) (flat_tensor x N B D)
                   (prod_dims [N; B]) L)
                (canonical_features l (flat_tensor x N B D) (prod_dims [N; B]) M))))).

Definition evaluated (l : GPLayer) (s : DL.t) (x : tensor) (N B M D P L : nat)
  : tensor :=
  mkT [N; B; P]
    (ewise_at radd
       (mkT [N; B; P]
          (reduce_sum_m2_at (L + M)
             (mkT [N; B; L + M; P]
                (ewise_at rmul (features_tensor l s x N B M D L)
                               (DL.weights_sample s)))))
       (mkT [N; B; P] (apply_mean_at (mean_function l) D x))).

(** A sampler is in step with its layer: consistent with it, and, once it
    is initialized, holding weights for its batch size. *)
Definition in_step (l : GPLayer) (s : DL.t) (M D P L : nat) : Prop :=
  consistent l s M D P L
  /\ (DL.initialized s = true ->
      shape (DL.weights_sample s) = [DL.batch_size s; L + M; P]).

(** The shapes of the parameters of a layer. *)
Definition layer_shapes (l : GPLayer) (M D P : nat) : Prop :=
  shape (inducing_points l) = [M; D]
  /\ shape (q_mu l) = [M; P]
  /\ shape (q_sqrt l) = [P; M; M].

End EvaluationVocabulary.

Section TrajectoryVocabulary.

Context {BE : Backend}.

(** A layer sampler that is ready to evaluate inputs with batch dimension
    [B] and trailing dimension [D], giving [P] outputs. *)
Definition layer_ready (l : GPLayer) (s : DL.t) (B D P : nat) : Prop :=
  exists M L,
    consistent l s M D P L
    /\ DL.initialized s = true
    /\ DL.batch_size s = B
    /\ shape (DL.weights_sample s) = [B; L + M; P]
    /\ mean_dim (mean_function l) = P.

(** The samplers of a trajectory fit together: each is ready for the batch
    dimension [B], and the outputs of one are the inputs of the next, from
    [D] inputs to [P] outputs. *)
Fixpoint chained (ls : list GPLayer) (ss : list DL.t) (B D P : nat) : Prop :=
  match ls, ss with
  | [], [] => D = P
  | l :: ls', s :: ss' =>
      exists P', layer_ready l s B D P' /\ chained ls' ss' B P' P
  | _, _ => False
  end.

(** The value at the inducing point [i] that Matheron's rule gives the
    sampled function of a layer: the draw [u] of the inducing variable, less
    the jitter times the solution [v], plus the mean function. *)
Definition value_at_inducing_point (l : GPLayer) (Luu : nat -> nat -> R)
    (noise v : tensor) (M L b i p : nat) : R :=
  radd (rsub (inducing_u (whiten l) Luu l noise M b i p)
             (rmul JITTER (get v [b; i; p])))
       (mean_at (mean_function l) (row (inducing_points l) i) p).

End TrajectoryVocabulary.

(** The integer sampler after its first call, on three points with batch
    size 1 from generator position 4; and the generator after that call. *)
Definition called_sampler : DL.t :=
  snd (fst (DL.call (IntegerBackend.gp_layer 0) IntegerBackend.sampler
                    IntegerBackend.x_3_1_1 4)).

Section FrameVocabulary.

Context {BE : Backend}.

(** Two states of a layer sampler with the same random features, feature
    count, initialization flag and batch size. *)
Definition same_setup (s s' : DL.t) : Prop :=
  DL.feature_functions s' = DL.feature_functions s
  /\ DL.num_features s' = DL.num_features s
  /\ DL.initialized s' = DL.initialized s
  /\ DL.batch_size s' = DL.batch_size s.

(** What construction leaves: a sampler that has not been evaluated, with
    [n] features, consistent with its layer. *)
Definition as_constructed (n : nat) (l : GPLayer) (s : DL.t) : Prop :=
  DL.initialized s = false
  /\ DL.batch_size s = 0
  /\ DL.num_features s = n
  /\ DL._prepare_weight_sampler l = Ok (DL.weight_sampler s)
  /\ exists M D P, consistent l s M D P n.

End FrameVocabulary.

(** The three-point integer layer retrained: inducing points at -2, 0 and
    3, [q_mu = (1, 2, 3)] and a lower triangular [q_sqrt]. *)
Definition retrained_layer : GPLayer :=
  mkGPLayer (PlainKernel 0%Z)
            (InducingPoints (IntegerBackend.matrix [[-2]; [0]; [3]]%Z))
            (IntegerBackend.matrix [[1]; [2]; [3]]%Z)
            (IntegerBackend.tensor3 [[[1; 0; 0]; [1; 1; 0]; [0; 1; 1]]]%Z)
            false 1 0.

(** The integer trajectory of two layers after its first call, on three
    points with batch size 1. *)
Definition called_samplers : list DL.t :=
  snd (fst (Traj.call [IntegerBackend.gp_layer 0; IntegerBackend.gp_layer 0]
                      [IntegerBackend.sampler; IntegerBackend.sampler]
                      IntegerBackend.x_3_1_1 4)).

Section UpdateVocabulary.

Context {BE : Backend}.



End UpdateVocabulary.

(** A latent-variable layer with one latent dimension. *)
Definition integer_lv : layer := IsLatentVariableLayer (mkLVLayer 1 0).

(** The manager of the one-layer integer model, as constructed with two
    features from generator position 0. *)
Definition integer_manager : Manager.t :=
  Manager.mk 2 [IntegerBackend.gp_layer 0] [IntegerBackend.sampler] 0 4.

(** * Further code of [models.py] and [sampler.py] *)

(** ** Its exceptions *)

(** The exceptions of the code below: those of [exn], and those of further
    raise sites. *)
Inductive raised :=
  | Earlier (e : exn)
  | LatentLayersNotSupported  (* NotImplementedError: "Currently we do not support
                                 latent variable layers for ..." *)
  | ModelInputTrailingDim     (* ValueError: "Shape ... of input to the model is
                                 incompatible with shape ... of the model" *)
  | NoLastLayer               (* IndexError: [f_layers[-1]] of an empty list *)
  | NoSuchVariable            (* IndexError: [_eps_list[i]] beyond the list *)
  | KeyError (key : string)   (* a dictionary without the key *)
  | NotAnInteger              (* TypeError: [range] of a value that is no integer *)
  | NotOrdered                (* TypeError: [<] between an int and a value that
                                 is no number *)
  | RankNotTwo                (* InvalidArgumentError:
                                 [tf.debugging.assert_equal(len(tf.shape(at)), 2)] *)
  | NegativeJitter            (* InvalidArgumentError:
                                 [tf.debugging.assert_greater_equal(jitter, 0.0)] *).

Inductive outcome (A : Type) :=
  | Returned (a : A)
  | Raised (e : raised).
Arguments Returned {A} a.
Arguments Raised {A} e.

#[global] Instance outcome_ret : MRet outcome := fun A a => Returned a.

#[global] Instance outcome_bind : MBind outcome := fun A B f m =>
  match m with Returned a => f a | Raised e => Raised e end.

(** A computation of the earlier part, with its exception as it is. *)
Definition lift {A} (r : result A) : outcome A :=
  match r with Ok a => Returned a | Err e => Raised (Earlier e) end.

Definition has_returned {A} (r : outcome A) : bool :=
  match r with Returned _ => true | Raised _ => false end.

(** The value a computation returned, and a default when it raised. *)
Definition returned_value {A} (d : A) (r : outcome A) : A :=
  match r with Returned a => a | Raised _ => d end.

(** ** [GlobalInducingDeepGaussianProcess.update] and
       [DeepKernelProcess.update] *)

(** The two methods have the same text. *)
Module GlobalInducingDeepGaussianProcess.

Section Wrapper.

Context {BE : Backend}.

(** A layer of the wrapped model, as far as [update] looks at it: whether
    it is a [LatentVariableLayer], its attribute [v] if it has one, and its
    [num_data]. *)
Record layer := mkLayer {
  is_LatentVariableLayer : bool;
  v : option tensor;
  num_data : nat;
}.

(** The wrapped model: [num_data], [inducing_data] and [f_layers]. *)
Record t := mk {
  model_num_data : nat;
  inducing_data : tensor;
  f_layers : list layer;
}.

(** [layer.num_data = n]. *)
Definition set_num_data (n : nat) (lay : layer) : layer :=
  mkLayer (is_LatentVariableLayer lay) (v lay) n.

(** The loop of [update]: it returns the layers with [num_data] set as far
    as it went. *)
Fixpoint update_layers (new_num_data : nat) (layers : list layer)
  : outcome unit * list layer :=
  match layers with
  | [] => (Returned (), [])
  | lay :: rest =>
      let lay' := set_num_data new_num_data lay in
      if is_LatentVariableLayer lay then
        (Raised LatentLayersNotSupported, lay' :: rest)
      else
        let '(r, rest') := update_layers new_num_data rest in
        (r, lay' :: rest')
  end.

(** [tf.shape(t)[-1]]. *)
Definition last_dim (x : tensor) : outcome nat := lift (dim_from_end 0 x).

(** [self.model_gpflux.f_layers[-1].v]. *)
Definition last_v (layers : list layer) : outcome tensor :=
  match last layers with
  | None => Raised NoLastLayer
  | Some lay =>
      match v lay with
      | Some t => Returned t
      | None => Raised (Earlier (AttributeError NoSuchAttribute))
      end
  end.

(** The two checks after the loop. *)
Definition check_shapes (inputs : tensor) (dataset : DGP.Dataset) (self : t)
  : outcome unit :=
  d ← last_dim inputs;
  di ← last_dim (inducing_data self);
  if negb (d =? di) then Raised ModelInputTrailingDim
  else
    o ← last_dim (DGP.observations dataset);
    last ← last_v (f_layers self);
    dv ← last_dim last;
    if negb (o =? dv) then Raised (Earlier (ValueError ObservationTrailingDim))
    else Returned ().

Definition update (self : t) (dataset : DGP.Dataset) : outcome unit * t :=
  let inputs := DGP.query_points dataset in
  match DGP.leading_dim inputs with
  | Ok new_num_data =>
      let '(r, layers) := update_layers new_num_data (f_layers self) in
      let self' := mk new_num_data (inducing_data self) layers in
      (_ ← r; check_shapes inputs dataset self', self')
  | Err e => (Raised (Earlier e), self)
  end.

End Wrapper.

End GlobalInducingDeepGaussianProcess.

Module GIDGP := GlobalInducingDeepGaussianProcess.

(** ** [DeepKernelProcess.optimize] *)

Module DeepKernelProcess.

Section Optimize.

(** Python floats, and the comparison of an int with one. *)
Variable float : Type.

Variable int_lt_float : Z -> float -> bool.

(** The values of the dictionary [fit_args]: ints, bools, floats, and other
    objects with their truth value. *)
Inductive value :=
  | PyInt (z : Z)
  | PyBool (b : bool)
  | PyFloat (x : float) (truth : bool)
  | PyOther (truth : bool).

(** [d[key]]. *)
Definition getitem (d : gmap string value) (key : string) : outcome value :=
  match d !! key with
  | Some v => Returned v
  | None => Raised (KeyError key)
  end.

(** The argument of [range]: an int, or a bool as the int it is. *)
Definition as_index (v : value) : outcome Z :=
  match v with
  | PyInt z => Returned z
  | PyBool b => Returned (Z.b2z b)
  | _ => Raised NotAnInteger
  end.

(** [epoch < v] for an int [epoch]. *)
Definition int_lt (epoch : Z) (v : value) : outcome bool :=
  match v with
  | PyInt z => Returned (epoch <? z)%Z
  | PyBool b => Returned (epoch <? Z.b2z b)%Z
  | PyFloat x _ => Returned (int_lt_float epoch x)
  | PyOther _ => Raised NotOrdered
  end.

(** The truth value of [d.get(key)]; [None] for a missing key is false. *)
Definition truth_of_get (d : gmap string value) (key : string) : bool :=
  match d !! key with
  | Some (PyInt z) => negb (z =? 0)%Z
  | Some (PyBool b) => b
  | Some (PyFloat _ truth) => truth
  | Some (PyOther truth) => truth
  | None => false
  end.

(** The temperature [T] of the loss: [0.1] or [1.0]. *)
Inductive temperature :=
  | Tempered
  | Untempered.

(** The trainable variables and the state of the optimizer; one gradient
    step on the loss at a temperature; and the [print] of an epoch, which
    reads the loss and the model. *)
Variable training : Type.

Variable gradient_step : temperature -> training -> training.

Variable report : Z -> training -> outcome unit.

(** The epochs from [epoch] on, [count] of them. *)
Fixpoint run_epochs (fit_args : gmap string value) (count : nat) (epoch : Z)
    (st : training) : outcome unit * training :=
  match count with
  | 0 => (Returned (), st)
  | S count' =>
      match (v ← getitem fit_args "temper_until"; int_lt epoch v) : outcome bool with
      | Returned tempered =>
          let T := if tempered then Tempered else Untempered in
          let st' := gradient_step T st in
          match (if truth_of_get fit_args "verbose" then report epoch st'
                 else Returned ()) with
          | Returned _ => run_epochs fit_args count' (epoch + 1) st'
          | Raised e => (Raised e, st')
          end
      | Raised e => (Raised e, st)
      end
  end.

Definition optimize (fit_args : gmap string value) (st : training)
  : outcome unit * training :=
  match (v ← getitem fit_args "epochs"; as_index v) : outcome Z with
  | Returned epochs => run_epochs fit_args (Z.to_nat epochs) 0 st
  | Raised e => (Raised e, st)
  end.


End Optimize.

End DeepKernelProcess.

Module DKP := DeepKernelProcess.

(** The default [fit_args] of [DeepGaussianProcess]: no [temper_until]. *)
Definition dgp_fit_args : gmap string (DKP.value unit) :=
  <["verbose" := DKP.PyInt unit 0%Z]>
    (<["epochs" := DKP.PyInt unit 100%Z]>
       (<["batch_size" := DKP.PyInt unit 100%Z]> ∅)).


(** Training states that count the gradient steps at each temperature. *)
Definition count_step (T : DKP.temperature) (st : nat * nat) : nat * nat :=
  match T with
  | DKP.Tempered => (S (fst st), snd st)
  | DKP.Untempered => (fst st, S (snd st))
  end.

(** ** [DeepGaussianProcessReparamSampler.sample] *)

Module DeepGaussianProcessReparamSampler.

Section Sampler.

Context {BE : Backend}.

(** What GPflux and TensorFlow compute for the sampler: the mean and the
    variance [layer.predict] returns at the samples, the square root, the
    sample of the prior of a latent-variable layer for a batch shape (with
    its assignment to the variable, which checks the shape) and the
    compositor of such a layer. *)
Variable predict : GPLayer -> tensor -> result (tensor * tensor).

Variable sqrt : R -> R.

Variable prior_sample : LatentVariableLayer -> list nat -> nat -> result tensor * nat.

Variable compositor : LatentVariableLayer -> tensor -> tensor -> result tensor.

(** The values [jitter] can take, and [jitter >= 0.0]. *)
Variable float : Type.

Variable nonnegative : float -> bool.

(** The sampler: [_sample_size], the layers of the model, the variables of
    [_eps_list] and [_initialized]. *)
Record t := mk {
  sample_size : nat;
  f_layers : list layer;
  eps_list : list tensor;
  initialized : bool;
}.

(** [tf.tile(tf.expand_dims(at, 0), [self._sample_size, 1, 1])]. *)
Definition tile_samples (size : nat) (at_ : tensor) : tensor :=
  mkT (size :: shape at_) (fun i => get at_ (tail i)).

(** [eps[:, None, :]]. *)
Definition expand_middle (eps : tensor) : result tensor :=
  match shape eps with
  | [s; p] => Ok (mkT [s; 1; p] (fun i => get eps [nth 0 i 0; nth 2 i 0]))
  | _ => Err (InvalidArgumentError OpShapes)
  end.

(** [tf.sqrt(var)]. *)
Definition tsqrt (var : tensor) : tensor :=
  mkT (shape var) (fun i => sqrt (get var i)).

(** [self._eps_list[i]]. *)
Definition eps_at (eps : list tensor) (i : nat) : outcome tensor :=
  match eps !! i with
  | Some e => Returned e
  | None => Raised NoSuchVariable
  end.

(** [if not self._initialized: self._eps_list[i].assign(value)], for the
    value a draw gives. *)
Definition assign_eps (initialized : bool) (i : nat)
    (value : nat -> result tensor * nat) (eps : list tensor) (g : nat)
  : outcome unit * list tensor * nat :=
  if initialized then (Returned (), eps, g)
  else
    match eps !! i with
    | None => (Raised NoSuchVariable, eps, g)
    | Some _ =>
        match value g with
        | (Ok e, g1) => (Returned (), <[i := e]> eps, g1)
        | (Err e, g1) => (Raised (Earlier e), eps, g1)
        end
    end.

(** The body of the loop for a latent-variable layer. *)
Definition lv_step (initialized : bool) (i : nat) (l : LatentVariableLayer)
    (samples : tensor) (eps : list tensor) (g : nat)
  : outcome tensor * list tensor * nat :=
  let '(r, eps1, g1) :=
    assign_eps initialized i
      (prior_sample l (take (rank samples - 1) (shape samples))) eps g in
  (_ ← r; e ← eps_at eps1 i; lift (compositor l samples e), eps1, g1).

(** The body of the loop for a GP layer. *)
Definition gp_step (initialized : bool) (size i : nat) (l : GPLayer)
    (samples : tensor) (eps : list tensor) (g : nat)
  : outcome tensor * list tensor * nat :=
  match predict l samples with
  | Ok (mean, var) =>
      let '(r, eps1, g1) :=
        assign_eps initialized i
          (fun g => match dim_from_end 0 mean with
                    | Ok P => let '(e, g1) := random_normal [size; P] g in (Ok e, g1)
                    | Err e => (Err e, g)
                    end) eps g in
      (_ ← r; e ← eps_at eps1 i; e3 ← lift (expand_middle e);
       scaled ← lift (tmul (tsqrt var) e3); lift (tadd mean scaled), eps1, g1)
  | Err e => (Raised (Earlier e), eps, g)
  end.

(** [for i, layer in enumerate(self._model_gpflux.f_layers)], from [i] on. *)
Fixpoint sample_layers (initialized : bool) (size i : nat) (layers : list layer)
    (samples : tensor) (eps : list tensor) (g : nat)
  : outcome tensor * list tensor * nat :=
  match layers with
  | [] => (Returned samples, eps, g)
  | lay :: rest =>
      let step :=
        match lay with
        | IsLatentVariableLayer l => lv_step initialized i l samples eps g
        | IsGPLayer l => gp_step initialized size i l samples eps g
        | OtherLayer => (Raised (Earlier (AttributeError NoSuchAttribute)), eps, g)
        end in
      match step with
      | (Returned y, eps1, g1) =>
          sample_layers initialized size (S i) rest y eps1 g1
      | (Raised e, eps1, g1) => (Raised e, eps1, g1)
      end
  end.

Definition set_eps (eps : list tensor) (initialized : bool) (self : t) : t :=
  mk (sample_size self) (f_layers self) eps initialized.

(** [sample(at, jitter=jitter)]. *)
Definition sample (at_ : tensor) (jitter : float) (self : t) (g : nat)
  : outcome tensor * t * nat :=
  if negb (rank at_ =? 2) then (Raised RankNotTwo, self, g)
  else if negb (nonnegative jitter) then (Raised NegativeJitter, self, g)
  else
    let '(r, eps, g1) :=
      sample_layers (initialized self) (sample_size self) 0 (f_layers self)
                    (tile_samples (sample_size self) at_) (eps_list self) g in
    match r with
    | Returned y => (Returned y, set_eps eps true self, g1)
    | Raised e => (Raised e, set_eps eps (initialized self) self, g1)
    end.

End Sampler.

End DeepGaussianProcessReparamSampler.

Module Reparam := DeepGaussianProcessReparamSampler.

(** For the integer backend: a prediction with the first input coordinate
    as mean and variance one, for samples whose width is that of the inducing
    points of the layer; other samples are refused. *)
Definition integer_predict (l : GPLayer) (x : tensor)
  : result (tensor * tensor) :=
  match shape x, shape (inducing_points l) with
  | [s; n; d], [_; d'] =>
      if d =? d' then
        Ok (mkT [s; n; 1] (fun i => get x (take 2 i ++ [0])), ones [s; n; 1])
      else Err (InvalidArgumentError OpShapes)
  | _, _ => Err (InvalidArgumentError OpShapes)
  end.

(** A reparametrization sampler of size 2 over the one-layer integer model,
    as its construction leaves it. *)
Definition integer_reparam : Reparam.t :=
  Reparam.mk 2 [IsGPLayer (IntegerBackend.gp_layer 0)] [ones [2; 0]] false.

Section MatrixInputVocabulary.

Context {BE : Backend}.

(** The tensors of [__call__] on a matrix of [N] points, as the operations
    build them. *)
Definition flat_matrix (x : tensor) (N D : nat) : tensor :=
  mkT [prod_dims [N]; D] (of_entries (fun r k => get x (unravel [N] r ++ [k]))).

Definition features_matrix (l : GPLayer) (s : DL.t) (x : tensor) (N M D L : nat)
  : tensor :=
  new_last_axis
    (mkT [N; L + M]
       (unflatten_at [N]
          (mkT [prod_dims [N]; L + M]
             (concat_at 1 L
                (fourier_features l (DL.feature_functions s) (flat_matrix x N D)
                   (prod_dims [N]) L)
                (canonical_features l (flat_matrix x N D) (prod_dims [N]) M))))).

Definition evaluated_matrix (l : GPLayer) (s : DL.t) (x : tensor) (N M D P L : nat)
  : tensor :=
  mkT [N; P]
    (ewise_at radd
       (mkT [N; P]
          (reduce_sum_m2_at (L + M)
             (mkT [N; L + M; P]
                (ewise_at rmul (features_matrix l s x N M D L)
                               (DL.weights_sample s)))))
       (mkT [N; P] (apply_mean_at (mean_function l) D x))).

End MatrixInputVocabulary.

(** One point of two coordinates, with batch size 1: shape [1, 1, 2]. *)
Definition x_1_1_2 : tensor := IntegerBackend.tensor3 [[[1; 2]]]%Z.

(** The integer sampler marked as initialized for batch size 3, with weights
    for three batch members. *)
Definition sampler_of_three : DL.t :=
  DL.set_initialized true
    (DL.set_weights_sample (IntegerBackend.tensor3
                              [[[1]; [0]; [0]; [0]; [0]];
                               [[2]; [0]; [0]; [0]; [0]];
                               [[3]; [0]; [0]; [0]; [0]]]%Z)
       (DL.set_batch_size 3 IntegerBackend.sampler)).

(** ** [sample_consistent_lv_layer] *)

Module SampleLV.

Section Sample.

Context {BE : Backend}.

(** [layer.prior.sample()]: a draw from the prior of the latent variable,
    and the generator after it; and [layer.compositor]. *)
Variable prior_sample : LatentVariableLayer -> nat -> tensor * nat.

Variable compositor : LatentVariableLayer -> tensor -> tensor -> result tensor.

(** [tf.expand_dims(t, 0)]. *)
Definition expand_dims_0 (t : tensor) : tensor :=
  mkT (1 :: shape t) (fun i => get t (tail i)).

(** [tf.tile(t, multiples)]. *)
Definition tile (t : tensor) (multiples : list nat) : result tensor :=
  if length multiples =? rank t then
    Ok (mkT (zip_with Nat.mul (shape t) multiples)
            (fun i => get t (zip_with Nat.modulo i (shape t))))
  else Err (InvalidArgumentError OpShapes).

(** The sample of the prior, given the batch dimensions of [X]:
    [tf.expand_dims] once for each of them, then [tf.tile]. *)
Definition tiled_sample (sample X : tensor) : result tensor :=
  let batch_shape := take (rank X - 1) (shape X) in
  let sample_rank := rank sample in
  let expanded := Nat.iter (length batch_shape) expand_dims_0 sample in
  tile expanded (batch_shape ++ repeat 1 sample_rank).

(** [SampleLV.__call__]. *)
Definition call (layer : LatentVariableLayer) (X : tensor) (g : nat)
  : result tensor * nat :=
  let '(sample, g1) := prior_sample layer g in
  (tiled ← tiled_sample sample X; compositor layer X tiled, g1).

End Sample.

End SampleLV.

Section ReparamVocabulary.

Context {BE : Backend}.

(** [layer.predict] of the layer [l] returns, for samples of shape
    [[S, N, D]], a mean and a variance of shape [[S, N, out l]]. *)
Definition predicts_at (predict : GPLayer -> tensor -> result (tensor * tensor))
    (out : GPLayer -> nat) (l : GPLayer) (D : nat) : Prop :=
  forall x size N, shape x = [size; N; D] ->
    exists mean var,
      predict l x = Ok (mean, var)
      /\ shape mean = [size; N; out l] /\ shape var = [size; N; out l].

(** [layer.predict] returns so for each of the layers on the samples that
    reach it: of width [D] for the first layer, and of the width of the
    outputs of the layer before for every other. *)
Fixpoint predicts (predict : GPLayer -> tensor -> result (tensor * tensor))
    (out : GPLayer -> nat) (ls : list GPLayer) (D : nat) : Prop :=
  match ls with
  | [] => True
  | l :: ls' => predicts_at predict out l D /\ predicts predict out ls' (out l)
  end.

(** The number of outputs of the last of the layers, [D] when there is none. *)
Definition last_out (out : GPLayer -> nat) (D : nat) (ls : list GPLayer) : nat :=
  from_option out D (last ls).

(** The random numbers the first sample draws: as many as the sample size
    for each output of each layer. *)
Definition noise_size (out : GPLayer -> nat) (size : nat) (ls : list GPLayer) : nat :=
  sum_list (map (fun l => prod_dims [size; out l]) ls).

End ReparamVocabulary.

Section EndToEndVocabulary.

Context {BE : Backend}.

(** The layers of a model fit together, from [D] inputs to [P] outputs: the
    parameters of each have consistent shapes, its mean function has as many
    outputs as the layer, its Gram matrix has a Cholesky factor, and its
    outputs are the inputs of the next. *)
Fixpoint layers_fit (ls : list GPLayer) (D P : nat) : Prop :=
  match ls with
  | [] => D = P
  | l :: ls' =>
      exists M P',
        layer_shapes l M D P'
        /\ mean_dim (mean_function l) = P'
        /\ is_Some (chol M (entries (gram_tensor l M)))
        /\ layers_fit ls' P' P
  end.

End EndToEndVocabulary.

(** The one-layer integer model. *)
Definition integer_model : model :=
  GPfluxPredictor (DeepGP [IsGPLayer (IntegerBackend.gp_layer 0)]).

(** * Results and exceptions *)

Lemma bind_Ok {A B} (f : A -> result B) (m : result A) (b : B) :
  m ≫= f = Ok b -> exists a, m = Ok a /\ f a = Ok b.
Proof. destruct m as [a|e]; simpl; [eauto | discriminate]. Qed.

Lemma is_ok_returned {A S T} (d : A) (c : result A * S * T) :
  is_ok (fst (fst c)) = true ->
  c = (Ok (returned_or d (fst (fst c))), snd (fst c), snd c).
Proof. by destruct c as [[[a|e] s] t]. Qed.

(** * Facts about the tensor operations *)

Section TensorFacts.

Context {BE : Backend}.

Lemma bsel_lt d k : k < d -> (if d =? 1 then 0 else k) = k.
Proof. destruct (Nat.eqb_spec d 1); lia. Qed.

Lemma bdim_refl a : bdim a a = Some a.
Proof. unfold bdim. by rewrite Nat.eqb_refl. Qed.

Lemma matmul_mat_batch A B m k b n :
  shape A = [m; k] -> shape B = [b; k; n] ->
  matmul A B = Ok (mkT [b; m; n] (matmul_at [] [b] k A B)).
Proof.
  intros HA HB. unfold matmul. rewrite HA, HB. cbn.
  by rewrite Nat.eqb_refl.
Qed.

Lemma matmul_stack_batch A B p m k b n :
  shape A = [p; m; k] -> shape B = [b; p; k; n] ->
  matmul A B = Ok (mkT [b; p; m; n] (matmul_at [p] [b; p] k A B)).
Proof.
  intros HA HB. unfold matmul. rewrite HA, HB. cbn.
  rewrite Nat.eqb_refl. unfold broadcast_shapes. cbn.
  by rewrite bdim_refl.
Qed.

Lemma last_axis_0_rank4 A b p m :
  shape A = [b; p; m; 1] -> last_axis_0 A = Ok (mkT [b; p; m] (last_axis_0_at A)).
Proof. intros HA. unfold last_axis_0. by rewrite HA. Qed.

Lemma matrix_transpose_rank3 A b p m :
  shape A = [b; p; m] -> matrix_transpose A = Ok (mkT [b; m; p] (transpose_at A)).
Proof. intros HA. unfold matrix_transpose. by rewrite HA. Qed.

Lemma matrix_transpose_rank2 A n m :
  shape A = [n; m] -> matrix_transpose A = Ok (mkT [m; n] (transpose_at A)).
Proof. intros HA. unfold matrix_transpose. by rewrite HA. Qed.

Lemma ewise_mat_batch f A B b m p :
  shape A = [m; p] -> shape B = [b; m; p] ->
  ewise f A B = Ok (mkT [b; m; p] (ewise_at f A B)).
Proof.
  intros HA HB. unfold ewise, broadcast_shapes. rewrite HA, HB. cbn.
  by rewrite !bdim_refl.
Qed.

Lemma ewise_same f A B s :
  shape A = s -> shape B = s -> ewise f A B = Ok (mkT s (ewise_at f A B)).
Proof.
  intros HA HB. unfold ewise, broadcast_shapes. rewrite HA, HB.
  assert (Hs : forall r, bshape_rev r r = Some r).
  { induction r as [|a r IH]; [done|]. cbn. by rewrite bdim_refl, IH. }
  rewrite Hs. cbn. by rewrite reverse_involutive.
Qed.

Lemma factorise_chol m A L : chol m A = Some L -> factorise m A = Ok L.
Proof. intros HL. unfold factorise. by rewrite HL. Qed.

Lemma factorise_raises m A e :
  chol m A = None -> chol_no_factor m A = Err e -> factorise m A = Err e.
Proof. intros HL He. unfold factorise. by rewrite HL. Qed.

Lemma cholesky_returns A m L :
  shape A = [m; m] -> factorise m (entries A) = Ok L ->
  cholesky A = Ok (mkT [m; m] (of_entries L)).
Proof. intros HA HL. unfold cholesky. by rewrite HA, Nat.eqb_refl, HL. Qed.

Lemma cholesky_ok A m L :
  shape A = [m; m] -> chol m (entries A) = Some L ->
  cholesky A = Ok (mkT [m; m] (of_entries L)).
Proof. intros HA HL. by apply cholesky_returns, factorise_chol. Qed.

Lemma cholesky_failed A m e :
  shape A = [m; m] -> factorise m (entries A) = Err e ->
  cholesky A = Err e.
Proof. intros HA HL. unfold cholesky. by rewrite HA, Nat.eqb_refl, HL. Qed.

Lemma triangular_solve_batch adjoint L rhs m b n :
  shape L = [m; m] -> shape rhs = [b; m; n] ->
  triangular_solve adjoint L rhs
  = Ok (mkT [b; m; n] (triangular_solve_at adjoint m L rhs)).
Proof.
  intros HL Hr. unfold triangular_solve. rewrite HL, Hr. cbn.
  by rewrite Nat.eqb_refl.
Qed.

Lemma compute_A_inv_b_batch A rhs m b n L :
  shape A = [m; m] -> shape rhs = [b; m; n] -> factorise m (entries A) = Ok L ->
  compute_A_inv_b A rhs
  = Ok (mkT [b; m; n]
          (triangular_solve_at true m (mkT [m; m] (of_entries L))
             (mkT [b; m; n]
                (triangular_solve_at false m (mkT [m; m] (of_entries L)) rhs)))).
Proof.
  intros HA Hr HL. unfold compute_A_inv_b.
  rewrite (cholesky_returns A m L HA HL). cbn [mbind result_bind].
  rewrite (triangular_solve_batch false (mkT [m; m] (of_entries L)) rhs m b n)
    by done.
  cbn [mbind result_bind].
  by rewrite (triangular_solve_batch true (mkT [m; m] (of_entries L)) _ m b n).
Qed.

Lemma concat_axis1 A B b l m p :
  shape A = [b; l; p] -> shape B = [b; m; p] ->
  concat 1 A B = Ok (mkT [b; l + m; p] (concat_at 1 l A B)).
Proof.
  intros HA HB. unfold concat. rewrite HA, HB. cbn.
  by rewrite bool_decide_eq_true_2.
Qed.

Lemma concat_last_rank2 A B n l m :
  shape A = [n; l] -> shape B = [n; m] ->
  concat_last A B = Ok (mkT [n; l + m] (concat_at 1 l A B)).
Proof.
  intros HA HB. unfold concat_last, rank, concat. rewrite HA, HB. cbn.
  by rewrite bool_decide_eq_true_2.
Qed.

Lemma K_ok k X Y n m d :
  shape X = [n; d] -> shape Y = [m; d] ->
  K k X Y = Ok (mkT [n; m] (of_entries (fun a c => kfun k (row X a) (row Y c)))).
Proof. intros HX HY. unfold K. by rewrite HX, HY, Nat.eqb_refl. Qed.

Lemma first_columns_ok n A r c :
  shape A = [r; c] -> first_columns n A = Ok (mkT [r; n `min` c] (get A)).
Proof. intros HA. unfold first_columns. by rewrite HA. Qed.

(** Entries of the results at an index written out. *)

Lemma matmul_at_mat_batch A B b k x r c :
  x < b ->
  matmul_at [] [b] k A B [x; r; c]
  = rsum k (fun l => rmul (get A [r; l]) (get B [x; l; c])).
Proof. intros Hx. unfold matmul_at, bidx. cbn. by rewrite bsel_lt. Qed.

Lemma matmul_at_stack_batch A B b p k x y r c :
  x < b -> y < p ->
  matmul_at [p] [b; p] k A B [x; y; r; c]
  = rsum k (fun l => rmul (get A [y; r; l]) (get B [x; y; l; c])).
Proof. intros Hx Hy. unfold matmul_at, bidx. cbn. by rewrite !bsel_lt. Qed.

Lemma ewise_at_mat_batch f A B b m p x r c :
  shape A = [m; p] -> shape B = [b; m; p] -> x < b -> r < m -> c < p ->
  ewise_at f A B [x; r; c] = f (get A [r; c]) (get B [x; r; c]).
Proof.
  intros HA HB Hx Hr Hc. unfold ewise_at, bidx. rewrite HA, HB. cbn.
  by rewrite !bsel_lt.
Qed.

Lemma ewise_at_batch f A B b m p x r c :
  shape A = [b; m; p] -> shape B = [b; m; p] -> x < b -> r < m -> c < p ->
  ewise_at f A B [x; r; c] = f (get A [x; r; c]) (get B [x; r; c]).
Proof.
  intros HA HB Hx Hr Hc. unfold ewise_at, bidx. rewrite HA, HB. cbn.
  by rewrite !bsel_lt.
Qed.

Lemma concat_at_axis1 A B l x j c :
  concat_at 1 l A B [x; j; c]
  = if j <? l then get A [x; j; c] else get B [x; j - l; c].
Proof. done. Qed.

Lemma concat_at_last_rank2 A B l a j :
  concat_at 1 l A B [a; j]
  = if j <? l then get A [a; j] else get B [a; j - l].
Proof. done. Qed.

End TensorFacts.

(** * Finite sums over a commutative ring *)

Section Sums.

Context {BE : Backend} {BL : BackendLaws BE}.

Add Ring scalar_ring_inst : scalar_ring.

Lemma rsum_ext n f g :
  (forall k, k < n -> f k = g k) -> rsum n f = rsum n g.
Proof.
  induction n as [|n IH]; intros H; [done|]. cbn.
  rewrite IH by (intros; apply H; lia). by rewrite H by lia.
Qed.

Lemma rsum_zero n : rsum n (fun _ => r0) = r0.
Proof. induction n as [|n IH]; [done|]. cbn. rewrite IH. ring. Qed.

Lemma rsum_add n f g :
  rsum n (fun k => radd (f k) (g k)) = radd (rsum n f) (rsum n g).
Proof. induction n as [|n IH]; cbn; [|rewrite IH]; ring. Qed.

Lemma rsum_scale_l n c f :
  rsum n (fun k => rmul c (f k)) = rmul c (rsum n f).
Proof. induction n as [|n IH]; cbn; [|rewrite IH]; ring. Qed.

Lemma rsum_scale_r n c f :
  rsum n (fun k => rmul (f k) c) = rmul (rsum n f) c.
Proof. induction n as [|n IH]; cbn; [|rewrite IH]; ring. Qed.

Lemma rsum_exchange n m (f : nat -> nat -> R) :
  rsum n (fun i => rsum m (fun j => f i j))
  = rsum m (fun j => rsum n (fun i => f i j)).
Proof.
  induction n as [|n IH]; cbn.
  - by rewrite rsum_zero.
  - by rewrite IH, rsum_add.
Qed.

(** The heart of [compute_A_inv_b]: with [L L^T = A], the two triangular
    solves give a solution of [A v = rhs]. *)
Lemma cholesky_solve m (A L : nat -> nat -> R) (rhs : nat -> R) i :
  chol m A = Some L -> i < m ->
  rsum m (fun j =>
    rmul (A i j) (tsolve true m L (tsolve false m L rhs) j)) = rhs i.
Proof.
  intros HL Hi.
  set (w := tsolve false m L rhs). set (v := tsolve true m L w).
  transitivity (rsum m (fun j => rsum m (fun k => rmul (rmul (L i k) (L j k)) (v j)))).
  { apply rsum_ext. intros j Hj.
    rewrite <- (chol_factor m A L HL i j Hi Hj). by rewrite rsum_scale_r. }
  rewrite rsum_exchange.
  transitivity (rsum m (fun k => rmul (L i k) (w k))).
  { apply rsum_ext. intros k Hk.
    rewrite <- (tsolve_adjoint m A L w HL k Hk). fold v.
    rewrite <- rsum_scale_l. apply rsum_ext. intros; ring. }
  apply (tsolve_lower m A L rhs HL i Hi).
Qed.

End Sums.

(** * The sampler of one layer: shapes and outcomes *)

Section SamplerFacts.

Context {BE : Backend}.

Lemma FF_call_ok l ff x N M D L :
  shape x = [N; D] -> shape (inducing_points l) = [M; D] ->
  shape (FF.W ff) = [L; D] ->
  FF.call l ff x
  = Ok (mkT [N; L + M]
          (concat_at 1 L (fourier_features l ff x N L) (canonical_features l x N M))).
Proof.
  intros Hx HZ HW. unfold FF.call, FF.rff_call, FF.canonical_feature_functions.
  rewrite Hx, HW, Nat.eqb_refl. cbn [mbind result_bind].
  rewrite (K_ok _ _ _ M N D HZ Hx). cbn [mbind result_bind].
  erewrite matrix_transpose_rank2 by done. cbn [mbind result_bind].
  by erewrite concat_last_rank2 by done.
Qed.

Lemma FF_resample_shapes l ff g :
  let ff' := fst (FF.resample l ff g) in
  FF.n_components ff' = FF.n_components ff
  /\ shape (FF.W ff') = shape (FF.W ff)
  /\ shape (FF.b ff') = shape (FF.b ff).
Proof. unfold FF.resample, FF.sample_bias, FF.sample_weights. by destruct has_bias_init. Qed.

Lemma gram_ok l M D :
  shape (inducing_points l) = [M; D] -> DL.gram l = Ok (gram_tensor l M).
Proof.
  intros HZ. unfold DL.gram. rewrite (K_ok _ _ _ M M D HZ HZ).
  cbn [mbind result_bind]. unfold dim_at. rewrite HZ. cbn [lookup list_lookup mbind result_bind].
  unfold tadd. by erewrite ewise_same by done.
Qed.

Lemma gram_tensor_at l M i j :
  i < M -> j < M -> get (gram_tensor l M) [i; j] = gram_at l i j.
Proof.
  intros Hi Hj. unfold gram_tensor, gram_at, ewise_at, bidx. cbn.
  by rewrite !bsel_lt.
Qed.

(** What a successful [_prepare_weight_sampler] has checked and captured. *)
Lemma prepare_inv l c :
  DL._prepare_weight_sampler l = Ok c ->
  exists M D P,
    shape (inducing_points l) = [M; D] /\ shape (q_mu l) = [M; P]
    /\ shape (q_sqrt l) = [P; M; M]
    /\ c = DL.mkClosure (gram_tensor l M) (whiten l) M P.
Proof.
  unfold DL._prepare_weight_sampler. intros H.
  apply bind_Ok in H as (kmm & Hk & H).
  apply bind_Ok in H as (M & HM & H).
  apply bind_Ok in H as (P & HP & H).
  apply bind_Ok in H as ([] & Ha & H).
  injection H as <-.
  unfold DL.assert_shapes in Ha.
  destruct (shape (inducing_points l)) as [|m1 [|d [|? ?]]] eqn:HZ; try discriminate.
  destruct (shape (q_mu l)) as [|m2 [|p1 [|? ?]]] eqn:Hmu; try discriminate.
  destruct (shape (q_sqrt l)) as [|p2 [|m3 [|m4 [|? ?]]]] eqn:Hsq; try discriminate.
  destruct (shape kmm) as [|m5 [|m6 [|? ?]]] eqn:Hkm; try discriminate.
  destruct (_ && _) eqn:Hb in Ha; [|discriminate].
  repeat (apply andb_prop in Hb as [Hb ?]).
  repeat match goal with H : (_ =? _) = true |- _ => apply Nat.eqb_eq in H end.
  subst. unfold dim_at in HM, HP. rewrite Hmu in HM, HP. cbn in HM, HP.
  injection HM as <-. injection HP as <-.
  rewrite (gram_ok l _ _ HZ) in Hk. injection Hk as <-.
  by exists m6, d, p2.
Qed.

Lemma prepare_ok l M D P :
  shape (inducing_points l) = [M; D] -> shape (q_mu l) = [M; P] ->
  shape (q_sqrt l) = [P; M; M] ->
  DL._prepare_weight_sampler l = Ok (DL.mkClosure (gram_tensor l M) (whiten l) M P).
Proof.
  intros HZ Hmu Hsq. unfold DL._prepare_weight_sampler.
  rewrite (gram_ok l M D HZ). cbn [mbind result_bind].
  unfold dim_at. rewrite Hmu. cbn [lookup list_lookup mbind result_bind].
  unfold DL.assert_shapes. rewrite HZ, Hmu, Hsq. cbn [shape gram_tensor].
  by rewrite !Nat.eqb_refl.
Qed.

End SamplerFacts.

Section WeightSamplerFacts.

Context {BE : Backend}.

Lemma weights_from_returns l self M D P L B prior noise Luu :
  consistent l self M D P L ->
  shape prior = [B; L; P] -> shape noise = [B; P; M; 1] ->
  factorise M (entries (DL.Kmm (DL.weight_sampler self))) = Ok Luu ->
  DL.weights_from l self (DL.weight_sampler self) prior noise
  = Ok (mkT [B; L + M; P]
          (concat_at 1 L prior
             (v_tensor Luu (diff_tensor l self Luu prior noise B M P L) B M P))).
Proof.
  intros [HZ Hmu Hsq HK HM HP HW HL] Hp Hn Hc.
  unfold DL.weights_from.
  rewrite (matmul_stack_batch _ _ P M M B 1 Hsq Hn). cbn [mbind result_bind].
  erewrite last_axis_0_rank4 by done. cbn [mbind result_bind].
  erewrite matrix_transpose_rank3 by done. cbn [mbind result_bind].
  unfold tadd, tsub.
  erewrite (ewise_mat_batch radd (q_mu l)) by done. cbn [mbind result_bind].
  fold (u_tensor l noise B M P).
  assert ((if DL.captured_whiten (DL.weight_sampler self)
           then Luu0 ← cholesky (DL.Kmm (DL.weight_sampler self));
                matmul Luu0 (u_tensor l noise B M P)
           else Ok (u_tensor l noise B M P))
          = Ok (whitened_tensor (DL.captured_whiten (DL.weight_sampler self)) Luu
                  (u_tensor l noise B M P) B M P)) as ->.
  { unfold whitened_tensor. destruct (DL.captured_whiten _); [|done].
    rewrite (cholesky_returns _ M Luu HK Hc). cbn [mbind result_bind].
    by erewrite matmul_mat_batch by done. }
  cbn [mbind result_bind].
  rewrite (FF_call_ok l _ _ M M D L HZ HZ HW). cbn [mbind result_bind].
  erewrite first_columns_ok by done. cbn [mbind result_bind get].
  rewrite HL. fold (phi_Z_tensor l (DL.feature_functions self) M L).
  assert (HLmin : L `min` (L + M) = L) by lia.
  erewrite (matmul_mat_batch (phi_Z_tensor _ _ _ _) prior M L B P)
    by (done || (cbn; by rewrite HLmin)).
  cbn [mbind result_bind].
  erewrite ewise_same;
    [| by (unfold whitened_tensor; destruct (DL.captured_whiten _)) | done].
  cbn [mbind result_bind]. fold (diff_tensor l self Luu prior noise B M P L).
  erewrite compute_A_inv_b_batch by done. cbn [mbind result_bind].
  fold (v_tensor Luu (diff_tensor l self Luu prior noise B M P L) B M P).
  by erewrite concat_axis1 by done.
Qed.

Lemma weights_from_ok l self M D P L B prior noise Luu :
  consistent l self M D P L ->
  shape prior = [B; L; P] -> shape noise = [B; P; M; 1] ->
  chol M (entries (DL.Kmm (DL.weight_sampler self))) = Some Luu ->
  DL.weights_from l self (DL.weight_sampler self) prior noise
  = Ok (mkT [B; L + M; P]
          (concat_at 1 L prior
             (v_tensor Luu (diff_tensor l self Luu prior noise B M P L) B M P))).
Proof.
  intros Hc Hp Hn Hchol.
  by apply (weights_from_returns l self M D P L), factorise_chol.
Qed.

Lemma posterior_u_at l noise B M P x i c :
  shape (q_mu l) = [M; P] -> x < B -> i < M -> c < P ->
  get (u_tensor l noise B M P) [x; i; c] = posterior_u l noise M x i c.
Proof.
  intros Hmu Hx Hi Hc. unfold u_tensor. cbn [get].
  erewrite ewise_at_mat_batch by done. unfold posterior_u. f_equal.
  cbn. unfold last_axis_0_at. cbn. by rewrite matmul_at_stack_batch.
Qed.

Lemma inducing_u_at l whiten Luu noise B M P x i c :
  shape (q_mu l) = [M; P] -> x < B -> i < M -> c < P ->
  get (whitened_tensor whiten Luu (u_tensor l noise B M P) B M P) [x; i; c]
  = inducing_u whiten Luu l noise M x i c.
Proof.
  intros Hmu Hx Hi Hc. unfold whitened_tensor, inducing_u. destruct whiten.
  - cbn [get]. rewrite matmul_at_mat_batch by done.
    apply rsum_ext. intros k Hk. cbn [get of_entries].
    by rewrite (posterior_u_at l noise B M P x k c).
  - by apply posterior_u_at.
Qed.

Lemma whitened_tensor_shape whiten Luu l noise B M P :
  shape (whitened_tensor whiten Luu (u_tensor l noise B M P) B M P) = [B; M; P].
Proof. by destruct whiten. Qed.

Lemma diff_tensor_at l self Luu prior noise B M P L x i c :
  shape (q_mu l) = [M; P] -> x < B -> i < M -> c < P ->
  get (diff_tensor l self Luu prior noise B M P L) [x; i; c]
  = rsub (inducing_u (DL.captured_whiten (DL.weight_sampler self)) Luu l noise M x i c)
         (prior_at_Z l (DL.feature_functions self) prior L x i c).
Proof.
  intros Hmu Hx Hi Hc. unfold diff_tensor. cbn [get].
  erewrite ewise_at_batch; [| apply whitened_tensor_shape | done..].
  rewrite inducing_u_at by done. f_equal.
  cbn [get]. rewrite matmul_at_mat_batch by done.
  apply rsum_ext. intros j Hj. unfold prior_at_Z, phi_Z_tensor. cbn [get].
  rewrite concat_at_last_rank2. by rewrite (proj2 (Nat.ltb_lt j L) Hj).
Qed.

Lemma v_tensor_at Luu diff B M P x i c :
  get (v_tensor Luu diff B M P) [x; i; c]
  = tsolve true M Luu (tsolve false M Luu (fun k => get diff [x; k; c])) i.
Proof. done. Qed.

(** One call of the closure: the two normal draws, then [weights_from]. *)
Lemma call_weight_sampler_returns l self M D P L B g Luu :
  consistent l self M D P L ->
  factorise M (entries (DL.Kmm (DL.weight_sampler self))) = Ok Luu ->
  let prior := fst (random_normal [B; L; P] g) in
  let noise := fst (random_normal [B; P; M; 1] (g + prod_dims [B; L; P])) in
  DL.call_weight_sampler l self B g
  = (Ok (mkT [B; L + M; P]
           (concat_at 1 L prior
              (v_tensor Luu (diff_tensor l self Luu prior noise B M P L) B M P))),
     g + prod_dims [B; L; P] + prod_dims [B; P; M; 1]).
Proof.
  intros Hc Hchol prior noise. unfold DL.call_weight_sampler.
  rewrite (closure_M _ _ _ _ _ _ Hc), (closure_P _ _ _ _ _ _ Hc),
    (features_L _ _ _ _ _ _ Hc).
  unfold random_normal, draw. cbn [fst snd].
  by erewrite (weights_from_returns l self M D P L B _ _ Luu Hc) by done.
Qed.

Lemma call_weight_sampler_ok l self M D P L B g Luu :
  consistent l self M D P L ->
  chol M (entries (DL.Kmm (DL.weight_sampler self))) = Some Luu ->
  let prior := fst (random_normal [B; L; P] g) in
  let noise := fst (random_normal [B; P; M; 1] (g + prod_dims [B; L; P])) in
  DL.call_weight_sampler l self B g
  = (Ok (mkT [B; L + M; P]
           (concat_at 1 L prior
              (v_tensor Luu (diff_tensor l self Luu prior noise B M P L) B M P))),
     g + prod_dims [B; L; P] + prod_dims [B; P; M; 1]).
Proof.
  intros Hc Hchol.
  by apply (call_weight_sampler_returns l self M D P L), factorise_chol.
Qed.

End WeightSamplerFacts.

(** * The integer backend satisfies the laws *)

Module IntegerBackendFacts.
Import IntegerBackend.

Lemma rsum_delta_l m i (f : nat -> Z) :
  rsum m (fun k => (delta i k * f k)%Z) = if i <? m then f i else 0%Z.
Proof.
  induction m as [|m IH]; [done|]. cbn [rsum]. rewrite IH.
  cbn [radd rmul backend]. unfold delta.
  destruct (Nat.ltb_spec i m), (Nat.ltb_spec i (S m)), (Nat.eqb_spec i m);
    try lia; subst; lia.
Qed.

Lemma is_identity_at m A i j :
  is_identity m A = true -> i < m -> j < m -> A i j = delta i j.
Proof.
  unfold is_identity. rewrite forallb_forall. intros H Hi Hj.
  specialize (H i). rewrite forallb_forall in H.
  apply Z.eqb_eq, H; apply in_seq; lia.
Qed.

#[global] Instance laws : BackendLaws backend.
Proof.
  split.
  - exact Zth.
  - intros m A L HL i j Hi Hj. cbn in HL.
    destruct (is_identity m A) eqn:HA; [|discriminate]. injection HL as <-.
    rewrite (rsum_delta_l m i), (proj2 (Nat.ltb_lt i m) Hi).
    symmetry. rewrite (is_identity_at m A i j HA Hi Hj). unfold delta.
    destruct (Nat.eqb_spec i j), (Nat.eqb_spec j i); congruence.
  - intros m A L rhs HL i Hi. cbn in HL.
    destruct (is_identity m A); [|discriminate]. injection HL as <-.
    cbn [tsolve backend]. by rewrite (rsum_delta_l m i), (proj2 (Nat.ltb_lt i m) Hi).
  - intros m A L rhs HL i Hi. cbn in HL.
    destruct (is_identity m A); [|discriminate]. injection HL as <-.
    cbn [tsolve backend].
    transitivity (rsum m (fun k => (delta i k * rhs k)%Z)).
    + apply rsum_ext. intros k _. cbn [rmul backend]. unfold delta.
      destruct (Nat.eqb_spec i k), (Nat.eqb_spec k i); congruence.
    + by rewrite (rsum_delta_l m i), (proj2 (Nat.ltb_lt i m) Hi).
Qed.

Example init_sampler :
  DL.init (IsGPLayer (gp_layer 0)) 2 0 = (Ok sampler, 4).
Proof. reflexivity. Qed.

Example sampler_consistent : consistent (gp_layer 0) sampler 3 1 1 2.
Proof. by split. Qed.

End IntegerBackendFacts.

(** * The layer sampler as a state machine *)

Section LayerStateMachine.

Context {BE : Backend}.

(** [resample] assigns [_weights_sample] and nothing else. *)
Lemma resample_frame l self g r self' g' :
  DL.resample l self g = (r, self', g') ->
  DL.feature_functions self' = DL.feature_functions self
  /\ DL.weight_sampler self' = DL.weight_sampler self
  /\ DL.num_features self' = DL.num_features self
  /\ DL.initialized self' = DL.initialized self
  /\ DL.batch_size self' = DL.batch_size self.
Proof.
  unfold DL.resample.
  destruct (DL.call_weight_sampler _ _ _ _) as [[w|e] g1]; intros [= <- <- <-]; done.
Qed.

(** [update] never touches the feature bank, the flag or the batch size. *)
Lemma update_frame l self g r self' g' :
  DL.update l self g = (r, self', g') ->
  DL.feature_functions self' = DL.feature_functions self
  /\ DL.num_features self' = DL.num_features self
  /\ DL.initialized self' = DL.initialized self
  /\ DL.batch_size self' = DL.batch_size self.
Proof.
  unfold DL.update. destruct (DL._prepare_weight_sampler l) as [ws|e].
  - intros H. by destruct (resample_frame _ _ _ _ _ _ H) as (? & ? & ? & ? & ?).
  - by intros [= <- <- <-].
Qed.

(** A sampler that is initialized evaluates without changing anything. *)
Lemma call_ready l self x g :
  DL.initialized self = true ->
  DL.call l self x g
  = (_ ← DL.assert_batch_size self x; DL.evaluate l self x, self, g).
Proof. intros Hi. unfold DL.call. by rewrite Hi. Qed.

(** The state a call leaves behind, whatever it returns. *)
Lemma call_frame l self x g r self' g' :
  DL.call l self x g = (r, self', g') ->
  DL.feature_functions self' = DL.feature_functions self
  /\ DL.weight_sampler self' = DL.weight_sampler self
  /\ DL.num_features self' = DL.num_features self.
Proof.
  unfold DL.call. destruct (DL.initialized self).
  - by intros [= <- <- <-].
  - unfold DL.initialize. destruct (dim_from_end 1 x) as [B|e].
    + destruct (DL.resample _ _ _) as [[[[]|e] s1] g1] eqn:Hr;
        destruct (resample_frame _ _ _ _ _ _ Hr) as (? & ? & ? & ? & ?);
        by intros [= <- <- <-].
    + by intros [= <- <- <-].
Qed.

(** A call that returns leaves the sampler initialized, with the batch
    dimension of its input as batch size. *)
Lemma call_Ok_ready l self x g y self' g' :
  DL.call l self x g = (Ok y, self', g') ->
  DL.initialized self' = true /\ dim_from_end 1 x = Ok (DL.batch_size self').
Proof.
  unfold DL.call. destruct (DL.initialized self) eqn:Hi.
  - intros [= H <- <-]. split; [done|].
    apply bind_Ok in H as ([] & Ha & _). unfold DL.assert_batch_size in Ha.
    apply bind_Ok in Ha as (B & HB & Ha).
    destruct (Nat.eqb_spec B (DL.batch_size self)); [by subst|discriminate].
  - unfold DL.initialize. destruct (dim_from_end 1 x) as [B|e]; [|discriminate].
    destruct (DL.resample _ _ _) as [[[[]|e] s1] g1] eqn:Hr; [|discriminate].
    intros [= H <- <-]. split; [done|].
    destruct (resample_frame _ _ _ _ _ _ Hr) as (_ & _ & _ & _ & Hb).
    cbn in *. by rewrite Hb.
Qed.

(** Once initialized, always initialized, with the same batch size. *)
Lemma call_keeps_ready l self x g r self' g' :
  DL.initialized self = true ->
  DL.call l self x g = (r, self', g') -> self' = self /\ g' = g.
Proof. intros Hi. rewrite call_ready by done. by intros [= _ <- <-]. Qed.

Lemma run_keeps_ready ops self g :
  DL.initialized self = true ->
  DL.initialized (fst (run ops (self, g))) = true
  /\ DL.batch_size (fst (run ops (self, g))) = DL.batch_size self.
Proof.
  revert self g. induction ops as [|o ops IH]; intros self g Hi; [done|].
  change (run (o :: ops) (self, g)) with (run ops (apply_operation (self, g) o)).
  destruct (apply_operation (self, g) o) as [s1 g1] eqn:Ho.
  assert (DL.initialized s1 = true /\ DL.batch_size s1 = DL.batch_size self)
    as [Hi1 Hb1].
  { destruct o as [l x|l|l]; unfold apply_operation in Ho; cbn [fst snd] in Ho.
    - destruct (DL.call l self x g) as [[r s] g2] eqn:Hc. cbn in Ho. simplify_eq.
      destruct (call_keeps_ready _ _ _ _ _ _ _ Hi Hc) as [Heq _]. by rewrite Heq.
    - destruct (DL.resample l self g) as [[r s] g2] eqn:Hc. cbn in Ho. simplify_eq.
      destruct (resample_frame _ _ _ _ _ _ Hc) as (_ & _ & _ & Hi' & Hb').
      by rewrite Hi', Hb'.
    - destruct (DL.update l self g) as [[r s] g2] eqn:Hc. cbn in Ho. simplify_eq.
      destruct (update_frame _ _ _ _ _ _ Hc) as (_ & _ & Hi' & Hb').
      by rewrite Hi', Hb'. }
  destruct (IH s1 g1 Hi1) as [? ?]. split; [done|congruence].
Qed.

Lemma call_batch_mismatch l self x g B' :
  DL.initialized self = true ->
  dim_from_end 1 x = Ok B' -> B' <> DL.batch_size self ->
  DL.call l self x g = (Err (InvalidArgumentError BatchSizeChanged), self, g).
Proof.
  intros Hi Hx Hne. rewrite call_ready by done.
  unfold DL.assert_batch_size. rewrite Hx. cbn [mbind result_bind].
  by rewrite (proj2 (Nat.eqb_neq _ _) Hne).
Qed.

End LayerStateMachine.

(** * Outcomes of [resample], [update] and construction *)

Section Outcomes.

Context {BE : Backend}.

Lemma consistent_set_weights l self M D P L w :
  consistent l self M D P L -> consistent l (DL.set_weights_sample w self) M D P L.
Proof. by intros []. Qed.

Lemma consistent_set_batch_size l self M D P L n :
  consistent l self M D P L -> consistent l (DL.set_batch_size n self) M D P L.
Proof. by intros []. Qed.

Lemma consistent_set_initialized l self M D P L v :
  consistent l self M D P L -> consistent l (DL.set_initialized v self) M D P L.
Proof. by intros []. Qed.

Lemma consistent_fresh_closure l self M D P L :
  consistent l self M D P L ->
  consistent l
    (DL.set_weight_sampler (DL.mkClosure (gram_tensor l M) (whiten l) M P) self)
    M D P L.
Proof. by intros []. Qed.

Lemma resample_returns l self M D P L g Luu :
  consistent l self M D P L ->
  factorise M (entries (DL.Kmm (DL.weight_sampler self))) = Ok Luu ->
  DL.resample l self g
  = (Ok (),
     DL.set_weights_sample (drawn_weights l self Luu M P L (DL.batch_size self) g) self,
     after_draw M P L (DL.batch_size self) g).
Proof.
  intros Hc Hchol. unfold DL.resample.
  by rewrite (call_weight_sampler_returns l self M D P L _ g Luu Hc Hchol).
Qed.

Lemma resample_ok l self M D P L g Luu :
  consistent l self M D P L ->
  chol M (entries (DL.Kmm (DL.weight_sampler self))) = Some Luu ->
  DL.resample l self g
  = (Ok (),
     DL.set_weights_sample (drawn_weights l self Luu M P L (DL.batch_size self) g) self,
     after_draw M P L (DL.batch_size self) g).
Proof.
  intros Hc Hchol. by apply (resample_returns l self M D P L), factorise_chol.
Qed.

Lemma update_ok l self M D P L g Lfresh :
  consistent l self M D P L ->
  chol M (entries (gram_tensor l M)) = Some Lfresh ->
  let fresh := DL.set_weight_sampler
                 (DL.mkClosure (gram_tensor l M) (whiten l) M P) self in
  DL.update l self g
  = (Ok (),
     DL.set_weights_sample (drawn_weights l fresh Lfresh M P L (DL.batch_size self) g)
                           fresh,
     after_draw M P L (DL.batch_size self) g).
Proof.
  intros Hc Hchol fresh. unfold DL.update.
  rewrite (prepare_ok l M D P (shape_Z _ _ _ _ _ _ Hc) (shape_q_mu _ _ _ _ _ _ Hc)
             (shape_q_sqrt _ _ _ _ _ _ Hc)).
  fold fresh.
  by rewrite (resample_ok l fresh M D P L g Lfresh
                (consistent_fresh_closure _ _ _ _ _ _ Hc) Hchol).
Qed.

(** When the Cholesky factorisation of the captured Gram matrix raises, so
    does the call of the closure: the factor is computed in every call. *)
Lemma weights_from_cholesky_failed l self M D P L B prior noise e :
  consistent l self M D P L ->
  shape prior = [B; L; P] -> shape noise = [B; P; M; 1] ->
  factorise M (entries (DL.Kmm (DL.weight_sampler self))) = Err e ->
  DL.weights_from l self (DL.weight_sampler self) prior noise = Err e.
Proof.
  intros [HZ Hmu Hsq HK HM HP HW HL] Hp Hn Hc.
  unfold DL.weights_from.
  rewrite (matmul_stack_batch _ _ P M M B 1 Hsq Hn). cbn [mbind result_bind].
  erewrite last_axis_0_rank4 by done. cbn [mbind result_bind].
  erewrite matrix_transpose_rank3 by done. cbn [mbind result_bind].
  unfold tadd, tsub.
  erewrite (ewise_mat_batch radd (q_mu l)) by done. cbn [mbind result_bind].
  destruct (DL.captured_whiten _).
  - by rewrite (cholesky_failed _ M e HK Hc).
  - cbn [mbind result_bind].
    rewrite (FF_call_ok l _ _ M M D L HZ HZ HW). cbn [mbind result_bind].
    erewrite first_columns_ok by done. cbn [mbind result_bind get].
    rewrite HL.
    assert (HLmin : L `min` (L + M) = L) by lia.
    erewrite (matmul_mat_batch _ prior M L B P) by (done || (cbn; by rewrite HLmin)).
    cbn [mbind result_bind].
    erewrite ewise_same by done. cbn [mbind result_bind].
    unfold compute_A_inv_b. by rewrite (cholesky_failed _ M e HK Hc).
Qed.

Lemma resample_cholesky_failed l self M D P L g e :
  consistent l self M D P L ->
  factorise M (entries (DL.Kmm (DL.weight_sampler self))) = Err e ->
  DL.resample l self g
  = (Err e, self, after_draw M P L (DL.batch_size self) g).
Proof.
  intros Hc Hchol. unfold DL.resample, DL.call_weight_sampler.
  rewrite (closure_M _ _ _ _ _ _ Hc), (closure_P _ _ _ _ _ _ Hc),
    (features_L _ _ _ _ _ _ Hc).
  unfold random_normal, draw. cbn [fst snd].
  by erewrite (weights_from_cholesky_failed l self M D P L) by done.
Qed.

(** What construction establishes. *)
Lemma init_Ok l n g self g' :
  DL.init (IsGPLayer l) n g = (Ok self, g') ->
  DL.initialized self = false /\ DL.batch_size self = 0
  /\ shape (DL.weights_sample self) = [0; 0; 0]
  /\ DL._prepare_weight_sampler l = Ok (DL.weight_sampler self)
  /\ exists M D P, consistent l self M D P n.
Proof.
  unfold DL.init, FF.init.
  destruct (rff_refusal (base_kernel l)) as [e|]; [discriminate|].
  destruct (first_row (inducing_points l) ≫= _) as [[dummy_X D]|e] eqn:Hd;
    [|discriminate].
  destruct (FF.sample_bias [1; n] g) as [b0 g1] eqn:Hb.
  destruct (FF.sample_weights (base_kernel l) [n; D] g1) as [W0 g2] eqn:HW.
  destruct (FF.call l _ dummy_X) as [t|e]; [|discriminate]. cbn [mbind result_bind].
  destruct (DL._prepare_weight_sampler l) as [ws|e] eqn:Hp; [|discriminate].
  cbn [mbind result_bind]. intros [= <- <-]. cbn.
  do 4 (split; [done|]).
  destruct (prepare_inv l ws Hp) as (M & D' & P & HZ & Hmu & Hsq & ->).
  exists M, D', P. split; try done. cbn.
  unfold first_row in Hd. rewrite HZ in Hd. cbn in Hd. injection Hd as <- <-.
  unfold FF.sample_weights, draw in HW. by destruct has_bias_init; injection HW as <- <-.
Qed.

(** While the layer keeps its state, the operations keep the sampler
    consistent with it, and its closure the one prepared from it. *)
Lemma operation_keeps_prepared l self M D P L o g :
  consistent l self M D P L ->
  DL._prepare_weight_sampler l = Ok (DL.weight_sampler self) ->
  layer_of o = l ->
  let self' := fst (apply_operation (self, g) o) in
  consistent l self' M D P L
  /\ DL._prepare_weight_sampler l = Ok (DL.weight_sampler self').
Proof.
  intros Hc Hp Ho self'. unfold self', apply_operation. cbn [fst snd].
  destruct o as [l' x|l'|l']; cbn in Ho; subst l'.
  - destruct (DL.call l self x g) as [[r s] g1] eqn:Hcall. cbn [fst].
    destruct (call_frame _ _ _ _ _ _ _ Hcall) as (Hff & Hws & Hn).
    split; [|by rewrite Hws]. destruct Hc. split; by rewrite ?Hff, ?Hws, ?Hn.
  - destruct (DL.resample l self g) as [[r s] g1] eqn:Hr. cbn [fst].
    destruct (resample_frame _ _ _ _ _ _ Hr) as (Hff & Hws & Hn & _).
    split; [|by rewrite Hws]. destruct Hc. split; by rewrite ?Hff, ?Hws, ?Hn.
  - destruct (DL.update l self g) as [[r s] g1] eqn:Hu. cbn [fst].
    unfold DL.update in Hu. rewrite Hp in Hu.
    destruct (resample_frame _ _ _ _ _ _ Hu) as (Hff & Hws & Hn & _).
    cbn in Hff, Hws, Hn.
    split; [|by rewrite Hws]. destruct Hc. split; by rewrite ?Hff, ?Hws, ?Hn.
Qed.

End Outcomes.

(** * Evaluation of an initialized trajectory is repeatable *)

Section Repeatable.

Context {BE : Backend}.

Lemma call_twice l self x g y self' g' :
  DL.call l self x g = (Ok y, self', g') ->
  DL.call l self' x g' = (Ok y, self', g').
Proof.
  intros Hcall. destruct (call_Ok_ready _ _ _ _ _ _ _ Hcall) as [Hi _].
  rewrite call_ready by done. revert Hcall. unfold DL.call.
  destruct (DL.initialized self).
  - intros [= Hr <- <-]. by rewrite Hr.
  - destruct (DL.initialize l self x g) as [[[[]|e] s1] g2]; [|discriminate].
    intros [= Hr <- <-]. by rewrite Hr.
Qed.

Lemma call_layers_twice ls ss x g y ss1 g1 :
  Traj.call_layers ls ss x g = (Ok y, ss1, g1) ->
  Traj.call_layers ls ss1 x g1 = (Ok y, ss1, g1) /\ ready ls ss1.
Proof.
  revert ss x g ss1 g1. induction ls as [|l ls IH]; intros ss x g ss1 g1.
  - cbn. intros [= <- <- <-]. by destruct ss.
  - destruct ss as [|s ss]; [by intros [= <- <- <-]|]. cbn.
    destruct (DL.call l s x g) as [[[z|e] s'] g2] eqn:Hc; [|discriminate].
    destruct (Traj.call_layers ls ss z g2) as [[r ss''] g3] eqn:Hl.
    intros [= -> <- <-].
    destruct (IH _ _ _ _ _ Hl) as [H1 H2].
    destruct (call_Ok_ready _ _ _ _ _ _ _ Hc) as [Hi _].
    split; [|done].
    assert (Hc' : DL.call l s' x g3 = (Ok z, s', g3)).
    { rewrite call_ready by done.
      pose proof (call_twice _ _ _ _ _ _ _ Hc) as Ht.
      rewrite call_ready in Ht by done. injection Ht as Ht. by rewrite Ht. }
    by rewrite Hc', H1.
Qed.

Lemma call_layers_ready ls ss x g :
  ready ls ss -> exists r, Traj.call_layers ls ss x g = (r, ss, g).
Proof.
  revert ss x g. induction ls as [|l ls IH]; intros ss x g Hr.
  - exists (Ok x). by destruct ss.
  - destruct ss as [|s ss]; [by exists (Ok x)|]. destruct Hr as [Hi Hr]. cbn.
    rewrite call_ready by done.
    destruct (_ ≫= _) as [z|e]; [|by eexists].
    destruct (IH ss z g Hr) as [r ->]. by eexists.
Qed.

End Repeatable.

(** * Resampling the feature bank keeps every shape *)

Section BankShapes.

Context {BE : Backend}.

Lemma concat_last_same_shape A A' B :
  shape A = shape A' -> same_shape (concat_last A B) (concat_last A' B).
Proof.
  intros H. unfold concat_last, concat, rank. rewrite <- H.
  destruct (0 <? length (shape A)); [|done].
  destruct (shape A !! _); [|done]. destruct (shape B !! _); [|done].
  by destruct (bool_decide _).
Qed.

Lemma rff_call_same_shape l ff ff' x :
  shape (FF.W ff') = shape (FF.W ff) ->
  same_shape (FF.rff_call l ff x) (FF.rff_call l ff' x).
Proof.
  intros H. unfold FF.rff_call. rewrite H.
  destruct (shape x) as [|n [|d [|? ?]]]; try done.
  destruct (shape (FF.W ff)) as [|c [|d' [|? ?]]]; try done.
  by destruct (d =? d').
Qed.

Lemma call_same_shape l ff ff' x :
  shape (FF.W ff') = shape (FF.W ff) ->
  same_shape (FF.call l ff x) (FF.call l ff' x).
Proof.
  intros H. unfold FF.call.
  pose proof (rff_call_same_shape l ff ff' x H) as Hr.
  destruct (FF.rff_call l ff x) as [t|e], (FF.rff_call l ff' x) as [t'|e'];
    try done; cbn [mbind result_bind].
  destruct (FF.canonical_feature_functions l x) as [c|e]; [|done].
  cbn [mbind result_bind]. by apply concat_last_same_shape.
Qed.

End BankShapes.

(** * Resampling before the first call *)

Section BeforeFirstCall.

Context {BE : Backend}.

Lemma first_call_initializes_ok l s x M D P L N B Dx Luu :
  consistent l s M D P L ->
  DL.initialized s = false ->
  chol M (entries (DL.Kmm (DL.weight_sampler s))) = Some Luu ->
  shape x = [N; B; Dx] ->
  first_call_initializes l s x M P L B.
Proof.
  intros Hc Hi Hchol Hx g0. unfold DL.call, DL.initialize, dim_from_end.
  rewrite Hi, Hx. cbn [reverse rev_append lookup list_lookup].
  rewrite (resample_ok l (DL.set_batch_size B s) M D P L g0 Luu
             (consistent_set_batch_size _ _ _ _ _ _ _ Hc) Hchol).
  cbn [DL.batch_size DL.set_batch_size].
  cbn [DL.initialized DL.set_initialized DL.weights_sample DL.set_weights_sample
       drawn_weights shape].
  do 4 (split; [done|]).
  apply (call_weight_sampler_ok l s M D P L B g0 Luu Hc Hchol).
Qed.

End BeforeFirstCall.

(** * Construction of the manager *)

Section ManagerConstruction.

Context {BE : Backend}.

Lemma init_unsupported (lay : layer) n g :
  Manager.gp_of lay = None ->
  DL.init lay n g = (Err (ValueError LayerNotSupported), g).
Proof. by destruct lay. Qed.

(** The list comprehension stops at the first layer that is not a GP layer,
    unless a layer before it has already raised. *)
Lemma build_layers_unsupported pre bad post n g :
  Manager.gp_of bad = None ->
  Manager.build_layers (pre ++ bad :: post) n g
  = match Manager.build_layers pre n g with
    | (Ok _, g1) => (Err (ValueError LayerNotSupported), g1)
    | (Err e, g1) => (Err e, g1)
    end.
Proof.
  intros Hbad. revert g. induction pre as [|lay pre IH]; intros g; cbn.
  - by rewrite init_unsupported.
  - destruct (DL.init lay n g) as [[s|e] g1]; [|done].
    rewrite IH. by destruct (Manager.build_layers pre n g1) as [[ss|e] g2].
Qed.

End ManagerConstruction.

(** * The shape checks of [DeepGaussianProcess.update] *)

Section ModelUpdate.

Context {BE : Backend}.

Variable gp_sample : GPLayer -> tensor -> nat -> list nat -> R.

Variable lv_sample : LatentVariableLayer -> tensor -> nat -> list nat -> R.

(** The loop over a list of layers is the loop over its first part, then,
    if that did not raise, over the rest. *)
Lemma update_layers_app n len i pre suf x ds g :
  DGP.update_layers gp_sample lv_sample n len i (pre ++ suf) x ds g
  = match DGP.update_layers gp_sample lv_sample n len i pre x ds g with
    | (Ok y, pre', g1) =>
        let '(r, suf', g2) := DGP.update_layers gp_sample lv_sample n len (i + length pre) suf y ds g1 in
        (r, pre' ++ suf', g2)
    | (Err e, pre', g1) => (Err e, pre' ++ suf, g1)
    end.
Proof.
  revert i x g. induction pre as [|lay pre IH]; intros i x g.
  - cbn. rewrite Nat.add_0_r. by destruct (DGP.update_layers _ _ _ _ _ _ _ _ _) as [[r s] g2].
  - cbn [app DGP.update_layers length]. destruct lay as [l|l|].
    + destruct (DGP.check_gp l _ x ds) as [[]|e]; [|done].
      destruct (DGP.call_gp _ l x g) as [[y|e] g1]; [|done].
      rewrite IH. replace (S i + length pre) with (i + S (length pre)) by lia.
      destruct (DGP.update_layers gp_sample lv_sample n len (S i) pre y ds g1) as [[[z|e] pre'] g2]; [|done].
      by destruct (DGP.update_layers _ _ _ _ _ suf _ _ _) as [[r s] g3].
    + destruct (DGP.call_lv _ l x g) as [[y|e] g1]; [|done].
      rewrite IH. replace (S i + length pre) with (i + S (length pre)) by lia.
      destruct (DGP.update_layers gp_sample lv_sample n len (S i) pre y ds g1) as [[[z|e] pre'] g2]; [|done].
      by destruct (DGP.update_layers _ _ _ _ _ suf _ _ _) as [[r s] g3].
    + done.
Qed.

End ModelUpdate.

(** * What [update] and [resample] redraw *)

(** The claim of C1 as stated fails: [update] of a layer sampler does not
    redraw the random features.  On the integer sampler, [update] returns,
    and leaves the bank with the [W] and [b] it had, which are not those a
    redraw of the bank at that generator position gives. *)
Lemma update_keeps_features_counterexample :
  let l := IntegerBackend.gp_layer 0 in
  let self := IntegerBackend.sampler in
  let redrawn := fst (FF.resample l (DL.feature_functions self) 4) in
  let '(r, self', _) := DL.update l self 4 in
  r = Ok ()
  /\ DL.feature_functions self' = DL.feature_functions self
  /\ get (FF.W (DL.feature_functions self')) [0; 0] <> get (FF.W redrawn) [0; 0]
  /\ get (FF.b (DL.feature_functions self')) [0; 0] <> get (FF.b redrawn) [0; 0].
Proof.
  intros l self redrawn.
  pose proof (update_ok l self 3 1 1 2 4 IntegerBackend.delta
                IntegerBackendFacts.sampler_consistent eq_refl) as Hu.
  cbv zeta in Hu. rewrite Hu. split; [done|]. split; [done|].
  split; by vm_compute.
Qed.

(** C1, amended.  For a consistent sampler whose Cholesky factorisations
    succeed: [update] rebuilds the weight sampler from the layer's current
    state and redraws the cached weights with it, and leaves the random
    features ([W] and [b]) as they are; [resample] redraws the cached weights
    with the weight sampler it has and leaves the features and the weight
    sampler as they are; the features are redrawn by the [resample] of the
    feature bank only, which draws [b] and then [W] anew, each of the shape
    it had. *)
Theorem update_and_resample_effects {BE : Backend}
    (l : GPLayer) (self : DL.t) (M D P L g : nat) (Luu Lfresh : nat -> nat -> R) :
  consistent l self M D P L ->
  chol M (entries (DL.Kmm (DL.weight_sampler self))) = Some Luu ->
  chol M (entries (gram_tensor l M)) = Some Lfresh ->
  let B := DL.batch_size self in
  let g' := g + prod_dims [B; L; P] + prod_dims [B; P; M; 1] in
  (exists self',
     DL.update l self g = (Ok (), self', g')
     /\ DL.feature_functions self' = DL.feature_functions self
     /\ DL._prepare_weight_sampler l = Ok (DL.weight_sampler self')
     /\ DL.call_weight_sampler l (DL.set_weight_sampler (DL.weight_sampler self') self) B g
        = (Ok (DL.weights_sample self'), g'))
  /\ (exists self',
        DL.resample l self g = (Ok (), self', g')
        /\ DL.feature_functions self' = DL.feature_functions self
        /\ DL.weight_sampler self' = DL.weight_sampler self
        /\ DL.call_weight_sampler l self B g = (Ok (DL.weights_sample self'), g'))
  /\ (let ff := DL.feature_functions self in
      let gb := g + prod_dims (shape (FF.b ff)) in
      FF.resample l ff g
      = (FF.mk (FF.n_components ff)
               (fst (FF.sample_bias (shape (FF.b ff)) g))
               (fst (FF.sample_weights (base_kernel l) (shape (FF.W ff)) gb)),
         gb + prod_dims (shape (FF.W ff)))).
Proof.
  intros Hc Hchol Hfresh B g'. split; [|split].
  - pose proof (update_ok l self M D P L g Lfresh Hc Hfresh) as Hu.
    cbv zeta in Hu. eexists. split; [exact Hu|]. split; [done|]. split.
    + cbn. apply (prepare_ok l M D P); by destruct Hc.
    + cbn [DL.weight_sampler DL.set_weights_sample DL.set_weight_sampler
           DL.weights_sample].
      apply (call_weight_sampler_ok l _ M D P L B g Lfresh);
        [by apply consistent_fresh_closure|done].
  - rewrite (resample_ok l self M D P L g Luu Hc Hchol).
    eexists. split; [done|]. split; [done|]. split; [done|].
    apply (call_weight_sampler_ok l self M D P L B g Luu Hc Hchol).
  - unfold FF.resample, FF.sample_bias, FF.sample_weights, draw.
    by destruct has_bias_init.
Qed.

(** The theorem at the integer sampler, after its first call (batch size 1). *)
Lemma update_and_resample_effects_witness :
  let l := IntegerBackend.gp_layer 0 in
  let self := snd (fst (DL.call l IntegerBackend.sampler IntegerBackend.x_3_1_1 4)) in
  (exists self',
     DL.update l self 9 = (Ok (), self', 14)
     /\ DL.feature_functions self' = DL.feature_functions self
     /\ DL._prepare_weight_sampler l = Ok (DL.weight_sampler self'))
  /\ (exists self',
        DL.resample l self 9 = (Ok (), self', 14)
        /\ DL.feature_functions self' = DL.feature_functions self
        /\ DL.weight_sampler self' = DL.weight_sampler self).
Proof.
  intros l self.
  destruct (update_and_resample_effects l self 3 1 1 2 9
              IntegerBackend.delta IntegerBackend.delta)
    as ((s1 & H1 & H2 & H3 & _) & (s2 & H4 & H5 & H6 & _) & _).
  - by split.
  - reflexivity.
  - reflexivity.
  - split; [exists s1|exists s2]; repeat split; assumption.
Defined.

(** * The weight sampler implements Matheron's rule *)

(** The claim of C2 as stated fails for a sampler whose layer has been
    refitted since its weight sampler was prepared.  The integer sampler was
    built, and evaluated once, while the kernel variance was 0; after the
    variance has become 3, a call of the weight sampler returns weights whose
    last [M] rows [v] solve the system with the Gram matrix the weight
    sampler holds, and not the system with [K(Z, Z) + JITTER I] of the
    layer. *)
Lemma weight_sampler_stale_system_counterexample :
  let refitted := IntegerBackend.gp_layer 3 in
  let self := called_sampler in
  let prior := fst (random_normal [1; 2; 1] 9) in
  let noise := fst (random_normal [1; 1; 3; 1] 11) in
  let u_minus_prior :=
    rsub (inducing_u (whiten refitted) IntegerBackend.delta refitted noise 3 0 0 0)
         (prior_at_Z refitted (DL.feature_functions self) prior 2 0 0 0) in
  DL.initialized self = true
  /\ exists w,
       DL.call_weight_sampler refitted self 1 9 = (Ok w, 14)
       /\ rsum 3 (fun j => rmul (get (DL.Kmm (DL.weight_sampler self)) [0; j])
                                (get w [0; 2 + j; 0])) = u_minus_prior
       /\ rsum 3 (fun j => rmul (gram_at refitted 0 j) (get w [0; 2 + j; 0]))
          <> u_minus_prior.
Proof.
  intros refitted self prior noise u_minus_prior. split; [reflexivity|].
  assert (Hc : consistent refitted self 3 1 1 2) by by split.
  pose proof (call_weight_sampler_ok refitted self 3 1 1 2 1 9 IntegerBackend.delta
                Hc eq_refl) as Hcall.
  cbv zeta in Hcall. eexists. split; [exact Hcall|].
  split; by vm_compute.
Qed.

(** C2, amended.  For a sampler consistent with its layer and every batch
    size [B], one call of the weight sampler returns a tensor of shape
    [[B, L + M, P]]: the concatenation along axis 1 of the normal draw
    [prior] of shape [[B, L, P]] and of [v] of shape [[B, M, P]], where
    [Kmm v = u - Phi(Z) prior] for the Gram matrix [Kmm] that the weight
    sampler holds, with [u = q_mu + q_sqrt noise] from the layer's current
    parameters, multiplied from the left by the Cholesky factor of [Kmm] when
    the whiten flag captured with it is set; the solve goes through that
    Cholesky factor.  [Kmm] is [K(Z, Z) + JITTER I], and the flag that of the
    layer, for the state of the layer from which the weight sampler was
    prepared.  The Cholesky factorisation is assumed to succeed. *)
Theorem weight_sampler_matheron {BE : Backend} {BL : BackendLaws BE}
    (l : GPLayer) (self : DL.t) (M D P L B g : nat) (Luu : nat -> nat -> R) :
  consistent l self M D P L ->
  chol M (entries (DL.Kmm (DL.weight_sampler self))) = Some Luu ->
  let prior := fst (random_normal [B; L; P] g) in
  let noise := fst (random_normal [B; P; M; 1] (g + prod_dims [B; L; P])) in
  let held := DL.weight_sampler self in
  exists w v,
    DL.call_weight_sampler l self B g
    = (Ok w, g + prod_dims [B; L; P] + prod_dims [B; P; M; 1])
    /\ shape w = [B; L + M; P]
    /\ shape prior = [B; L; P]
    /\ shape v = [B; M; P]
    /\ concat 1 prior v = Ok w
    /\ (forall x j c, j < L -> get w [x; j; c] = get prior [x; j; c])
    /\ (forall x i c, get w [x; L + i; c] = get v [x; i; c])
    /\ (forall x i c, x < B -> i < M -> c < P ->
          rsum M (fun j => rmul (get (DL.Kmm held) [i; j]) (get v [x; j; c]))
          = rsub (inducing_u (DL.captured_whiten held) Luu l noise M x i c)
                 (prior_at_Z l (DL.feature_functions self) prior L x i c))
    /\ (forall x i c,
          get v [x; i; c]
          = tsolve true M Luu
              (tsolve false M Luu (fun k =>
                 get (diff_tensor l self Luu prior noise B M P L) [x; k; c])) i)
    /\ (forall l0, DL._prepare_weight_sampler l0 = Ok held ->
          DL.captured_whiten held = whiten l0
          /\ forall i j, i < M -> j < M ->
               get (DL.Kmm held) [i; j] = gram_at l0 i j).
Proof.
  intros Hc Hchol prior noise held. subst held.
  pose proof (call_weight_sampler_ok l self M D P L B g Luu Hc Hchol) as Hcall.
  cbv zeta in Hcall. fold prior noise in Hcall.
  set (diff := diff_tensor l self Luu prior noise B M P L) in *.
  set (v := v_tensor Luu diff B M P) in *.
  exists (mkT [B; L + M; P] (concat_at 1 L prior v)), v.
  split; [exact Hcall|]. split; [done|]. split; [done|]. split; [done|].
  split; [by apply concat_axis1|].
  split.
  { intros x j c Hj. cbn [get]. rewrite concat_at_axis1.
    by rewrite (proj2 (Nat.ltb_lt j L) Hj). }
  split.
  { intros x i c. cbn [get]. rewrite concat_at_axis1.
    rewrite (proj2 (Nat.ltb_ge (L + i) L)) by lia. do 3 f_equal. lia. }
  split.
  { intros x i c Hx Hi Hc'.
    rewrite <- (diff_tensor_at l self Luu prior noise B M P L x i c
                  (shape_q_mu _ _ _ _ _ _ Hc) Hx Hi Hc').
    fold diff.
    by rewrite <- (cholesky_solve M (entries (DL.Kmm (DL.weight_sampler self))) Luu
                     (fun k => get diff [x; k; c]) i Hchol Hi). }
  split; [done|].
  intros l0 Hprep.
  destruct (prepare_inv l0 _ Hprep) as (M' & D' & P' & HZ & _ & _ & Hcl).
  assert (M' = M) as ->.
  { rewrite <- (closure_M _ _ _ _ _ _ Hc). by rewrite Hcl. }
  rewrite Hcl. split; [done|]. intros i j Hi Hj. by apply gram_tensor_at.
Qed.

(** The theorem at the integer backend, for the sampler of the three-point
    layer, evaluated once, after the kernel variance has become 3, and batch
    size 2: the weights solve the system with the Gram matrix that was
    computed while the variance was 0. *)
Lemma weight_sampler_matheron_witness :
  let l0 := IntegerBackend.gp_layer 0 in
  let refitted := IntegerBackend.gp_layer 3 in
  let self := called_sampler in
  let prior := fst (random_normal [2; 2; 1] 9) in
  let noise := fst (random_normal [2; 1; 3; 1] 13) in
  exists w v,
    DL.call_weight_sampler refitted self 2 9 = (Ok w, 19)
    /\ shape w = [2; 5; 1]
    /\ shape v = [2; 3; 1]
    /\ concat 1 prior v = Ok w
    /\ (forall x i c, x < 2 -> i < 3 -> c < 1 ->
          rsum 3 (fun j => rmul (gram_at l0 i j) (get v [x; j; c]))
          = rsub (inducing_u false IntegerBackend.delta refitted noise 3 x i c)
                 (prior_at_Z refitted (DL.feature_functions self) prior 2 x i c)).
Proof.
  intros l0 refitted self prior noise.
  assert (Hc : consistent refitted self 3 1 1 2) by by split.
  destruct (weight_sampler_matheron refitted self 3 1 1 2 2 9 IntegerBackend.delta
              Hc eq_refl)
    as (w & v & H1 & H2 & _ & H4 & H5 & _ & _ & H8 & _ & H10).
  destruct (H10 l0 eq_refl) as [_ HK].
  exists w, v. do 4 (split; [assumption|]).
  intros x i c Hx Hi Hc'. etransitivity; [|exact (H8 x i c Hx Hi Hc')].
  apply rsum_ext. intros j Hj. by rewrite HK.
Defined.

(** * The Gram matrix is refreshed by [update], not by [resample] *)

(** The claim of C3 as stated fails: a resample does not recompute the Gram
    matrix.  The integer sampler was built while the kernel variance was 0;
    after the variance has become 3, [resample] returns, and the Gram matrix
    its weight sampler holds (entry 1 at [[0, 0]]) is not the Gram matrix of
    the layer's current kernel (entry 4). *)
Lemma resample_uses_stale_gram_counterexample :
  let refitted := IntegerBackend.gp_layer 3 in
  let '(r, self', _) := DL.resample refitted IntegerBackend.sampler 4 in
  r = Ok ()
  /\ get (DL.Kmm (DL.weight_sampler self')) [0; 0] = 1%Z
  /\ exists fresh, DL.gram refitted = Ok fresh /\ get fresh [0; 0] = 4%Z.
Proof.
  intros refitted.
  assert (Hc : consistent refitted IntegerBackend.sampler 3 1 1 2) by by split.
  rewrite (resample_ok refitted IntegerBackend.sampler 3 1 1 2 4
             IntegerBackend.delta Hc eq_refl).
  split; [done|]. split; [by vm_compute|].
  exists (gram_tensor refitted 3). split; [by apply (gram_ok refitted 3 1)|].
  by vm_compute.
Qed.

(** C3, amended.  The Gram matrix [K(Z, Z) + JITTER I] is computed from the
    layer's current kernel and inducing points when the weight sampler is
    prepared, that is at construction and in every [update], and is held by
    the weight sampler in between: a [resample] leaves it as it is.  Its
    Cholesky factor is not held: every weight-sampling pass factorises the
    held Gram matrix again, and raises what that factorisation raises.  So
    the weights an [update] draws after a refit use the Gram matrix of the
    refitted layer. *)
Theorem gram_refreshed_by_update {BE : Backend}
    (l : GPLayer) (self : DL.t) (M D P L g : nat) :
  consistent l self M D P L ->
  let B := DL.batch_size self in
  (forall r self' g', DL.update l self g = (r, self', g') ->
     DL.gram l = Ok (DL.Kmm (DL.weight_sampler self'))
     /\ (forall i j, i < M -> j < M ->
           get (DL.Kmm (DL.weight_sampler self')) [i; j] = gram_at l i j)
     /\ match chol M (entries (DL.Kmm (DL.weight_sampler self'))) with
        | Some Lfresh =>
            r = Ok ()
            /\ DL.call_weight_sampler l
                 (DL.set_weight_sampler (DL.weight_sampler self') self) B g
               = (Ok (DL.weights_sample self'), g')
        | None =>
            forall e,
              chol_no_factor M (entries (DL.Kmm (DL.weight_sampler self'))) = Err e ->
              r = Err e
        end)
  /\ (forall r self' g', DL.resample l self g = (r, self', g') ->
        DL.Kmm (DL.weight_sampler self') = DL.Kmm (DL.weight_sampler self)
        /\ match chol M (entries (DL.Kmm (DL.weight_sampler self))) with
           | Some Luu =>
               r = Ok ()
               /\ DL.call_weight_sampler l self B g = (Ok (DL.weights_sample self'), g')
           | None =>
               forall e,
                 chol_no_factor M (entries (DL.Kmm (DL.weight_sampler self))) = Err e ->
                 r = Err e
           end).
Proof.
  intros Hc B. split.
  - intros r self' g' Hu.
    set (fresh := DL.set_weight_sampler
                    (DL.mkClosure (gram_tensor l M) (whiten l) M P) self).
    assert (Hcf : consistent l fresh M D P L) by by apply consistent_fresh_closure.
    assert (Hprep : DL._prepare_weight_sampler l
                    = Ok (DL.mkClosure (gram_tensor l M) (whiten l) M P)).
    { apply (prepare_ok l M D P); by destruct Hc. }
    unfold DL.update in Hu. rewrite Hprep in Hu. fold fresh in Hu.
    destruct (resample_frame _ _ _ _ _ _ Hu) as (_ & Hws & _).
    rewrite Hws. cbn [fresh DL.weight_sampler DL.set_weight_sampler DL.Kmm].
    split; [apply (gram_ok l M D); by destruct Hc|].
    split; [intros; by apply gram_tensor_at|].
    destruct (chol M (entries (gram_tensor l M))) as [Lfresh|] eqn:Hchol.
    + rewrite (resample_ok l fresh M D P L g Lfresh Hcf Hchol) in Hu.
      injection Hu as <- <- <-. split; [done|].
      apply (call_weight_sampler_ok l fresh M D P L B g Lfresh Hcf Hchol).
    + intros e He.
      rewrite (resample_cholesky_failed l fresh M D P L g e Hcf
                 (factorise_raises _ _ _ Hchol He)) in Hu.
      by injection Hu as <- <- <-.
  - intros r self' g' Hr.
    destruct (resample_frame _ _ _ _ _ _ Hr) as (_ & Hws & _).
    split; [by rewrite Hws|].
    destruct (chol M (entries (DL.Kmm (DL.weight_sampler self)))) as [Luu|] eqn:Hchol.
    + rewrite (resample_ok l self M D P L g Luu Hc Hchol) in Hr.
      injection Hr as <- <- <-. split; [done|].
      apply (call_weight_sampler_ok l self M D P L B g Luu Hc Hchol).
    + intros e He.
      rewrite (resample_cholesky_failed l self M D P L g e Hc
                 (factorise_raises _ _ _ Hchol He)) in Hr.
      by injection Hr as <- <- <-.
Qed.

(** The theorem at the integer sampler: an update on the layer it was built
    from holds the Gram matrix of that layer, and a resample on the refitted
    layer keeps the matrix the sampler held. *)
Lemma gram_refreshed_by_update_witness :
  let l := IntegerBackend.gp_layer 0 in
  let refitted := IntegerBackend.gp_layer 3 in
  let self := IntegerBackend.sampler in
  DL.gram l = Ok (DL.Kmm (DL.weight_sampler (snd (fst (DL.update l self 4)))))
  /\ DL.Kmm (DL.weight_sampler (snd (fst (DL.resample refitted self 4))))
     = DL.Kmm (DL.weight_sampler self).
Proof.
  intros l refitted self. split.
  - destruct (DL.update l self 4) as [[r self'] g'] eqn:Hu.
    exact (proj1 (proj1 (gram_refreshed_by_update l self 3 1 1 2 4
                           IntegerBackendFacts.sampler_consistent) r self' g' Hu)).
  - destruct (DL.resample refitted self 4) as [[r self'] g'] eqn:Hr.
    assert (Hc : consistent refitted self 3 1 1 2) by by split.
    exact (proj1 (proj2 (gram_refreshed_by_update refitted self 3 1 1 2 4 Hc)
                    r self' g' Hr)).
Defined.

(** * The batch size is fixed by the first call *)

(** C4. A call of a layer sampler on an input of shape [[N, B, D]] that
    returns (the first call in particular) leaves the sampler initialized
    with batch size [B]; whatever calls, resamples and updates follow, on
    whatever states of the layer, the sampler stays initialized with batch
    size [B], and a call on an input of shape [[N', B', D']] with [B' <> B]
    raises the [InvalidArgumentError] of the batch-size assertion instead of
    returning, and changes nothing. *)
Theorem batch_size_fixed_by_first_call {BE : Backend}
    (l : GPLayer) (self : DL.t) (x : tensor) (g N B D : nat)
    (y : tensor) (self1 : DL.t) (g1 : nat) :
  shape x = [N; B; D] ->
  DL.call l self x g = (Ok y, self1, g1) ->
  DL.initialized self1 = true
  /\ DL.batch_size self1 = B
  /\ forall (ops : list operation) (g2 : nat),
       let st := run ops (self1, g2) in
       DL.initialized (fst st) = true
       /\ DL.batch_size (fst st) = B
       /\ forall l' x' N' B' D',
            shape x' = [N'; B'; D'] -> B' <> B ->
            DL.call l' (fst st) x' (snd st)
            = (Err (InvalidArgumentError BatchSizeChanged), fst st, snd st).
Proof.
  intros Hx Hcall.
  destruct (call_Ok_ready _ _ _ _ _ _ _ Hcall) as [Hi Hb].
  unfold dim_from_end in Hb. rewrite Hx in Hb. cbn in Hb. injection Hb as Hb.
  split; [done|]. split; [done|].
  intros ops g2 st.
  destruct (run_keeps_ready ops self1 g2 Hi) as [Hi' Hb'].
  split; [done|]. split; [unfold st; congruence|].
  intros l' x' N' B' D' Hx' Hne.
  apply (call_batch_mismatch l' (fst st) x' (snd st) B'); [done| |].
  - unfold dim_from_end. by rewrite Hx'.
  - unfold st. congruence.
Qed.

(** The first call of the integer sampler, on three points with batch size
    1; then a resample, an update and another call; then a call with batch
    size 2. *)
Lemma batch_size_fixed_by_first_call_witness :
  let l := IntegerBackend.gp_layer 0 in
  let first := DL.call l IntegerBackend.sampler IntegerBackend.x_3_1_1 4 in
  let st := run [Resample l; Update l; Call l IntegerBackend.x_3_1_1]
                (snd (fst first), snd first) in
  is_ok (fst (fst first)) = true
  /\ DL.initialized (fst st) = true
  /\ DL.batch_size (fst st) = 1
  /\ DL.call l (fst st) IntegerBackend.x_3_2_1 (snd st)
     = (Err (InvalidArgumentError BatchSizeChanged), fst st, snd st).
Proof.
  intros l first st.
  assert (Hok : is_ok (fst (fst first)) = true) by (vm_compute; reflexivity).
  destruct (batch_size_fixed_by_first_call l IntegerBackend.sampler
              IntegerBackend.x_3_1_1 4 3 1 1 _ _ _ eq_refl
              (is_ok_returned (ones []) first Hok))
    as (_ & _ & H).
  destruct (H [Resample l; Update l; Call l IntegerBackend.x_3_1_1] (snd first))
    as (Hi & Hb & Hm).
  split; [exact Hok|]. split; [exact Hi|]. split; [exact Hb|].
  by apply (Hm l IntegerBackend.x_3_2_1 3 2 1).
Defined.

(** * The manager refuses unsupported layers *)

(** C5. Constructing the manager over a [DeepGP] one of whose layers is not
    a [GPLayer] raises: no manager comes back, so no trajectory can be built
    from it and no weights are sampled.  With a positive feature count, and
    when the layers before the first such layer construct their samplers,
    the exception is the [ValueError] of the unsupported layer, raised with
    the generator where the samplers before left it. *)
Theorem manager_rejects_unsupported_layer {BE : Backend}
    (pre : list layer) (bad : layer) (post : list layer) (num_features : Z) (g : nat) :
  Manager.gp_of bad = None ->
  let m := GPfluxPredictor (DeepGP (pre ++ bad :: post)) in
  let before := Manager.build_layers pre (Z.to_nat num_features) g in
  is_ok (fst (Manager.init m num_features g)) = false
  /\ ((0 < num_features)%Z -> is_ok (fst before) = true ->
      Manager.init m num_features g
      = (Err (ValueError LayerNotSupported), snd before)).
Proof.
  intros Hbad m before. unfold m, Manager.init.
  rewrite (build_layers_unsupported pre bad post _ g Hbad). fold before.
  split.
  - destruct (0 <? num_features)%Z; [|done]. by destruct before as [[ss|e] g1].
  - intros Hpos Hpre. rewrite (proj2 (Z.ltb_lt 0 num_features) Hpos).
    by destruct before as [[ss|e] g1].
Qed.

(** The theorem at a model of a GP layer, a latent-variable layer and
    another GP layer, with two features. *)
Lemma manager_rejects_unsupported_layer_witness :
  let gp := IsGPLayer (IntegerBackend.gp_layer 0) in
  let lv := IsLatentVariableLayer (mkLVLayer 1 0) in
  Manager.init (GPfluxPredictor (DeepGP ([gp] ++ lv :: [gp]))) 2 0
  = (Err (ValueError LayerNotSupported), 4).
Proof.
  intros gp lv.
  destruct (manager_rejects_unsupported_layer [gp] lv [gp] 2 0 eq_refl) as [_ H].
  assert (Hpre : is_ok (fst (Manager.build_layers [gp] (Z.to_nat 2) 0)) = true)
    by (vm_compute; reflexivity).
  rewrite (H eq_refl Hpre). reflexivity.
Defined.

(** * Updating and resampling a trajectory through the manager *)

Section TrajectoryMethods.

Context {BE : Backend}.

(** When a method has returned for the whole list, every sampler has gone
    through it. *)
Lemma each_returned f ls : forall ss g ss' g',
  Traj.each f ls ss g = (Ok (), ss', g') ->
  length ss' = length ss
  /\ forall i l s, ls !! i = Some l -> ss !! i = Some s ->
       exists s' g1 g2, ss' !! i = Some s' /\ f l s g1 = (Ok (), s', g2).
Proof.
  induction ls as [|l ls IH]; intros ss g ss' g'.
  - assert (Traj.each f [] ss g = (Ok (), ss, g)) as -> by by destruct ss.
    intros [= <- <-]. split; [done|]. intros i l s Hl. by destruct i.
  - destruct ss as [|s ss]; [intros [= <- <-]; split; [done|]; by intros [|i]|].
    cbn [Traj.each]. destruct (f l s g) as [[[[]|e] s1] g1] eqn:Hf; [|discriminate].
    destruct (Traj.each f ls ss g1) as [[r ss1] g2] eqn:Hrest.
    intros [= -> <- <-]. destruct (IH _ _ _ _ Hrest) as [Hlen Hall].
    split; [cbn; by rewrite Hlen|].
    intros [|i] l0 s0; cbn.
    + intros [= <-] [= <-]. by exists s1, g, g1.
    + apply Hall.
Qed.

Lemma on_trajectory_object method p owner id :
  let m := Program.view owner p in
  let ran := method (Manager.gp_layers m) (Manager.sampling_layers m)
                    (Program.generator p) in
  let t := Program.TrajectoryObject owner id in
  let '(r, p') := Program.on_trajectory method t p in
  r = (_ ← fst (fst ran); Ok t)
  /\ Manager.sampling_layers (Program.managers p' owner) = snd (fst ran)
  /\ Manager.gp_layers (Program.managers p' owner)
     = Manager.gp_layers (Program.managers p owner)
  /\ Program.generator p' = snd ran
  /\ forall k, k <> owner -> Program.managers p' k = Program.managers p k.
Proof.
  intros m ran t. unfold Program.on_trajectory. cbn [t]. fold m.
  change (Manager.generator m) with (Program.generator p). fold ran.
  destruct ran as [[r ss] g]. cbn [fst snd Program.store Program.managers
                                   Program.generator].
  rewrite fn_lookup_insert. do 4 (split; [done|]).
  intros k Hk. by rewrite fn_lookup_insert_ne.
Qed.

End TrajectoryMethods.

(** C6. A trajectory object [t] that [get_trajectory] of a manager has
    handed out, in whatever state [p0] of the program, holds the list of
    layer samplers of that manager, its owner.  In any state [p],
    [update_trajectory t] and [resample_trajectory t], of whatever manager
    they are called on, run the method of [t] on that list, modified in
    place: when the method returns, every layer sampler of the owner has
    gone through its own [update] (or [resample]), and [t] itself is
    returned; an exception of the method propagates.  The layer samplers of
    every other manager stay as they are.  For a value that is not a
    trajectory object of that class both raise the [InvalidArgumentError] of
    [tf.debugging.Assert] and change nothing. *)
Theorem trajectory_identity_preserved {BE : Backend}
    (p0 p : Program.t) (self owner id : nat) :
  let t := fst (Program.get_trajectory owner p0) in
  let m := Program.view owner p in
  let ls := Manager.gp_layers m in
  let ss := Manager.sampling_layers m in
  let updated := Traj.update ls ss (Program.generator p) in
  let resampled := Traj.resample ls ss (Program.generator p) in
  (exists id0, t = Program.TrajectoryObject owner id0)
  /\ (let '(r, p') := Program.update_trajectory self t p in
      r = (_ ← fst (fst updated); Ok t)
      /\ Manager.sampling_layers (Program.managers p' owner) = snd (fst updated)
      /\ Program.generator p' = snd updated
      /\ (forall k, k <> owner -> Program.managers p' k = Program.managers p k)
      /\ (r = Ok t ->
          forall i l s, ls !! i = Some l -> ss !! i = Some s ->
            exists s' g1 g2,
              Manager.sampling_layers (Program.managers p' owner) !! i = Some s'
              /\ DL.update l s g1 = (Ok (), s', g2)))
  /\ (let '(r, p') := Program.resample_trajectory self t p in
      r = (_ ← fst (fst resampled); Ok t)
      /\ Manager.sampling_layers (Program.managers p' owner) = snd (fst resampled)
      /\ Program.generator p' = snd resampled
      /\ (forall k, k <> owner -> Program.managers p' k = Program.managers p k)
      /\ (r = Ok t ->
          forall i l s, ls !! i = Some l -> ss !! i = Some s ->
            exists s' g1 g2,
              Manager.sampling_layers (Program.managers p' owner) !! i = Some s'
              /\ DL.resample l s g1 = (Ok (), s', g2)))
  /\ Program.update_trajectory self (Program.OtherCallable id) p
     = (Err (InvalidArgumentError AssertFailed), p)
  /\ Program.resample_trajectory self (Program.OtherCallable id) p
     = (Err (InvalidArgumentError AssertFailed), p).
Proof.
  intros t m ls ss updated resampled.
  assert (Ht : t = Program.TrajectoryObject owner
                     (Manager.next_object (Program.managers p0 owner))) by done.
  split; [by eexists|]. rewrite Ht. clear Ht t.
  unfold Program.update_trajectory, Program.resample_trajectory.
  split; [|split; [|done]].
  - pose proof (on_trajectory_object Traj.update p owner
                  (Manager.next_object (Program.managers p0 owner))) as H.
    cbv zeta in H. fold m ls ss updated in H.
    destruct (Program.on_trajectory Traj.update _ p) as [r p'].
    destruct H as (Hr & Hss & _ & Hg & Hk). do 4 (split; [done|]).
    intros Hok i l s Hl Hs. rewrite Hss.
    destruct updated as [[[[]|e] ss'] g'] eqn:Hu; [|by rewrite Hok in Hr].
    destruct (each_returned DL.update ls ss _ ss' g' Hu) as [_ Hall].
    by apply Hall.
  - pose proof (on_trajectory_object Traj.resample p owner
                  (Manager.next_object (Program.managers p0 owner))) as H.
    cbv zeta in H. fold m ls ss resampled in H.
    destruct (Program.on_trajectory Traj.resample _ p) as [r p'].
    destruct H as (Hr & Hss & _ & Hg & Hk). do 4 (split; [done|]).
    intros Hok i l s Hl Hs. rewrite Hss.
    destruct resampled as [[[[]|e] ss'] g'] eqn:Hu; [|by rewrite Hok in Hr].
    destruct (each_returned DL.resample ls ss _ ss' g' Hu) as [_ Hall].
    by apply Hall.
Qed.

(** Two managers of the one-layer integer model, the first with its
    trajectory evaluated once.  [update_trajectory] of the second manager on
    a trajectory of the first returns that trajectory, redraws the weights of
    the sampler of the first manager and leaves the sampler of the second as
    construction left it. *)
Example update_trajectory_of_another_manager :
  let first := snd (Manager.call_trajectory IntegerBackend.x_3_1_1 integer_manager) in
  let p := Program.mk (fun k => if k =? 0 then first else integer_manager) 9 in
  let '(t, p0) := Program.get_trajectory 0 p in
  let '(r, p') := Program.update_trajectory 1 t p0 in
  let weight m := get (DL.weights_sample (default IntegerBackend.sampler
                         (Manager.sampling_layers m !! 0))) [0; 0; 0] in
  r = Ok t
  /\ Program.generator p' = 14
  /\ weight first = 5%Z
  /\ weight (Program.managers p' 0) = 10%Z
  /\ DL.initialized <$> Manager.sampling_layers (Program.managers p' 1) = [false].
Proof. by vm_compute. Qed.

(** * Repeated evaluation *)

(** C7. When an evaluation of a trajectory has returned, evaluating it again
    on the same input, with no resample or update (and no change of the
    model) in between, returns the same tensor, leaves every layer sampler as
    it is and does not move the random generator; and on any input, an
    evaluation then changes neither the samplers nor the generator: it reads
    the cached weights and features. *)
Theorem repeated_evaluation_identical {BE : Backend}
    (ls : list GPLayer) (ss : list DL.t) (x : tensor) (g : nat)
    (y : tensor) (ss1 : list DL.t) (g1 : nat) :
  Traj.call ls ss x g = (Ok y, ss1, g1) ->
  Traj.call ls ss1 x g1 = (Ok y, ss1, g1)
  /\ forall x', exists r, Traj.call ls ss1 x' g1 = (r, ss1, g1).
Proof.
  unfold Traj.call.
  destruct (Traj.call_layers ls ss x g) as [[r ss'] g'] eqn:Hl.
  intros [= Hr <- <-]. destruct r as [z|e]; [|discriminate].
  destruct (call_layers_twice _ _ _ _ _ _ _ Hl) as [H1 H2]. split.
  - by rewrite H1, Hr.
  - intros x'. destruct (call_layers_ready ls ss' x' g' H2) as [r ->]. by eexists.
Qed.

(** Two evaluations of the one-layer integer trajectory on three points. *)
Lemma repeated_evaluation_identical_witness :
  let ls := [IntegerBackend.gp_layer 0] in
  let first := Traj.call ls [IntegerBackend.sampler] IntegerBackend.x_3_1_1 4 in
  is_ok (fst (fst first)) = true
  /\ Traj.call ls (snd (fst first)) IntegerBackend.x_3_1_1 (snd first)
     = (Ok (returned_or (ones []) (fst (fst first))), snd (fst first), snd first).
Proof.
  intros ls first.
  assert (Hok : is_ok (fst (fst first)) = true) by (vm_compute; reflexivity).
  split; [exact Hok|].
  exact (proj1 (repeated_evaluation_identical ls _ _ _ _ _ _
                  (is_ok_returned (ones []) first Hok))).
Defined.

(** * The feature bank keeps its shapes *)

(** C8. The [resample] of the feature bank draws [b] and [W] anew with the
    shapes they had, and leaves the feature count as it is; the layer, and
    with it the inducing points, is not touched.  For every input the
    evaluation has the same shape after as before (or raises the same
    exception); for an input of shape [[N, D]], with [M] inducing points in
    dimension [D] and [L] rows of [W], that shape is [[N, L + M]]. *)
Theorem bank_resample_keeps_shapes {BE : Backend}
    (l : GPLayer) (ff : FF.t) (g : nat) (x : tensor) (N M D L : nat) :
  shape x = [N; D] ->
  shape (inducing_points l) = [M; D] ->
  shape (FF.W ff) = [L; D] ->
  let ff' := fst (FF.resample l ff g) in
  FF.n_components ff' = FF.n_components ff
  /\ shape (FF.W ff') = shape (FF.W ff)
  /\ shape (FF.b ff') = shape (FF.b ff)
  /\ FF.b ff' = fst (FF.sample_bias (shape (FF.b ff)) g)
  /\ FF.W ff' = fst (FF.sample_weights (base_kernel l) (shape (FF.W ff))
                       (g + prod_dims (shape (FF.b ff))))
  /\ (forall x', same_shape (FF.call l ff x') (FF.call l ff' x'))
  /\ exists t t',
       FF.call l ff x = Ok t /\ FF.call l ff' x = Ok t'
       /\ shape t = [N; L + M] /\ shape t' = [N; L + M].
Proof.
  intros Hx HZ HW ff'.
  destruct (FF_resample_shapes l ff g) as (Hn & HsW & Hsb). fold ff' in Hn, HsW, Hsb.
  split; [done|]. split; [done|]. split; [done|].
  split; [|split; [|split]].
  - unfold ff', FF.resample, FF.sample_bias, FF.sample_weights, draw.
    by destruct has_bias_init.
  - unfold ff', FF.resample, FF.sample_bias, FF.sample_weights, draw.
    by destruct has_bias_init.
  - intros x'. by apply call_same_shape.
  - rewrite (FF_call_ok l ff x N M D L Hx HZ HW).
    rewrite (FF_call_ok l ff' x N M D L Hx HZ) by by rewrite HsW.
    by do 2 eexists.
Qed.

(** The theorem at the bank of the integer sampler, on three points. *)
Lemma bank_resample_keeps_shapes_witness :
  let l := IntegerBackend.gp_layer 0 in
  let ff := DL.feature_functions IntegerBackend.sampler in
  let ff' := fst (FF.resample l ff 4) in
  let x := IntegerBackend.matrix [[-1]; [0]; [1]]%Z in
  shape (FF.W ff') = shape (FF.W ff)
  /\ shape (FF.b ff') = shape (FF.b ff)
  /\ exists t t',
       FF.call l ff x = Ok t /\ FF.call l ff' x = Ok t'
       /\ shape t = [3; 5] /\ shape t' = [3; 5].
Proof.
  intros l ff ff' x.
  destruct (bank_resample_keeps_shapes l ff 4 x 3 3 1 2 eq_refl eq_refl eq_refl)
    as (_ & H1 & H2 & _ & _ & _ & H3).
  by repeat split.
Defined.

(** * The model wrapper checks trailing dimensions *)

(** The claim of C9 as stated fails for the layers after the first: their
    inducing points are compared with the output of the layer before, not
    with the query points.  Two GP layers, from two dimensions to one and
    from one to one; query points of trailing dimension 2 and observations
    of trailing dimension 1: [update] returns, although the inducing points
    of the second layer have trailing dimension 1. *)
Lemma update_accepts_narrower_layer_counterexample :
  let first := integer_layer [[0; 0]]%Z [[0]]%Z in
  let second := integer_layer [[0]]%Z [[0]]%Z in
  let dataset := DGP.mkDataset (IntegerBackend.matrix [[1; 2]; [3; 4]]%Z)
                               (IntegerBackend.matrix [[5]; [6]]%Z) in
  DGP.trailing_dim (DGP.query_points dataset) = Ok 2
  /\ DGP.trailing_dim (IntegerBackend.matrix [[0]]%Z) = Ok 1
  /\ fst (fst (DGP.update zero_gp_sample zero_lv_sample
                 (DGP.mk 0 [first; second]) dataset 0)) = Ok ().
Proof. by vm_compute. Qed.

(** C9, amended.  [update] compares, layer by layer, the trailing dimension
    of the inputs reaching a GP layer (the new query points for the first
    layer, the output of the layers before for a later one) with that of the
    layer's inducing points, and raises a [ValueError] when they differ; for
    the final layer, when it is a GP layer whose inputs match, it raises a
    [ValueError] when the trailing dimension of the new observations differs
    from that of the layer's [q_mu].  The exception is raised where the
    mismatch is found: the layers after keep their [num_data], and the
    generator is where the layers before left it. *)
Theorem update_checks_trailing_dims {BE : Backend}
    (gp_sample : GPLayer -> tensor -> nat -> list nat -> R)
    (lv_sample : LatentVariableLayer -> tensor -> nat -> list nat -> R)
    (self : DGP.t) (dataset : DGP.Dataset) (g n : nat)
    (pre : list layer) (l : GPLayer) (post : list layer)
    (inputs : tensor) (pre' : list layer) (g1 d dz : nat) :
  DGP.f_layers self = pre ++ IsGPLayer l :: post ->
  DGP.leading_dim (DGP.query_points dataset) = Ok n ->
  DGP.update_layers gp_sample lv_sample n (length (DGP.f_layers self)) 0 pre
    (DGP.query_points dataset) dataset g = (Ok inputs, pre', g1) ->
  DGP.trailing_dim inputs = Ok d ->
  DGP.trailing_dim (inducing_points l) = Ok dz ->
  let here := DGP.set_num_data n (IsGPLayer l) in
  (d <> dz ->
   DGP.update gp_sample lv_sample self dataset g
   = (Err (ValueError InputTrailingDim), DGP.mk n (pre' ++ here :: post), g1))
  /\ (d = dz -> post = [] ->
      forall o p,
        DGP.trailing_dim (DGP.observations dataset) = Ok o ->
        DGP.trailing_dim (q_mu l) = Ok p ->
        o <> p ->
        DGP.update gp_sample lv_sample self dataset g
        = (Err (ValueError ObservationTrailingDim), DGP.mk n (pre' ++ [here]), g1)).
Proof.
  intros Hl Hn Hpre Hd Hdz here. unfold DGP.update. rewrite Hn, Hl.
  rewrite update_layers_app. rewrite Hl in Hpre. rewrite Hpre.
  cbn [DGP.update_layers]. unfold DGP.check_gp. rewrite Hd, Hdz.
  cbn [mbind result_bind]. split.
  - intros Hne. by rewrite (proj2 (Nat.eqb_neq d dz) Hne).
  - intros -> -> o p Ho Hp Hne. rewrite Nat.eqb_refl. cbn [negb].
    rewrite length_app. cbn [length].
    replace (0 + length pre =? length pre + 1 - 1) with true
      by (symmetry; apply Nat.eqb_eq; lia).
    rewrite Ho, Hp. cbn [mbind result_bind].
    by rewrite (proj2 (Nat.eqb_neq o p) Hne).
Qed.

(** The theorem at the two-layer integer model: query points of trailing
    dimension 3 are refused at the first layer, and observations of trailing
    dimension 2 at the second, after the first layer has been called. *)
Lemma update_checks_trailing_dims_witness :
  let first := integer_gp [[0; 0]]%Z [[0]]%Z in
  let second := integer_gp [[0]]%Z [[0]]%Z in
  let self := DGP.mk 0 [IsGPLayer first; IsGPLayer second] in
  let wide := DGP.mkDataset (IntegerBackend.matrix [[1; 2; 3]; [4; 5; 6]]%Z)
                            (IntegerBackend.matrix [[5]; [6]]%Z) in
  let two_outputs := DGP.mkDataset (IntegerBackend.matrix [[1; 2]; [3; 4]]%Z)
                                   (IntegerBackend.matrix [[5; 5]; [6; 6]]%Z) in
  DGP.update zero_gp_sample zero_lv_sample self wide 0
  = (Err (ValueError InputTrailingDim),
     DGP.mk 2 [DGP.set_num_data 2 (IsGPLayer first); IsGPLayer second], 0)
  /\ DGP.update zero_gp_sample zero_lv_sample self two_outputs 0
     = (Err (ValueError ObservationTrailingDim),
        DGP.mk 2 [DGP.set_num_data 2 (IsGPLayer first);
                  DGP.set_num_data 2 (IsGPLayer second)], 2).
Proof.
  intros first second self wide two_outputs. split.
  - apply (proj1 (update_checks_trailing_dims zero_gp_sample zero_lv_sample
                    self wide 0 2 [] first [IsGPLayer second]
                    (DGP.query_points wide) [] 0 3 2
                    eq_refl eq_refl eq_refl eq_refl eq_refl)).
    lia.
  - apply (proj2 (update_checks_trailing_dims zero_gp_sample zero_lv_sample
                    self two_outputs 0 2 [IsGPLayer first] second []
                    (mkT [2; 1] (zero_gp_sample first (DGP.query_points two_outputs) 0))
                    [DGP.set_num_data 2 (IsGPLayer first)] 2 1 1
                    eq_refl eq_refl eq_refl eq_refl eq_refl)
             eq_refl eq_refl 2 1 eq_refl eq_refl).
    lia.
Defined.

(** * Resample and update before the first call *)

(** C10. On a consistent sampler that has never been evaluated (not
    initialized, batch size 0, as construction leaves it), and when the
    Cholesky factorisations succeed, [resample] and [update] return instead
    of raising: they cache a weight tensor of shape [[0, L + M, P]], draw
    no random number, and leave the sampler not initialized with batch size
    0; the first evaluation after that, on an input of shape [[N, B, D]],
    records [B] as the batch size and caches weights drawn for [B]. *)
Theorem resample_before_first_call {BE : Backend}
    (l : GPLayer) (self : DL.t) (M D P L g : nat) (x : tensor) (N B Dx : nat)
    (Luu Lfresh : nat -> nat -> R) :
  consistent l self M D P L ->
  DL.initialized self = false ->
  DL.batch_size self = 0 ->
  chol M (entries (DL.Kmm (DL.weight_sampler self))) = Some Luu ->
  chol M (entries (gram_tensor l M)) = Some Lfresh ->
  shape x = [N; B; Dx] ->
  exists s1 s2,
    DL.resample l self g = (Ok (), s1, g)
    /\ DL.update l self g = (Ok (), s2, g)
    /\ awaiting_first_call s1 M P L
    /\ awaiting_first_call s2 M P L
    /\ first_call_initializes l s1 x M P L B
    /\ first_call_initializes l s2 x M P L B.
Proof.
  intros Hc Hi Hb Hchol Hfresh Hx.
  pose proof (resample_ok l self M D P L g Luu Hc Hchol) as Hr.
  pose proof (update_ok l self M D P L g Lfresh Hc Hfresh) as Hu.
  cbv zeta in Hu. rewrite Hb in Hr, Hu.
  assert (Hg : after_draw M P L 0 g = g) by (unfold after_draw; cbn; lia).
  rewrite Hg in Hr, Hu.
  eexists _, _. split; [exact Hr|]. split; [exact Hu|].
  split; [done|]. split; [done|]. split.
  - apply (first_call_initializes_ok l _ x M D P L N B Dx Luu);
      [by apply consistent_set_weights|done..].
  - apply (first_call_initializes_ok l _ x M D P L N B Dx Lfresh);
      [by apply consistent_set_weights, consistent_fresh_closure|done..].
Qed.

(** The theorem at the integer sampler as construction left it. *)
Lemma resample_before_first_call_witness :
  let l := IntegerBackend.gp_layer 0 in
  let self := IntegerBackend.sampler in
  exists s1 s2,
    DL.resample l self 4 = (Ok (), s1, 4)
    /\ DL.update l self 4 = (Ok (), s2, 4)
    /\ awaiting_first_call s1 3 1 2
    /\ awaiting_first_call s2 3 1 2
    /\ first_call_initializes l s1 IntegerBackend.x_3_2_1 3 1 2 2
    /\ first_call_initializes l s2 IntegerBackend.x_3_2_1 3 1 2 2.
Proof.
  intros l self.
  exact (resample_before_first_call l self 3 1 1 2 4 IntegerBackend.x_3_2_1 3 2 1
           IntegerBackend.delta IntegerBackend.delta
           IntegerBackendFacts.sampler_consistent eq_refl eq_refl eq_refl eq_refl eq_refl).
Defined.

Section EvaluationFacts.

Context {BE : Backend}.

Lemma unravel_ravel_2 N B n b :
  n < N -> b < B -> unravel [N; B] (ravel [N; B] [n; b]) = [n; b].
Proof.
  intros Hn Hb. unfold unravel, ravel. cbn.
  rewrite Nat.add_comm, Nat.Div0.mod_add.
  rewrite (Nat.mod_small b B) by lia.
  rewrite Nat.div_add by lia. rewrite (Nat.div_small b B) by lia.
  cbn. by rewrite Nat.mod_small by lia.
Qed.

Lemma tmul_features_weights A W N B J P :
  shape A = [N; B; J; 1] -> shape W = [B; J; P] ->
  tmul A W = Ok (mkT [N; B; J; P] (ewise_at rmul A W)).
Proof.
  intros HA HW. unfold tmul, ewise, broadcast_shapes. rewrite HA, HW. cbn.
  rewrite !bdim_refl. cbn.
  assert (bdim 1 P = Some P) as ->; [|done].
  unfold bdim. destruct (Nat.eqb_spec 1 P) as [<-|]; done.
Qed.

Lemma reduce_sum_m2_rank4 A N B J P :
  shape A = [N; B; J; P] ->
  reduce_sum_m2 A = Ok (mkT [N; B; P] (reduce_sum_m2_at J A)).
Proof. intros HA. unfold reduce_sum_m2. by rewrite HA. Qed.

Lemma apply_mean_rank3 mf x N B D :
  shape x = [N; B; D] ->
  apply_mean mf x = Ok (mkT [N; B; mean_dim mf] (apply_mean_at mf D x)).
Proof. intros Hx. unfold apply_mean. by rewrite Hx. Qed.

Lemma flatten_rank3 x N B D :
  shape x = [N; B; D] ->
  flatten_leading_dims x = Ok (flat_tensor x N B D, unflatten [N; B]).
Proof. intros Hx. unfold flatten_leading_dims, rank. by rewrite Hx. Qed.

Lemma row_flat_tensor x N B D n b :
  n < N -> b < B ->
  row (flat_tensor x N B D) (ravel [N; B] [n; b]) = point_at x D [n; b].
Proof.
  intros Hn Hb. unfold row, point_at, flat_tensor. cbn [shape get of_entries].
  by rewrite unravel_ravel_2.
Qed.

(** The evaluation proper on an input of shape [[N, B, D]]. *)
Lemma evaluate_ok l s x N B M D P L :
  consistent l s M D P L ->
  shape (DL.weights_sample s) = [B; L + M; P] ->
  mean_dim (mean_function l) = P ->
  shape x = [N; B; D] ->
  DL.evaluate l s x = Ok (evaluated l s x N B M D P L).
Proof.
  intros Hc Hw Hm Hx. unfold DL.evaluate.
  rewrite (flatten_rank3 x N B D Hx). cbn [mbind result_bind].
  rewrite (FF_call_ok l _ (flat_tensor x N B D) (prod_dims [N; B]) M D L eq_refl
             (shape_Z _ _ _ _ _ _ Hc) (shape_W _ _ _ _ _ _ Hc)).
  cbn [mbind result_bind]. unfold unflatten. cbn [shape].
  rewrite Nat.eqb_refl. cbn [mbind result_bind app].
  fold (features_tensor l s x N B M D L).
  rewrite (tmul_features_weights (features_tensor l s x N B M D L) _ N B (L + M) P
             eq_refl Hw).
  cbn [mbind result_bind].
  erewrite (reduce_sum_m2_rank4 _ N B (L + M) P) by done. cbn [mbind result_bind].
  rewrite (apply_mean_rank3 _ x N B D Hx). cbn [mbind result_bind]. rewrite Hm.
  unfold tadd. by erewrite (ewise_same radd _ _ [N; B; P]) by done.
Qed.

Lemma features_tensor_at l s x N B M D L n b j :
  n < N -> b < B ->
  get (features_tensor l s x N B M D L) [n; b; j; 0]
  = feature_at l (DL.feature_functions s) L (point_at x D [n; b]) j.
Proof.
  intros Hn Hb. unfold features_tensor, new_last_axis, new_last_axis_at.
  cbn [get length Nat.sub take]. unfold unflatten_at.
  cbn [length take drop get]. rewrite concat_at_last_rank2. unfold feature_at.
  destruct (j <? L).
  - unfold fourier_features. cbn [get of_entries]. unfold fourier_at.
    by rewrite row_flat_tensor.
  - unfold canonical_features. cbn [get]. unfold transpose_at.
    cbn [length Nat.sub take nth app get of_entries].
    by rewrite row_flat_tensor.
Qed.

Lemma evaluated_at l s x N B M D P L n b p :
  shape (DL.weights_sample s) = [B; L + M; P] ->
  n < N -> b < B -> p < P ->
  get (evaluated l s x N B M D P L) [n; b; p]
  = trajectory_value l s L M (point_at x D [n; b]) b p.
Proof.
  intros Hw Hn Hb Hp. unfold evaluated. cbn [get].
  erewrite (ewise_at_batch radd _ _ N B P n b p) by done.
  unfold trajectory_value. f_equal.
  cbn [get]. unfold reduce_sum_m2_at. cbn [length Nat.sub take nth app].
  apply rsum_ext. intros j Hj. cbn [get]. unfold ewise_at.
  rewrite Hw.
  change (shape (features_tensor l s x N B M D L)) with [N; B; L + M; 1].
  unfold bidx. cbn [length Nat.sub drop zip_with].
  rewrite !bsel_lt by done. cbn [Nat.eqb].
  rewrite features_tensor_at by done. by rewrite bsel_lt.
Qed.

End EvaluationFacts.

(** * The invariant of a layer sampler *)

Section InStep.

Context {BE : Backend}.

Lemma consistent_layer l l' s M D P L :
  consistent l s M D P L -> layer_shapes l' M D P -> consistent l' s M D P L.
Proof. intros [] (? & ? & ?). by split. Qed.

Lemma consistent_shapes l s M D P L :
  consistent l s M D P L -> layer_shapes l M D P.
Proof. by intros []. Qed.

Lemma in_step_resample l s M D P L g :
  in_step l s M D P L -> in_step l (snd (fst (DL.resample l s g))) M D P L.
Proof.
  intros [Hc Hw].
  destruct (factorise M (entries (DL.Kmm (DL.weight_sampler s)))) as [Luu|e] eqn:Hchol.
  - rewrite (resample_returns l s M D P L g Luu Hc Hchol). cbn [fst snd].
    split; [by apply consistent_set_weights|done].
  - rewrite (resample_cholesky_failed l s M D P L g e Hc Hchol). by split.
Qed.

Lemma in_step_update l s M D P L g :
  in_step l s M D P L -> in_step l (snd (fst (DL.update l s g))) M D P L.
Proof.
  intros [Hc Hw]. unfold DL.update.
  destruct (consistent_shapes _ _ _ _ _ _ Hc) as (HZ & Hmu & Hsq).
  rewrite (prepare_ok l M D P HZ Hmu Hsq).
  apply in_step_resample. split; [by apply consistent_fresh_closure|done].
Qed.

Lemma in_step_call l s M D P L x g :
  in_step l s M D P L -> in_step l (snd (fst (DL.call l s x g))) M D P L.
Proof.
  intros Hin. destruct (DL.initialized s) eqn:Hi.
  - by rewrite call_ready by done.
  - destruct Hin as [Hc Hw]. unfold DL.call. rewrite Hi. unfold DL.initialize.
    destruct (dim_from_end 1 x) as [B|e]; [|by split].
    pose proof (consistent_set_batch_size _ _ _ _ _ _ B Hc) as HcB.
    destruct (factorise M (entries (DL.Kmm (DL.weight_sampler s)))) as [Luu|e] eqn:Hchol.
    + rewrite (resample_returns l _ M D P L g Luu HcB Hchol). cbn [fst snd].
      split; [|done].
      by apply consistent_set_initialized, consistent_set_weights.
    + rewrite (resample_cholesky_failed l _ M D P L g e HcB Hchol). cbn [fst snd].
      split; [done|]. cbn. by rewrite Hi.
Qed.

Lemma in_step_operation l s M D P L o g :
  in_step l s M D P L -> layer_shapes (layer_of o) M D P ->
  in_step (layer_of o) (fst (apply_operation (s, g) o)) M D P L.
Proof.
  intros [Hc Hw] Hs.
  assert (Hin : in_step (layer_of o) s M D P L).
  { split; [by apply (consistent_layer l)|done]. }
  destruct o as [l' x|l'|l']; unfold apply_operation; cbn [fst snd layer_of] in *.
  - pose proof (in_step_call l' s M D P L x g Hin) as H.
    by destruct (DL.call l' s x g) as [[r s'] g'].
  - pose proof (in_step_resample l' s M D P L g Hin) as H.
    by destruct (DL.resample l' s g) as [[r s'] g'].
  - pose proof (in_step_update l' s M D P L g Hin) as H.
    by destruct (DL.update l' s g) as [[r s'] g'].
Qed.

Lemma in_step_run ops : forall l s M D P L g,
  in_step l s M D P L ->
  Forall (fun o => layer_shapes (layer_of o) M D P) ops ->
  forall l', layer_shapes l' M D P -> in_step l' (fst (run ops (s, g))) M D P L.
Proof.
  induction ops as [|o ops IH]; intros l s M D P L g Hin Hall l' Hl'.
  - destruct Hin as [Hc Hw]. split; [by apply (consistent_layer l)|done].
  - apply Forall_cons in Hall as [Ho Hall].
    change (run (o :: ops) (s, g)) with (run ops (apply_operation (s, g) o)).
    pose proof (in_step_operation l s M D P L o g Hin Ho) as H1.
    destruct (apply_operation (s, g) o) as [s1 g1]. by apply (IH (layer_of o)).
Qed.

(** An initialized sampler evaluates an input of its batch size. *)
Lemma call_evaluated l s x g N M D P L :
  consistent l s M D P L ->
  DL.initialized s = true ->
  shape (DL.weights_sample s) = [DL.batch_size s; L + M; P] ->
  mean_dim (mean_function l) = P ->
  shape x = [N; DL.batch_size s; D] ->
  DL.call l s x g = (Ok (evaluated l s x N (DL.batch_size s) M D P L), s, g).
Proof.
  intros Hc Hi Hw Hm Hx. rewrite call_ready by done.
  unfold DL.assert_batch_size, dim_from_end. rewrite Hx.
  cbn [reverse rev_append lookup list_lookup mbind result_bind].
  rewrite Nat.eqb_refl.
  by rewrite (evaluate_ok l s x N _ M D P L Hc Hw Hm Hx).
Qed.

End InStep.

(** * Finite sums, continued *)

Section MoreSums.

Context {BE : Backend} {BL : BackendLaws BE}.

Add Ring scalar_ring_more : scalar_ring.

Lemma rsum_split n m f :
  rsum (n + m) f = radd (rsum n f) (rsum m (fun i => f (n + i))).
Proof.
  induction m as [|m IH].
  - rewrite Nat.add_0_r. cbn. ring.
  - rewrite Nat.add_succ_r. cbn [rsum]. rewrite IH. ring.
Qed.

Lemma rsum_sub n f g :
  rsum n (fun k => rsub (f k) (g k)) = rsub (rsum n f) (rsum n g).
Proof. induction n as [|n IH]; cbn; [|rewrite IH]; ring. Qed.

Lemma rsum_pick m i c (f : nat -> R) :
  i < m ->
  rsum m (fun j => rmul (if i =? j then c else r0) (f j)) = rmul c (f i).
Proof.
  induction m as [|m IH]; [lia|]. intros Hi. cbn [rsum].
  destruct (Nat.eqb_spec i m) as [->|Hne].
  - rewrite (rsum_ext m _ (fun _ => r0)).
    + rewrite rsum_zero. ring.
    + intros k Hk. destruct (Nat.eqb_spec m k); [lia|ring].
  - rewrite IH by lia. ring.
Qed.

(** The system [Kmm v = u - Phi(Z) prior] that the weights drawn by a weight
    sampler prepared from the layer solve. *)
Lemma matheron_system l s M D P L B (Luu : nat -> nat -> R) prior noise x i c :
  consistent l s M D P L ->
  DL._prepare_weight_sampler l = Ok (DL.weight_sampler s) ->
  chol M (entries (DL.Kmm (DL.weight_sampler s))) = Some Luu ->
  x < B -> i < M -> c < P ->
  rsum M (fun j =>
    rmul (gram_at l i j)
         (get (v_tensor Luu (diff_tensor l s Luu prior noise B M P L) B M P) [x; j; c]))
  = rsub (inducing_u (whiten l) Luu l noise M x i c)
         (prior_at_Z l (DL.feature_functions s) prior L x i c).
Proof.
  intros Hc Hprep Hchol Hx Hi Hc'.
  destruct (prepare_inv l _ Hprep) as (M' & D' & P' & HZ & _ & _ & Hcl).
  rewrite (shape_Z _ _ _ _ _ _ Hc) in HZ. injection HZ as <- <-.
  assert (Hw : DL.captured_whiten (DL.weight_sampler s) = whiten l) by by rewrite Hcl.
  rewrite <- Hw.
  rewrite <- (diff_tensor_at l s Luu prior noise B M P L x i c
                (shape_q_mu _ _ _ _ _ _ Hc) Hx Hi Hc').
  set (diff := diff_tensor l s Luu prior noise B M P L).
  rewrite <- (cholesky_solve M (entries (DL.Kmm (DL.weight_sampler s))) Luu
                (fun k => get diff [x; k; c]) i Hchol Hi).
  apply rsum_ext. intros j Hj. unfold entries. rewrite Hcl. cbn [DL.Kmm].
  by rewrite gram_tensor_at.
Qed.

(** The sampled function at an inducing point, for weights drawn by a weight
    sampler prepared from the layer, when the kernel is symmetric. *)
Lemma trajectory_value_at_inducing_point l c s M D P L B g
    (Luu : nat -> nat -> R) b i p :
  consistent l c M D P L ->
  DL._prepare_weight_sampler l = Ok (DL.weight_sampler c) ->
  chol M (entries (DL.Kmm (DL.weight_sampler c))) = Some Luu ->
  (forall a a', kfun (base_kernel l) a a' = kfun (base_kernel l) a' a) ->
  DL.feature_functions s = DL.feature_functions c ->
  DL.weights_sample s = drawn_weights l c Luu M P L B g ->
  b < B -> i < M -> p < P ->
  let prior := fst (random_normal [B; L; P] g) in
  let noise := fst (random_normal [B; P; M; 1] (g + prod_dims [B; L; P])) in
  let v := v_tensor Luu (diff_tensor l c Luu prior noise B M P L) B M P in
  trajectory_value l s L M (row (inducing_points l) i) b p
  = value_at_inducing_point l Luu noise v M L b i p.
Proof.
  intros Hc Hprep Hchol Hsym Hff Hws Hb Hi Hp prior noise v.
  unfold trajectory_value, value_at_inducing_point. f_equal.
  rewrite rsum_split, Hws, Hff. unfold drawn_weights. fold prior noise v.
  cbn [get].
  rewrite (rsum_ext L _ (fun j =>
             rmul (fourier_at l (DL.feature_functions c) (inducing_points l) i j)
                  (get prior [b; j; p]))).
  2:{ intros j Hj. rewrite concat_at_axis1. unfold feature_at.
      by rewrite (proj2 (Nat.ltb_lt j L) Hj). }
  fold (prior_at_Z l (DL.feature_functions c) prior L b i p).
  rewrite (rsum_ext M _ (fun j =>
             rsub (rmul (gram_at l i j) (get v [b; j; p]))
                  (rmul (if i =? j then JITTER else r0) (get v [b; j; p])))).
  2:{ intros j Hj. rewrite concat_at_axis1. unfold feature_at.
      rewrite (proj2 (Nat.ltb_ge (L + j) L)) by lia.
      replace (L + j - L) with j by lia. unfold gram_at.
      rewrite (Hsym (row (inducing_points l) j)). ring. }
  rewrite rsum_sub, rsum_pick by done.
  unfold v at 1.
  rewrite (matheron_system l c M D P L B Luu prior noise b i p Hc Hprep Hchol Hb Hi Hp).
  fold v. ring.
Qed.

End MoreSums.

Lemma dot_comm x y : IntegerBackend.dot x y = IntegerBackend.dot y x.
Proof.
  unfold IntegerBackend.dot. revert y.
  induction x as [|a x IH]; intros [|c y]; cbn; [done..|].
  rewrite IH. lia.
Qed.

Lemma integer_kernel_symmetric (k : Z) (a a' : list Z) :
  @kfun IntegerBackend.backend k a a' = @kfun IntegerBackend.backend k a' a.
Proof. cbn. by rewrite dot_comm. Qed.

Lemma called_sampler_consistent :
  consistent (IntegerBackend.gp_layer 0) called_sampler 3 1 1 2.
Proof. by split. Qed.

(** * Evaluation of a layer sampler *)

(** X1. An initialized layer sampler, holding weights of shape
    [[B, L + M, P]] for its batch size [B], of a layer whose mean function
    has [P] outputs (as many as [q_mu] has columns), evaluates an input of
    shape [[N, B, D]] to a tensor of shape [[N, B, P]] without changing its
    state or drawing random numbers: at [[n, b, p]] the value is the sum over
    the [L] Fourier and the [M] canonical features at the point
    [x[n, b, :]], each times the cached weight [[b, j, p]], plus the mean
    function of the layer at that point. *)
Theorem layer_call_weighted_feature_sum {BE : Backend}
    (l : GPLayer) (s : DL.t) (x : tensor) (g N B M D P L : nat) :
  consistent l s M D P L ->
  DL.initialized s = true ->
  DL.batch_size s = B ->
  shape (DL.weights_sample s) = [B; L + M; P] ->
  mean_dim (mean_function l) = P ->
  shape x = [N; B; D] ->
  exists y,
    DL.call l s x g = (Ok y, s, g)
    /\ shape y = [N; B; P]
    /\ forall n b p, n < N -> b < B -> p < P ->
         get y [n; b; p] = trajectory_value l s L M (point_at x D [n; b]) b p.
Proof.
  intros Hc Hi <- Hw Hm Hx. exists (evaluated l s x N (DL.batch_size s) M D P L).
  split; [by apply call_evaluated|]. split; [done|].
  intros n b p Hn Hb Hp. by apply evaluated_at.
Qed.

(** The theorem at the integer sampler after its first call. *)
Lemma layer_call_weighted_feature_sum_witness :
  let l := IntegerBackend.gp_layer 0 in
  exists y,
    DL.call l called_sampler IntegerBackend.x_3_1_1 9 = (Ok y, called_sampler, 9)
    /\ shape y = [3; 1; 1]
    /\ forall n b p, n < 3 -> b < 1 -> p < 1 ->
         get y [n; b; p]
         = trajectory_value l called_sampler 2 3
             (point_at IntegerBackend.x_3_1_1 1 [n; b]) b p.
Proof.
  intros l.
  exact (layer_call_weighted_feature_sum l called_sampler IntegerBackend.x_3_1_1
           9 3 1 3 1 1 2 called_sampler_consistent eq_refl eq_refl eq_refl
           eq_refl eq_refl).
Defined.

(** * A constructed sampler stays in step with its layer *)

(** X2. From construction on, whatever calls, resamples and updates are
    applied to a layer sampler, on whatever states of the layer that keep the
    shapes of its parameters, and whether they return or raise: the sampler
    stays consistent with the layer, and once it is initialized it holds
    weights of shape [[B, L + M, P]] for its batch size [B].  So, on a state
    of the layer with those shapes whose mean function has [P] outputs, an
    initialized sampler never fails on an input of shape [[N, B, D]]: the
    call returns a tensor of shape [[N, B, P]] and changes nothing. *)
Theorem sampler_stays_in_step {BE : Backend}
    (l : GPLayer) (n g : nat) (s : DL.t) (g0 M D P : nat)
    (ops : list operation) (g1 : nat) :
  DL.init (IsGPLayer l) n g = (Ok s, g0) ->
  layer_shapes l M D P ->
  Forall (fun o => layer_shapes (layer_of o) M D P) ops ->
  let st := run ops (s, g1) in
  in_step l (fst st) M D P n
  /\ forall l' x N,
       layer_shapes l' M D P ->
       mean_dim (mean_function l') = P ->
       DL.initialized (fst st) = true ->
       shape x = [N; DL.batch_size (fst st); D] ->
       exists y,
         DL.call l' (fst st) x (snd st) = (Ok y, fst st, snd st)
         /\ shape y = [N; DL.batch_size (fst st); P].
Proof.
  intros Hinit Hl Hops st.
  destruct (init_Ok l n g s g0 Hinit) as (Hi & _ & _ & _ & M' & D' & P' & Hc).
  assert (Hc' : consistent l s M D P n).
  { destruct Hl as (HZ & Hmu & Hsq). destruct Hc as [HZ' Hmu' ? ? ? ? ? ?].
    rewrite HZ in HZ'. rewrite Hmu in Hmu'. injection HZ' as <- <-.
    injection Hmu' as <-. by split. }
  assert (Hin : in_step l s M D P n) by (split; [done|by rewrite Hi]).
  split; [by apply (in_step_run ops l)|].
  intros l' x N Hl' Hm Hready Hx.
  destruct (in_step_run ops l s M D P n g1 Hin Hops l' Hl') as [Hc1 Hw1].
  fold st in Hc1, Hw1.
  exists (evaluated l' (fst st) x N (DL.batch_size (fst st)) M D P n).
  split; [|done]. apply call_evaluated; auto.
Qed.

(** The integer sampler from its construction: a first call, a resample,
    and an update after the kernel variance has become 3 (which raises, the
    Gram matrix then having no Cholesky factor in the integer backend); the
    sampler still evaluates. *)
Lemma sampler_stays_in_step_witness :
  let l := IntegerBackend.gp_layer 0 in
  let refitted := IntegerBackend.gp_layer 3 in
  let st := run [Call l IntegerBackend.x_3_1_1; Resample l; Update refitted]
                (IntegerBackend.sampler, 4) in
  is_ok (fst (fst (DL.update refitted (fst (run [Call l IntegerBackend.x_3_1_1; Resample l]
                                                (IntegerBackend.sampler, 4))) 14)))
  = false
  /\ in_step l (fst st) 3 1 1 2
  /\ exists y,
       DL.call l (fst st) IntegerBackend.x_3_1_1 (snd st) = (Ok y, fst st, snd st)
       /\ shape y = [3; 1; 1].
Proof.
  intros l refitted st. split; [by vm_compute|].
  assert (Hall : Forall (fun o => layer_shapes (layer_of o) 3 1 1)
                   [Call l IntegerBackend.x_3_1_1; Resample l; Update refitted])
    by (repeat constructor).
  destruct (sampler_stays_in_step l 2 0 IntegerBackend.sampler 4 3 1 1 _ 4
              IntegerBackendFacts.init_sampler
              (conj eq_refl (conj eq_refl eq_refl)) Hall) as [Hin Hcall].
  split; [exact Hin|].
  assert (Hi : DL.initialized (fst st) = true) by (vm_compute; reflexivity).
  assert (Hb : DL.batch_size (fst st) = 1) by (vm_compute; reflexivity).
  destruct (Hcall l IntegerBackend.x_3_1_1 3 (conj eq_refl (conj eq_refl eq_refl))
              eq_refl Hi) as (y & Hy & Hs).
  - fold st. by rewrite Hb.
  - exists y. fold st in Hy, Hs. rewrite Hb in Hs. by split.
Defined.

(** * The sampled function passes through the inducing values *)

(** X3. The first call of a layer sampler whose weight sampler was prepared
    from the current state of its layer, a layer whose mean function has [P]
    outputs, on an input of shape [[N, B, D]], draws the weights and returns
    a tensor of shape [[N, B, P]].  When the kernel
    is symmetric, the value at every input row that is the inducing point
    [Z[i]] is [u[b, i, p] - JITTER * v[b, i, p] + mean(Z[i])[p]]: the draw
    [u] of the inducing variable, up to the jitter term, [v] being the
    solution of [Kmm v = u - Phi(Z) prior] cached as the last [M] weights.
    The Cholesky factorisation is assumed to succeed. *)
Theorem first_call_passes_through_inducing_values
    {BE : Backend} {BL : BackendLaws BE}
    (l : GPLayer) (s : DL.t) (M D P L g : nat) (Luu : nat -> nat -> R)
    (x : tensor) (N B : nat) :
  consistent l s M D P L ->
  DL._prepare_weight_sampler l = Ok (DL.weight_sampler s) ->
  chol M (entries (DL.Kmm (DL.weight_sampler s))) = Some Luu ->
  (forall a a', kfun (base_kernel l) a a' = kfun (base_kernel l) a' a) ->
  DL.initialized s = false ->
  mean_dim (mean_function l) = P ->
  shape x = [N; B; D] ->
  let prior := fst (random_normal [B; L; P] g) in
  let noise := fst (random_normal [B; P; M; 1] (g + prod_dims [B; L; P])) in
  let v := v_tensor Luu (diff_tensor l s Luu prior noise B M P L) B M P in
  exists y s',
    DL.call l s x g = (Ok y, s', after_draw M P L B g)
    /\ shape y = [N; B; P]
    /\ (forall b i p, get (DL.weights_sample s') [b; L + i; p] = get v [b; i; p])
    /\ forall n b p i, n < N -> b < B -> p < P -> i < M ->
         (forall k, k < D -> get x [n; b; k] = get (inducing_points l) [i; k]) ->
         get y [n; b; p] = value_at_inducing_point l Luu noise v M L b i p.
Proof.
  intros Hc Hprep Hchol Hsym Hi Hm Hx prior noise v.
  set (c := DL.set_batch_size B s).
  assert (HcB : consistent l c M D P L) by by apply consistent_set_batch_size.
  set (s' := DL.set_initialized true
               (DL.set_weights_sample (drawn_weights l c Luu M P L B g) c)).
  assert (Hcs' : consistent l s' M D P L)
    by by apply consistent_set_initialized, consistent_set_weights.
  assert (Hcall : DL.call l s x g
                  = (Ok (evaluated l s' x N B M D P L), s', after_draw M P L B g)).
  { unfold DL.call, DL.initialize, dim_from_end. rewrite Hi, Hx.
    cbn [reverse rev_append lookup list_lookup]. fold c.
    rewrite (resample_ok l c M D P L g Luu HcB Hchol).
    change (DL.batch_size c) with B. fold s'.
    unfold DL.assert_batch_size, dim_from_end. rewrite Hx.
    cbn [reverse rev_append lookup list_lookup mbind result_bind].
    change (DL.batch_size s') with B. rewrite Nat.eqb_refl.
    by rewrite (evaluate_ok l s' x N B M D P L Hcs' eq_refl Hm Hx). }
  exists (evaluated l s' x N B M D P L), s'.
  split; [exact Hcall|]. split; [done|]. split.
  { intros b i p. cbn [s' DL.weights_sample DL.set_initialized DL.set_weights_sample
                       drawn_weights get].
    rewrite concat_at_axis1. rewrite (proj2 (Nat.ltb_ge (L + i) L)) by lia.
    by replace (L + i - L) with i by lia. }
  intros n b p i Hn Hb Hp Hi' Hrow.
  rewrite (evaluated_at l s' x N B M D P L n b p eq_refl Hn Hb Hp).
  assert (Hpt : point_at x D [n; b] = row (inducing_points l) i).
  { unfold point_at, row. rewrite (shape_Z _ _ _ _ _ _ Hc).
    apply map_ext_in. intros k Hk. apply in_seq in Hk. apply Hrow. lia. }
  rewrite Hpt.
  apply (trajectory_value_at_inducing_point l c s' M D P L B g Luu b i p); done.
Qed.

(** The first call of the integer sampler, on its three inducing points. *)
Lemma first_call_passes_through_inducing_values_witness :
  let l := IntegerBackend.gp_layer 0 in
  let prior := fst (random_normal [1; 2; 1] 4) in
  let noise := fst (random_normal [1; 1; 3; 1] 6) in
  let v := v_tensor IntegerBackend.delta
             (diff_tensor l IntegerBackend.sampler IntegerBackend.delta prior noise
                1 3 1 2) 1 3 1 in
  exists y s',
    DL.call l IntegerBackend.sampler IntegerBackend.x_3_1_1 4 = (Ok y, s', 9)
    /\ shape y = [3; 1; 1]
    /\ forall i, i < 3 ->
         get y [i; 0; 0]
         = value_at_inducing_point l IntegerBackend.delta noise v 3 2 0 i 0.
Proof.
  intros l prior noise v.
  destruct (first_call_passes_through_inducing_values l IntegerBackend.sampler
              3 1 1 2 4 IntegerBackend.delta IntegerBackend.x_3_1_1 3 1
              IntegerBackendFacts.sampler_consistent eq_refl eq_refl
              (integer_kernel_symmetric 0%Z) eq_refl eq_refl eq_refl)
    as (y & s' & Hcall & Hs & _ & Hv).
  exists y, s'. split; [exact Hcall|]. split; [exact Hs|].
  intros i Hi. apply (Hv i 0 0 i); [lia..|].
  intros k Hk. assert (k = 0) as -> by lia.
  destruct i as [|[|[|i]]]; [reflexivity..|lia].
Defined.

(** * An update re-conditions the sampled function *)

(** X4. After the layer has been retrained (with parameters of the same
    shapes, and a mean function of [P] outputs, as many as [q_mu] has
    columns), [update] on an initialized sampler makes the sampled function
    pass through a fresh draw of the inducing values of the retrained layer:
    it returns, and a call on an input of shape [[N, B, D]] then returns a
    tensor whose value at every input row that is the inducing point [Z[i]]
    is [u[b, i, p] - JITTER * v[b, i, p] + mean(Z[i])[p]], for the draw [u]
    from the retrained [q_mu], [q_sqrt] and the solution [v] with the Gram
    matrix of the retrained kernel.  The kernel is assumed symmetric and the
    Cholesky factorisation of the new Gram matrix to succeed. *)
Theorem update_reconditions_on_retrained_layer
    {BE : Backend} {BL : BackendLaws BE}
    (l : GPLayer) (s : DL.t) (M D P L g : nat) (Lfresh : nat -> nat -> R)
    (x : tensor) (N : nat) :
  consistent l s M D P L ->
  chol M (entries (gram_tensor l M)) = Some Lfresh ->
  (forall a a', kfun (base_kernel l) a a' = kfun (base_kernel l) a' a) ->
  DL.initialized s = true ->
  mean_dim (mean_function l) = P ->
  shape x = [N; DL.batch_size s; D] ->
  let B := DL.batch_size s in
  let fresh := DL.set_weight_sampler
                 (DL.mkClosure (gram_tensor l M) (whiten l) M P) s in
  let prior := fst (random_normal [B; L; P] g) in
  let noise := fst (random_normal [B; P; M; 1] (g + prod_dims [B; L; P])) in
  let v := v_tensor Lfresh (diff_tensor l fresh Lfresh prior noise B M P L) B M P in
  exists s' y,
    DL.update l s g = (Ok (), s', after_draw M P L B g)
    /\ DL.call l s' x (after_draw M P L B g) = (Ok y, s', after_draw M P L B g)
    /\ shape y = [N; B; P]
    /\ forall n b p i, n < N -> b < B -> p < P -> i < M ->
         (forall k, k < D -> get x [n; b; k] = get (inducing_points l) [i; k]) ->
         get y [n; b; p] = value_at_inducing_point l Lfresh noise v M L b i p.
Proof.
  intros Hc Hchol Hsym Hi Hm Hx B fresh prior noise v.
  pose proof (update_ok l s M D P L g Lfresh Hc Hchol) as Hu. cbv zeta in Hu.
  fold fresh B in Hu.
  set (s' := DL.set_weights_sample (drawn_weights l fresh Lfresh M P L B g) fresh) in *.
  assert (Hcf : consistent l fresh M D P L) by by apply consistent_fresh_closure.
  assert (Hcs' : consistent l s' M D P L) by by apply consistent_set_weights.
  exists s', (evaluated l s' x N B M D P L).
  split; [exact Hu|]. split.
  { apply (call_evaluated l s' x _ N M D P L Hcs'); done. }
  split; [done|].
  intros n b p i Hn Hb Hp Hi' Hrow.
  rewrite (evaluated_at l s' x N B M D P L n b p eq_refl Hn Hb Hp).
  assert (Hpt : point_at x D [n; b] = row (inducing_points l) i).
  { unfold point_at, row. rewrite (shape_Z _ _ _ _ _ _ Hc).
    apply map_ext_in. intros k Hk. apply in_seq in Hk. apply Hrow. lia. }
  rewrite Hpt.
  apply (trajectory_value_at_inducing_point l fresh s' M D P L B g Lfresh b i p);
    try done.
  cbn. apply (prepare_ok l M D P); by destruct Hc.
Qed.

(** The integer sampler after its first call, and its layer retrained: new
    inducing points, a new [q_mu] and a new [q_sqrt].  The update returns,
    and a call on the three new inducing points returns the new inducing
    values. *)
Lemma update_reconditions_on_retrained_layer_witness :
  let l := retrained_layer in
  let x := IntegerBackend.tensor3 [[[-2]]; [[0]]; [[3]]]%Z in
  let fresh := DL.set_weight_sampler (DL.mkClosure (gram_tensor l 3) false 3 1)
                                     called_sampler in
  let prior := fst (random_normal [1; 2; 1] 9) in
  let noise := fst (random_normal [1; 1; 3; 1] 11) in
  let v := v_tensor IntegerBackend.delta
             (diff_tensor l fresh IntegerBackend.delta prior noise 1 3 1 2) 1 3 1 in
  exists s' y,
    DL.update l called_sampler 9 = (Ok (), s', 14)
    /\ DL.call l s' x 14 = (Ok y, s', 14)
    /\ shape y = [3; 1; 1]
    /\ forall i, i < 3 ->
         get y [i; 0; 0]
         = value_at_inducing_point l IntegerBackend.delta noise v 3 2 0 i 0.
Proof.
  intros l x fresh prior noise v.
  assert (Hc : consistent l called_sampler 3 1 1 2) by by split.
  destruct (update_reconditions_on_retrained_layer l called_sampler 3 1 1 2 9
              IntegerBackend.delta x 3
              Hc eq_refl (integer_kernel_symmetric 0%Z)
              eq_refl eq_refl eq_refl)
    as (s' & y & Hu & Hcall & Hs & Hv).
  exists s', y. do 3 (split; [assumption|]).
  intros i Hi. apply (Hv i 0 0 i); [lia | exact (le_n 1) | lia | lia |].
  intros k Hk. assert (k = 0) as -> by lia.
  destruct i as [|[|[|i]]]; [reflexivity..|lia].
Defined.

Section TrajectoryFacts.

Context {BE : Backend}.

Lemma call_layers_chained ls : forall ss B D P N x g,
  chained ls ss B D P -> shape x = [N; B; D] ->
  exists z, Traj.call_layers ls ss x g = (Ok z, ss, g) /\ shape z = [N; B; P].
Proof.
  induction ls as [|l ls IH]; intros ss B D P N x g Hch Hx.
  - destruct ss; [|done]. cbn in Hch. subst. by exists x.
  - destruct ss as [|s ss]; [done|]. cbn in Hch.
    destruct Hch as (P' & (M & L & Hc & Hi & Hb & Hw & Hm) & Hch). subst B.
    cbn [Traj.call_layers].
    rewrite (call_evaluated l s x g N M D P' L Hc Hi Hw Hm Hx).
    destruct (IH ss (DL.batch_size s) P' P N
                (evaluated l s x N (DL.batch_size s) M D P' L) g Hch eq_refl)
      as (z & Hz & Hs).
    rewrite Hz. by exists z.
Qed.

Lemma each_same_setup f :
  (forall l s g, same_setup s (snd (fst (f l s g)))) ->
  forall ls ss g, Forall2 same_setup ss (snd (fst (Traj.each f ls ss g))).
Proof.
  intros Hf. induction ls as [|l ls IH]; intros ss g.
  - assert (Traj.each f [] ss g = (Ok (), ss, g)) as -> by by destruct ss.
    cbn [fst snd]. clear. induction ss; constructor; done.
  - destruct ss as [|s ss]; [constructor|]. cbn [Traj.each].
    pose proof (Hf l s g) as Hs.
    destruct (f l s g) as [[[[]|e] s'] g1]; cbn [fst snd] in Hs.
    + specialize (IH ss g1).
      destruct (Traj.each f ls ss g1) as [[r ss''] g2]. cbn [fst snd] in *.
      by constructor.
    + cbn [fst snd]. constructor; [done|].
      clear. induction ss; constructor; done.
Qed.

End TrajectoryFacts.

(** * A trajectory maps batches of points to batches of values *)

(** X5. A trajectory whose layer samplers are initialized for the batch
    size [B] and fit together (the [P'] outputs of one layer are the inputs
    of the next, each mean function having as many outputs as its layer)
    evaluates an input of shape [[N, B, D]]: the layers return a tensor of
    shape [[N, B, P]], of which the trajectory returns the first output
    channel, of shape [[N, B]]; no sampler changes and no random number is
    drawn. *)
Theorem trajectory_maps_batches {BE : Backend}
    (ls : list GPLayer) (ss : list DL.t) (B D P N : nat) (x : tensor) (g : nat) :
  chained ls ss B D P ->
  0 < P ->
  shape x = [N; B; D] ->
  exists z y,
    Traj.call_layers ls ss x g = (Ok z, ss, g)
    /\ shape z = [N; B; P]
    /\ Traj.call ls ss x g = (Ok y, ss, g)
    /\ shape y = [N; B]
    /\ forall n b, get y [n; b] = get z [n; b; 0].
Proof.
  intros Hch HP Hx.
  destruct (call_layers_chained ls ss B D P N x g Hch Hx) as (z & Hz & Hs).
  exists z, (mkT [N; B] (last_axis_0_at z)).
  split; [done|]. split; [done|]. split; [|done].
  unfold Traj.call. rewrite Hz. cbn [mbind result_bind].
  unfold last_axis_0, split_last. rewrite Hs. cbn [reverse rev_append].
  by rewrite (proj2 (Nat.ltb_lt 0 P) HP).
Qed.

(** The two-layer integer trajectory after its first call. *)
Lemma trajectory_maps_batches_witness :
  let ls := [IntegerBackend.gp_layer 0; IntegerBackend.gp_layer 0] in
  exists y,
    Traj.call ls called_samplers IntegerBackend.x_3_1_1 14
    = (Ok y, called_samplers, 14)
    /\ shape y = [3; 1].
Proof.
  intros ls.
  assert (Hch : chained ls called_samplers 1 1 1).
  { exists 1. split; [exists 3, 2; by repeat split|].
    exists 1. split; [exists 3, 2; by repeat split|]. reflexivity. }
  destruct (trajectory_maps_batches ls called_samplers 1 1 1 3
              IntegerBackend.x_3_1_1 14 Hch (le_n 1) eq_refl)
    as (z & y & _ & _ & Hy & Hs & _).
  by exists y.
Defined.

(** * Updating and resampling a trajectory keeps the set-up of its layers *)

(** X6. [update] and [resample] of a trajectory, whether they return or
    raise, keep the number of layer samplers and, for every layer sampler,
    its random features, its feature count, its initialization flag and its
    batch size; [resample] keeps the weight sampler (and so the Gram matrix
    it holds) of every layer too. *)
Theorem trajectory_methods_keep_setup {BE : Backend}
    (ls : list GPLayer) (ss : list DL.t) (g : nat) :
  Forall2 same_setup ss (snd (fst (Traj.update ls ss g)))
  /\ Forall2 (fun s s' => same_setup s s'
                          /\ DL.weight_sampler s' = DL.weight_sampler s)
             ss (snd (fst (Traj.resample ls ss g))).
Proof.
  split.
  - apply each_same_setup. intros l s g0.
    destruct (DL.update l s g0) as [[r s'] g1] eqn:Hu.
    destruct (update_frame _ _ _ _ _ _ Hu) as (? & ? & ? & ?). by repeat split.
  - revert ss g. induction ls as [|l ls IH]; intros ss g.
    + assert (Traj.resample [] ss g = (Ok (), ss, g)) as -> by by destruct ss.
      cbn [fst snd]. clear. induction ss; constructor; done.
    + destruct ss as [|s ss]; [constructor|].
      unfold Traj.resample. cbn [Traj.each].
      destruct (DL.resample l s g) as [[r s'] g1] eqn:Hr.
      destruct (resample_frame _ _ _ _ _ _ Hr) as (? & ? & ? & ? & ?).
      destruct r as [[]|e].
      * specialize (IH ss g1). unfold Traj.resample in IH.
        destruct (Traj.each DL.resample ls ss g1) as [[r ss''] g2].
        cbn [fst snd] in *. by constructor.
      * cbn [fst snd]. constructor; [done|].
        clear. induction ss; constructor; done.
Qed.

(** * What construction establishes *)

Section ConstructionFacts.

Context {BE : Backend}.

Lemma init_as_constructed l n g s g' :
  DL.init (IsGPLayer l) n g = (Ok s, g') -> as_constructed n l s.
Proof.
  intros H. destruct (init_Ok l n g s g' H) as (Hi & Hb & _ & Hp & M & D & P & Hc).
  repeat split; try done.
  - apply (features_L _ _ _ _ _ _ Hc).
  - by exists M, D, P.
Qed.

Lemma init_refused l n g e :
  rff_refusal (base_kernel l) = Some e -> DL.init (IsGPLayer l) n g = (Err e, g).
Proof. intros He. unfold DL.init, FF.init. by rewrite He. Qed.

Lemma init_shapes_ok l n g M D P :
  rff_refusal (base_kernel l) = None ->
  layer_shapes l M D P ->
  exists s,
    DL.init (IsGPLayer l) n g = (Ok s, g + n + n * D)
    /\ shape (FF.b (DL.feature_functions s)) = [1; n]
    /\ shape (FF.W (DL.feature_functions s)) = [n; D]
    /\ shape (DL.weights_sample s) = [0; 0; 0].
Proof.
  intros Hk (HZ & Hmu & Hsq). unfold DL.init, FF.init, first_row, dim_from_end.
  rewrite Hk, HZ. cbn [mbind result_bind shape reverse rev_append lookup list_lookup].
  unfold FF.sample_bias, FF.sample_weights, draw.
  rewrite (prepare_ok l M D P HZ Hmu Hsq).
  assert (Hg : g + prod_dims [1; n] + prod_dims [n; D] = g + n + n * D)
    by (cbn; lia).
  destruct has_bias_init;
    (erewrite (FF_call_ok l _ _ (1 `min` M) M D n) by done);
    cbn [mbind result_bind]; rewrite Hg; by eexists.
Qed.

Lemma build_layers_Ok ls : forall n g ss g',
  Manager.build_layers ls n g = (Ok ss, g') ->
  ls = map IsGPLayer (omap Manager.gp_of ls)
  /\ Forall2 (as_constructed n) (omap Manager.gp_of ls) ss.
Proof.
  induction ls as [|lay ls IH]; intros n g ss g'; cbn [Manager.build_layers].
  - intros [= <- <-]. by split; [|constructor].
  - destruct (DL.init lay n g) as [[s|e] g1] eqn:Hs; [|discriminate].
    destruct (Manager.build_layers ls n g1) as [[ss'|e] g2] eqn:Hb; [|discriminate].
    cbn [mbind result_bind]. intros [= <- <-].
    destruct (IH _ _ _ _ Hb) as [Hls Hall].
    destruct lay as [l| |]; [|by rewrite init_unsupported in Hs..].
    cbn [omap Manager.gp_of option_bind map list_omap]. split; [by f_equal|].
    constructor; [by apply (init_as_constructed l n g s g1)|done].
Qed.

End ConstructionFacts.

(** X7. A layer sampler can be constructed for a GP layer exactly when the
    constructor of GPflux's random Fourier features accepts the kernel of the
    layer and the layer's inducing points, [q_mu] and [q_sqrt] have the
    shapes [[M, D]], [[M, P]] and [[P, M, M]] for some [M], [D] and [P].
    When GPflux refuses the kernel, construction raises the exception of
    GPflux and draws nothing.  Otherwise, with those shapes, construction
    draws the phases [b], of shape [[1, n]], and the frequencies [W], of shape
    [[n, D]], for the [n] features, moving the generator by [n + n * D], and
    leaves the sampler not initialized, with batch size 0, empty weights and
    a weight sampler prepared from the layer. *)
Theorem layer_sampler_constructed_iff_shapes {BE : Backend}
    (l : GPLayer) (n g : nat) :
  (is_ok (fst (DL.init (IsGPLayer l) n g)) = true
   <-> rff_refusal (base_kernel l) = None /\ exists M D P, layer_shapes l M D P)
  /\ (forall e, rff_refusal (base_kernel l) = Some e ->
        DL.init (IsGPLayer l) n g = (Err e, g))
  /\ forall M D P,
       rff_refusal (base_kernel l) = None -> layer_shapes l M D P ->
       exists s,
         DL.init (IsGPLayer l) n g = (Ok s, g + n + n * D)
         /\ as_constructed n l s
         /\ shape (FF.b (DL.feature_functions s)) = [1; n]
         /\ shape (FF.W (DL.feature_functions s)) = [n; D]
         /\ shape (DL.weights_sample s) = [0; 0; 0].
Proof.
  split; [split|split].
  - destruct (rff_refusal (base_kernel l)) as [e|] eqn:Hk.
    { by rewrite (init_refused l n g e Hk). }
    destruct (DL.init (IsGPLayer l) n g) as [[s|e] g'] eqn:Hs; [|done]. intros _.
    destruct (init_Ok l n g s g' Hs) as (_ & _ & _ & _ & M & D & P & Hc).
    split; [done|]. exists M, D, P. by destruct Hc.
  - intros (Hk & M & D & P & Hl).
    destruct (init_shapes_ok l n g M D P Hk Hl) as (s & -> & _). done.
  - intros e He. by apply init_refused.
  - intros M D P Hk Hl.
    destruct (init_shapes_ok l n g M D P Hk Hl) as (s & Hs & Hb & HW & Hw).
    exists s. split; [done|]. split; [|done].
    by apply (init_as_constructed l n g s (g + n + n * D)).
Qed.

(** The theorem at the three-point integer layer, with two features. *)
Lemma layer_sampler_constructed_iff_shapes_witness :
  exists s,
    DL.init (IsGPLayer (IntegerBackend.gp_layer 0)) 2 0 = (Ok s, 4)
    /\ as_constructed 2 (IntegerBackend.gp_layer 0) s
    /\ shape (FF.W (DL.feature_functions s)) = [2; 1].
Proof.
  destruct (proj2 (proj2 (layer_sampler_constructed_iff_shapes
                            (IntegerBackend.gp_layer 0) 2 0)) 3 1 1 eq_refl
              (conj eq_refl (conj eq_refl eq_refl)))
    as (s & Hs & Hc & _ & HW & _).
  by exists s.
Defined.

(** X8. When the construction of the manager returns, the model is a
    [GPfluxPredictor] over a [DeepGP] all of whose layers are GP layers, the
    feature count is positive, and the manager holds one layer sampler per
    layer, in the order of the layers, each as its construction leaves it:
    not initialized, with batch size 0, with that feature count, consistent
    with its layer and with a weight sampler prepared from it.  No
    trajectory object has been handed out. *)
Theorem manager_construction_establishes {BE : Backend}
    (m : model) (num_features : Z) (g : nat) (self : Manager.t) (g' : nat) :
  Manager.init m num_features g = (Ok self, g') ->
  (0 < num_features)%Z
  /\ m = GPfluxPredictor (DeepGP (map IsGPLayer (Manager.gp_layers self)))
  /\ Manager.num_features self = num_features
  /\ Manager.generator self = g'
  /\ Manager.next_object self = 0
  /\ Forall2 (as_constructed (Z.to_nat num_features))
             (Manager.gp_layers self) (Manager.sampling_layers self).
Proof.
  unfold Manager.init. destruct m as [[ls|]|]; [|discriminate..].
  destruct (Z.ltb_spec 0 num_features) as [Hpos|]; [|discriminate].
  destruct (Manager.build_layers ls _ g) as [[ss|e] g1] eqn:Hb; [|discriminate].
  intros [= <- <-]. cbn.
  destruct (build_layers_Ok ls _ g ss g1 Hb) as [Hls Hall].
  split; [done|]. split; [by rewrite <- Hls|]. done.
Qed.

(** The manager of the one-layer integer model, with two features. *)
Lemma manager_construction_establishes_witness :
  let l := IntegerBackend.gp_layer 0 in
  let self := Manager.mk 2 [l] [IntegerBackend.sampler] 0 4 in
  Manager.init (GPfluxPredictor (DeepGP [IsGPLayer l])) 2 0 = (Ok self, 4)
  /\ Forall2 (as_constructed 2) [l] [IntegerBackend.sampler].
Proof.
  intros l self.
  assert (Hinit : Manager.init (GPfluxPredictor (DeepGP [IsGPLayer l])) 2 0
                  = (Ok self, 4)) by reflexivity.
  split; [exact Hinit|].
  exact (proj2 (proj2 (proj2 (proj2 (proj2
           (manager_construction_establishes _ 2 0 self 4 Hinit)))))).
Defined.

Lemma is_ok_returned_pair {A S} (d : A) (c : result A * S) :
  is_ok (fst c) = true -> c = (Ok (returned_or d (fst c)), snd c).
Proof. by destruct c as [[a|e] s]. Qed.

Section MoreModelUpdate.

Context {BE : Backend}.

Variable gp_sample : GPLayer -> tensor -> nat -> list nat -> R.

Variable lv_sample : LatentVariableLayer -> tensor -> nat -> list nat -> R.


(** No layer before the last consults the observations. *)
Lemma update_layers_before_last n len layers : forall i x ds ds' g,
  i + length layers < len ->
  DGP.update_layers gp_sample lv_sample n len i layers x ds g
  = DGP.update_layers gp_sample lv_sample n len i layers x ds' g.
Proof.
  induction layers as [|lay rest IH]; intros i x ds ds' g Hi; [done|].
  cbn [length] in Hi. cbn [DGP.update_layers]. destruct lay as [l|l|]; [| |done].
  - assert (DGP.check_gp l (i =? len - 1) x ds = DGP.check_gp l (i =? len - 1) x ds')
      as ->.
    { unfold DGP.check_gp. by rewrite (proj2 (Nat.eqb_neq i (len - 1))) by lia. }
    destruct (DGP.check_gp l _ x ds') as [[]|e]; [|done].
    destruct (DGP.call_gp gp_sample l x g) as [[y|e] g1]; [|done].
    by rewrite (IH (S i) y ds ds' g1) by lia.
  - destruct (DGP.call_lv lv_sample l x g) as [[y|e] g1]; [|done].
    by rewrite (IH (S i) y ds ds' g1) by lia.
Qed.

End MoreModelUpdate.

(** * [DeepGaussianProcess.update] changes [num_data] only *)


(** * The observations are not checked behind a latent-variable layer *)

(** X10. When the final layer of the model is a latent-variable layer,
    [update] never looks at the new observations: with the same query
    points, it does the same whatever the observations are.  (Only a GP layer
    in the final position has the trailing dimension of the observations
    compared with that of its [q_mu].) *)
Theorem update_ignores_observations_behind_latent_layer {BE : Backend}
    (gp_sample : GPLayer -> tensor -> nat -> list nat -> R)
    (lv_sample : LatentVariableLayer -> tensor -> nat -> list nat -> R)
    (self : DGP.t) (pre : list layer) (lv : LatentVariableLayer)
    (dataset dataset' : DGP.Dataset) (g : nat) :
  DGP.f_layers self = pre ++ [IsLatentVariableLayer lv] ->
  DGP.query_points dataset' = DGP.query_points dataset ->
  DGP.update gp_sample lv_sample self dataset' g
  = DGP.update gp_sample lv_sample self dataset g.
Proof.
  intros Hl Hq. unfold DGP.update. rewrite Hq.
  destruct (DGP.leading_dim (DGP.query_points dataset)) as [n|e]; [|done].
  rewrite Hl, !update_layers_app.
  rewrite (update_layers_before_last gp_sample lv_sample n _ pre 0 _ dataset' dataset)
    by (rewrite length_app; cbn; lia).
  by destruct (DGP.update_layers _ _ _ _ _ pre _ _ _) as [[[y|e] pre'] g1].
Qed.

(** A GP layer followed by a latent-variable layer: observations of
    trailing dimension 5 are accepted like those of trailing dimension 1. *)
Lemma update_ignores_observations_behind_latent_layer_witness :
  let self := DGP.mk 0 [integer_layer [[0]]%Z [[0]]%Z; integer_lv] in
  let x := IntegerBackend.matrix [[1]; [2]]%Z in
  let narrow := DGP.mkDataset x (IntegerBackend.matrix [[5]; [6]]%Z) in
  let wide := DGP.mkDataset x (IntegerBackend.matrix [[1; 2; 3; 4; 5]]%Z) in
  DGP.update zero_gp_sample zero_lv_sample self wide 0
  = DGP.update zero_gp_sample zero_lv_sample self narrow 0
  /\ fst (fst (DGP.update zero_gp_sample zero_lv_sample self narrow 0)) = Ok ().
Proof.
  intros self x narrow wide. split; [|by vm_compute].
  exact (update_ignores_observations_behind_latent_layer zero_gp_sample
           zero_lv_sample self [integer_layer [[0]]%Z [[0]]%Z] (mkLVLayer 1 0)
           narrow wide 0 eq_refl eq_refl).
Defined.

(** * The trajectories of one manager share their layer samplers *)

(** X11. Every trajectory that [get_trajectory] hands out is built around
    the manager's one list of layer samplers.  So once any trajectory of a
    manager with at least one layer has been evaluated on an input with batch
    dimension [B], a new trajectory from [get_trajectory] of that manager is
    bound to [B] as well: evaluated on an input with batch dimension
    [B' <> B] it raises the [InvalidArgumentError] of the batch-size
    assertion, and changes nothing. *)
Theorem new_trajectory_is_bound_to_batch_size {BE : Backend}
    (self : Manager.t) (l : GPLayer) (ls : list GPLayer) (s : DL.t) (ss : list DL.t)
    (x : tensor) (N B D : nat) (y : tensor) (self1 : Manager.t)
    (x' : tensor) (N' B' D' : nat) :
  Manager.gp_layers self = l :: ls ->
  Manager.sampling_layers self = s :: ss ->
  shape x = [N; B; D] ->
  Manager.call_trajectory x self = (Ok y, self1) ->
  shape x' = [N'; B'; D'] ->
  B' <> B ->
  let '(t, self2) := Manager.get_trajectory self1 in
  Manager.sampling_layers self2 = Manager.sampling_layers self1
  /\ Manager.call_trajectory x' self2
     = (Err (InvalidArgumentError BatchSizeChanged), self2).
Proof.
  intros Hl Hs Hx Hcall Hx' Hne. unfold Manager.call_trajectory in Hcall.
  rewrite Hl, Hs in Hcall. unfold Traj.call in Hcall. cbn [Traj.call_layers] in Hcall.
  destruct (DL.call l s x (Manager.generator self)) as [[[z|e] s1] g1] eqn:Hc;
    [|discriminate].
  destruct (Traj.call_layers ls ss z g1) as [[r ss1] g2].
  injection Hcall as Hr <-.
  destruct (call_Ok_ready _ _ _ _ _ _ _ Hc) as [Hi Hb].
  unfold dim_from_end in Hb. rewrite Hx in Hb. cbn in Hb. injection Hb as Hb.
  unfold Manager.get_trajectory, Manager.set_samplers.
  cbn [Manager.sampling_layers Manager.gp_layers Manager.num_features
       Manager.next_object Manager.generator].
  split; [done|].
  unfold Manager.call_trajectory, Traj.call, Manager.set_samplers.
  cbn [Manager.sampling_layers Manager.gp_layers Manager.num_features
       Manager.next_object Manager.generator].
  rewrite Hl. cbn [Traj.call_layers].
  rewrite (call_batch_mismatch l s1 x' g2 B' Hi); [done| |congruence].
  unfold dim_from_end. by rewrite Hx'.
Qed.

(** The manager of the one-layer integer model: a first evaluation with
    batch size 1, then a new trajectory evaluated with batch size 2. *)
Lemma new_trajectory_is_bound_to_batch_size_witness :
  let first := Manager.call_trajectory IntegerBackend.x_3_1_1 integer_manager in
  let self2 := snd (Manager.get_trajectory (snd first)) in
  is_ok (fst first) = true
  /\ Manager.call_trajectory IntegerBackend.x_3_2_1 self2
     = (Err (InvalidArgumentError BatchSizeChanged), self2).
Proof.
  intros first self2.
  assert (Hok : is_ok (fst first) = true) by (vm_compute; reflexivity).
  split; [exact Hok|].
  exact (proj2 (new_trajectory_is_bound_to_batch_size integer_manager
                  (IntegerBackend.gp_layer 0) [] IntegerBackend.sampler []
                  IntegerBackend.x_3_1_1 3 1 1 _ _ IntegerBackend.x_3_2_1 3 2 1
                  eq_refl eq_refl eq_refl
                  (is_ok_returned_pair (ones []) first Hok) eq_refl
                  (fun H : 2 = 1 => O_S 0 (eq_add_S _ _ (eq_sym H))))).
Defined.

Lemma has_returned_value {A S T} (d : A) (c : outcome A * S * T) :
  has_returned (fst (fst c)) = true ->
  c = (Returned (returned_value d (fst (fst c))), snd (fst c), snd c).
Proof. by destruct c as [[[a|e] s] t]. Qed.

(** * The updates of the global-inducing wrappers *)

Section GlobalInducingFacts.

Context {BE : Backend}.

Lemma gi_update_layers_no_latent n layers :
  Forall (fun lay => GIDGP.is_LatentVariableLayer lay = false) layers ->
  GIDGP.update_layers n layers = (Returned (), map (GIDGP.set_num_data n) layers).
Proof.
  induction 1 as [|lay rest Hlay _ IH]; [done|].
  cbn [GIDGP.update_layers map]. by rewrite Hlay, IH.
Qed.

Lemma gi_update_layers_latent n pre lay post :
  Forall (fun lay => GIDGP.is_LatentVariableLayer lay = false) pre ->
  GIDGP.is_LatentVariableLayer lay = true ->
  GIDGP.update_layers n (pre ++ lay :: post)
  = (Raised LatentLayersNotSupported,
     map (GIDGP.set_num_data n) (pre ++ [lay]) ++ post).
Proof.
  intros Hpre Hlay. induction Hpre as [|p pre Hp _ IH].
  - cbn. by rewrite Hlay.
  - cbn [app GIDGP.update_layers map]. by rewrite Hp, IH.
Qed.

Lemma last_map_set_num_data n layers :
  last (map (GIDGP.set_num_data n) layers) = GIDGP.set_num_data n <$> last layers.
Proof.
  induction layers as [|lay [|lay' rest] IH]; [done..|].
  exact IH.
Qed.

End GlobalInducingFacts.

(** X12. [update] of [GlobalInducingDeepGaussianProcess] (and of
    [DeepKernelProcess], which has the same text) sets [num_data] on the
    model and on every layer before it checks any shape.  On a model without
    latent-variable layers, whose last layer has the attribute [v], it raises
    a [ValueError] when the trailing dimension of the query points differs
    from that of the model's [inducing_data], else a [ValueError] when the
    trailing dimension of the observations differs from that of [v] of the
    last layer, and returns otherwise; in all three cases the model is left
    with the new [num_data] on every layer.  At a latent-variable layer it
    raises a [NotImplementedError], with [num_data] set on the layers up to
    and including that one, and checks no shape. *)
Theorem global_inducing_update_sets_num_data_first {BE : Backend}
    (self : GIDGP.t) (dataset : DGP.Dataset) (n d di o dv : nat) (s : list nat)
    (last_layer : GIDGP.layer) (vt : tensor) :
  shape (DGP.query_points dataset) = n :: s ->
  dim_from_end 0 (DGP.query_points dataset) = Ok d ->
  dim_from_end 0 (GIDGP.inducing_data self) = Ok di ->
  dim_from_end 0 (DGP.observations dataset) = Ok o ->
  last (GIDGP.f_layers self) = Some last_layer ->
  GIDGP.v last_layer = Some vt ->
  dim_from_end 0 vt = Ok dv ->
  (Forall (fun lay => GIDGP.is_LatentVariableLayer lay = false) (GIDGP.f_layers self) ->
   GIDGP.update self dataset
   = (if negb (d =? di) then Raised ModelInputTrailingDim
      else if negb (o =? dv) then Raised (Earlier (ValueError ObservationTrailingDim))
      else Returned (),
      GIDGP.mk n (GIDGP.inducing_data self)
               (map (GIDGP.set_num_data n) (GIDGP.f_layers self))))
  /\ (forall pre lay post,
        GIDGP.f_layers self = pre ++ lay :: post ->
        Forall (fun lay => GIDGP.is_LatentVariableLayer lay = false) pre ->
        GIDGP.is_LatentVariableLayer lay = true ->
        GIDGP.update self dataset
        = (Raised LatentLayersNotSupported,
           GIDGP.mk n (GIDGP.inducing_data self)
                    (map (GIDGP.set_num_data n) (pre ++ [lay]) ++ post))).
Proof.
  intros Hq Hd Hdi Ho Hlast Hv Hdv. split.
  - intros Hall. unfold GIDGP.update, DGP.leading_dim. rewrite Hq.
    rewrite (gi_update_layers_no_latent n _ Hall). cbn [mbind outcome_bind].
    f_equal. unfold GIDGP.check_shapes, GIDGP.last_dim, GIDGP.last_v.
    cbn [GIDGP.inducing_data GIDGP.f_layers]. rewrite Hd, Hdi.
    cbn [lift mbind outcome_bind].
    destruct (negb (d =? di)); [done|].
    rewrite Ho, last_map_set_num_data, Hlast. cbn [lift mbind outcome_bind fmap option_fmap option_map GIDGP.set_num_data GIDGP.v].
    rewrite Hv. cbn [mbind outcome_bind]. by rewrite Hdv.
  - intros pre lay post Hl Hpre Hlay. unfold GIDGP.update, DGP.leading_dim.
    rewrite Hq, Hl. by rewrite (gi_update_layers_latent n pre lay post Hpre Hlay).
Qed.

(** A model of two layers and inducing data of trailing dimension 2: query
    points of trailing dimension 3 are refused, after [num_data] has been set
    to their number on both layers. *)
Lemma global_inducing_update_sets_num_data_first_witness :
  let v := IntegerBackend.matrix [[0]; [0]]%Z in
  let lay := GIDGP.mkLayer false (Some v) 0 in
  let self := GIDGP.mk 0 (IntegerBackend.matrix [[0; 0]]%Z) [lay; lay] in
  let dataset := DGP.mkDataset (IntegerBackend.matrix [[1; 2; 3]; [4; 5; 6]]%Z)
                               (IntegerBackend.matrix [[5]; [6]]%Z) in
  GIDGP.update self dataset
  = (Raised ModelInputTrailingDim,
     GIDGP.mk 2 (IntegerBackend.matrix [[0; 0]]%Z)
              [GIDGP.set_num_data 2 lay; GIDGP.set_num_data 2 lay]).
Proof.
  intros v lay self dataset.
  exact (proj1 (global_inducing_update_sets_num_data_first self dataset 2 3 2 1 1
                  [3] lay v eq_refl eq_refl eq_refl eq_refl eq_refl eq_refl eq_refl)
           ltac:(repeat constructor)).
Defined.

(** * The epochs of [DeepKernelProcess.optimize] *)

Section OptimizeFacts.

Variable float : Type.

Variable int_lt_float : Z -> float -> bool.

Variable training : Type.

Variable gradient_step : DKP.temperature -> training -> training.

Variable report : Z -> training -> outcome unit.


End OptimizeFacts.



(** X14. [optimize] of [DeepKernelProcess] reads [fit_args["epochs"]] once
    and [fit_args["temper_until"]] in every epoch.  Without the key
    [epochs] it raises a [KeyError] at once.  Without the key [temper_until]
    (as in the default [fit_args] of [DeepGaussianProcess]) it raises a
    [KeyError] in the first epoch, before any gradient step, when [epochs]
    is a positive integer, and returns without a gradient step when [epochs]
    is an integer that is not positive. *)
Theorem optimize_needs_its_keys
    (float : Type) (int_lt_float : Z -> float -> bool) (training : Type)
    (gradient_step : DKP.temperature -> training -> training)
    (report : Z -> training -> outcome unit)
    (fit_args : gmap string (DKP.value float)) (st : training) :
  match fit_args !! "epochs" with
  | None =>
      DKP.optimize float int_lt_float training gradient_step report fit_args st
      = (Raised (KeyError "epochs"), st)
  | Some (DKP.PyInt _ epochs) =>
      fit_args !! "temper_until" = None ->
      DKP.optimize float int_lt_float training gradient_step report fit_args st
      = (if (0 <? epochs)%Z then Raised (KeyError "temper_until") else Returned (),
         st)
  | Some _ => True
  end.
Proof.
  unfold DKP.optimize, DKP.getitem.
  destruct (fit_args !! "epochs") as [[epochs| | |]|] eqn:He; try done.
  intros Htu. cbn [mbind outcome_bind DKP.as_index].
  destruct (Z.ltb_spec 0 epochs) as [Hpos|Hneg].
  - destruct (Z.to_nat epochs) as [|count] eqn:Hc; [lia|].
    cbn [DKP.run_epochs]. unfold DKP.getitem. by rewrite Htu.
  - by replace (Z.to_nat epochs) with 0 by lia.
Qed.

(** With the default [fit_args] of [DeepGaussianProcess], which has no
    [temper_until], no gradient step is taken. *)
Lemma optimize_needs_its_keys_witness :
  DKP.optimize unit (fun _ _ => false) (nat * nat) count_step
    (fun _ _ => Returned ()) dgp_fit_args (0, 0)
  = (Raised (KeyError "temper_until"), (0, 0)).
Proof.
  exact (optimize_needs_its_keys unit (fun _ _ => false) (nat * nat) count_step
           (fun _ _ => Returned ()) dgp_fit_args (0, 0) eq_refl).
Defined.

(** * Repeated reparametrization samples *)

Section ReparamFacts.

Context {BE : Backend}.

Variable predict : GPLayer -> tensor -> result (tensor * tensor).

Variable sqrt : R -> R.

Variable prior_sample : LatentVariableLayer -> list nat -> nat -> result tensor * nat.

Variable compositor : LatentVariableLayer -> tensor -> tensor -> result tensor.

Lemma assign_eps_frame i value eps g r eps1 g1 :
  Reparam.assign_eps false i value eps g = (r, eps1, g1) ->
  length eps1 = length eps
  /\ (forall j, j < i -> eps1 !! j = eps !! j)
  /\ (r = Returned () -> exists e, eps1 !! i = Some e).
Proof.
  unfold Reparam.assign_eps. destruct (eps !! i) as [e0|] eqn:Hi.
  - destruct (value g) as [[e|e] g2]; intros [= <- <- <-].
    + split; [by rewrite length_insert|]. split.
      * intros j Hj. by rewrite list_lookup_insert_ne by lia.
      * intros _. exists e. apply list_lookup_insert_eq. by apply lookup_lt_Some in Hi.
    + by repeat split.
  - intros [= <- <- <-]. by repeat split.
Qed.

(** One step of the first call: the variables before [i] are kept, and the
    step of a later call, on whatever variables agree at [i], returns the
    same and changes nothing. *)
Lemma step_then_ready size i lay samples eps g y eps1 g1 :
  match lay with
  | IsLatentVariableLayer l =>
      Reparam.lv_step prior_sample compositor false i l samples eps g
  | IsGPLayer l => Reparam.gp_step predict sqrt false size i l samples eps g
  | OtherLayer => (Raised (Earlier (AttributeError NoSuchAttribute)), eps, g)
  end = (Returned y, eps1, g1) ->
  length eps1 = length eps
  /\ (forall j, j < i -> eps1 !! j = eps !! j)
  /\ forall eps' g', eps' !! i = eps1 !! i ->
       match lay with
       | IsLatentVariableLayer l =>
           Reparam.lv_step prior_sample compositor true i l samples eps' g'
       | IsGPLayer l => Reparam.gp_step predict sqrt true size i l samples eps' g'
       | OtherLayer => (Raised (Earlier (AttributeError NoSuchAttribute)), eps', g')
       end = (Returned y, eps', g').
Proof.
  destruct lay as [l|l|]; [| |discriminate].
  - unfold Reparam.gp_step. destruct (predict l samples) as [[mean var]|e]; [|discriminate].
    destruct (Reparam.assign_eps false i _ eps g) as [[r eps2] g2] eqn:Ha.
    destruct (assign_eps_frame _ _ _ _ _ _ _ Ha) as (Hlen & Hbefore & _).
    intros [= Hr <- <-]. split; [done|]. split; [done|].
    intros eps' g' Hi. cbn [Reparam.assign_eps mbind outcome_bind].
    destruct r as [[]|e]; [|discriminate]. cbn [mbind outcome_bind] in Hr.
    unfold Reparam.eps_at in *. rewrite Hi. by rewrite Hr.
  - unfold Reparam.lv_step.
    destruct (Reparam.assign_eps false i _ eps g) as [[r eps2] g2] eqn:Ha.
    destruct (assign_eps_frame _ _ _ _ _ _ _ Ha) as (Hlen & Hbefore & _).
    intros [= Hr <- <-]. split; [done|]. split; [done|].
    intros eps' g' Hi. cbn [Reparam.assign_eps mbind outcome_bind].
    destruct r as [[]|e]; [|discriminate]. cbn [mbind outcome_bind] in Hr.
    unfold Reparam.eps_at in *. rewrite Hi. by rewrite Hr.
Qed.

Lemma sample_layers_ready size layers : forall i samples eps g,
  Reparam.sample_layers predict sqrt prior_sample compositor true size i layers
    samples eps g
  = (fst (fst (Reparam.sample_layers predict sqrt prior_sample compositor true size i
                 layers samples eps 0)), eps, g).
Proof.
  induction layers as [|lay rest IH]; intros i samples eps g; [done|].
  cbn [Reparam.sample_layers]. destruct lay as [l|l|]; [| |done].
  - unfold Reparam.gp_step. destruct (predict l samples) as [[mean var]|e]; [|done].
    cbn [Reparam.assign_eps mbind outcome_bind].
    destruct (_ ≫= _) as [y|e]; [|done]. by rewrite (IH _ _ _ g), (IH _ _ _ 0).
  - unfold Reparam.lv_step. cbn [Reparam.assign_eps mbind outcome_bind].
    destruct (_ ≫= _) as [y|e]; [|done]. by rewrite (IH _ _ _ g), (IH _ _ _ 0).
Qed.

(** The first call: the variables it leaves give every later call the same
    samples, with no variable assigned and no random number drawn. *)
Lemma sample_layers_first size layers : forall i samples eps g y eps1 g1,
  Reparam.sample_layers predict sqrt prior_sample compositor false size i layers
    samples eps g = (Returned y, eps1, g1) ->
  length eps1 = length eps
  /\ (forall j, j < i -> eps1 !! j = eps !! j)
  /\ forall g',
       Reparam.sample_layers predict sqrt prior_sample compositor true size i layers
         samples eps1 g' = (Returned y, eps1, g').
Proof.
  induction layers as [|lay rest IH]; intros i samples eps g y eps1 g1.
  - intros [= <- <- <-]. by repeat split.
  - cbn [Reparam.sample_layers].
    destruct (match lay with
              | IsGPLayer l => Reparam.gp_step predict sqrt false size i l samples eps g
              | IsLatentVariableLayer l =>
                  Reparam.lv_step prior_sample compositor false i l samples eps g
              | OtherLayer => (Raised (Earlier (AttributeError NoSuchAttribute)), eps, g)
              end) as [[[y1|e] eps2] g2] eqn:Hstep; [|discriminate].
    intros Hrest.
    destruct (IH (S i) y1 eps2 g2 y eps1 g1 Hrest) as (Hlen & Hbefore & Hagain).
    assert (Hstep' :
      match lay with
      | IsLatentVariableLayer l =>
          Reparam.lv_step prior_sample compositor false i l samples eps g
      | IsGPLayer l => Reparam.gp_step predict sqrt false size i l samples eps g
      | OtherLayer => (Raised (Earlier (AttributeError NoSuchAttribute)), eps, g)
      end = (Returned y1, eps2, g2)) by by destruct lay.
    destruct (step_then_ready size i lay samples eps g y1 eps2 g2 Hstep')
      as (Hlen2 & Hbefore2 & Hready).
    split; [congruence|]. split.
    + intros j Hj. rewrite Hbefore by lia. by apply Hbefore2.
    + intros g'. specialize (Hready eps1 g' (Hbefore i (Nat.lt_succ_diag_r i))).
      assert (Hready' :
        match lay with
        | IsGPLayer l => Reparam.gp_step predict sqrt true size i l samples eps1 g'
        | IsLatentVariableLayer l =>
            Reparam.lv_step prior_sample compositor true i l samples eps1 g'
        | OtherLayer => (Raised (Earlier (AttributeError NoSuchAttribute)), eps1, g')
        end = (Returned y1, eps1, g')) by by destruct lay.
      rewrite Hready'. apply Hagain.
Qed.

End ReparamFacts.

(** X15. When [sample] of the reparametrization sampler has returned, the
    sampler is initialized, and every later [sample] at the same points, with
    whatever non-negative [jitter], returns the same samples, assigns no
    variable of [_eps_list] and draws no random number: the noise drawn in
    the first call is reused.  ([jitter] is only compared with zero.) *)
Theorem reparam_sample_repeatable {BE : Backend}
    (predict : GPLayer -> tensor -> result (tensor * tensor)) (sqrt : R -> R)
    (prior_sample : LatentVariableLayer -> list nat -> nat -> result tensor * nat)
    (compositor : LatentVariableLayer -> tensor -> tensor -> result tensor)
    (float : Type) (nonnegative : float -> bool)
    (at_ : tensor) (jitter : float) (self : Reparam.t) (g : nat)
    (y : tensor) (self' : Reparam.t) (g' : nat) :
  Reparam.sample predict sqrt prior_sample compositor float nonnegative
    at_ jitter self g = (Returned y, self', g') ->
  Reparam.initialized self' = true
  /\ forall jitter' g'',
       nonnegative jitter' = true ->
       Reparam.sample predict sqrt prior_sample compositor float nonnegative
         at_ jitter' self' g'' = (Returned y, self', g'').
Proof.
  unfold Reparam.sample. destruct (negb (rank at_ =? 2)) eqn:Hrank; [discriminate|].
  destruct (negb (nonnegative jitter)); [discriminate|].
  destruct (Reparam.sample_layers _ _ _ _ _ _ _ _ _ _ g) as [[[y0|e] eps] g1] eqn:Hl;
    [|discriminate].
  intros [= <- <- <-]. split; [done|]. intros jitter' g'' Hj. rewrite Hj.
  cbn [negb Reparam.set_eps Reparam.initialized Reparam.sample_size
       Reparam.f_layers Reparam.eps_list].
  assert (Hagain : Reparam.sample_layers predict sqrt prior_sample compositor true
                     (Reparam.sample_size self) 0 (Reparam.f_layers self)
                     (Reparam.tile_samples (Reparam.sample_size self) at_) eps g''
                   = (Returned y0, eps, g'')).
  { destruct (Reparam.initialized self).
    - rewrite sample_layers_ready in Hl. injection Hl as Hr <- <-.
      by rewrite sample_layers_ready, Hr.
    - by destruct (sample_layers_first _ _ _ _ _ _ _ _ _ _ _ _ _ Hl) as (_ & _ & ->). }
  by rewrite Hagain.
Qed.

(** The integer sampler of size 2: a first sample at three points, then a
    second one at the same points. *)
Lemma reparam_sample_repeatable_witness :
  let sample :=
    Reparam.sample integer_predict (fun r => r) (fun _ _ g => (Ok (ones []), g))
                   (fun _ x _ => Ok x) unit (fun _ => true) in
  let x := IntegerBackend.matrix [[1]; [2]; [3]]%Z in
  let first := sample x () integer_reparam 0 in
  has_returned (fst (fst first)) = true
  /\ snd first = 2
  /\ sample x () (snd (fst first)) (snd first)
     = (Returned (returned_value (ones []) (fst (fst first))), snd (fst first), snd first).
Proof.
  intros sample x first.
  assert (Hok : has_returned (fst (fst first)) = true) by (vm_compute; reflexivity).
  split; [exact Hok|]. split; [reflexivity|].
  exact (proj2 (reparam_sample_repeatable integer_predict (fun r => r)
                  (fun _ _ g => (Ok (ones []), g)) (fun _ x _ => Ok x) unit
                  (fun _ => true) x () integer_reparam 0 _ _ _
                  (has_returned_value (ones []) first Hok)) () (snd first) eq_refl).
Defined.

Section MatrixInputFacts.

Context {BE : Backend}.

Lemma evaluate_wrong_dimension l s x N B M D P L D' :
  consistent l s M D P L -> shape x = [N; B; D'] -> D' <> D ->
  DL.evaluate l s x = Err (InvalidArgumentError OpShapes).
Proof.
  intros Hc Hx Hne. unfold DL.evaluate.
  rewrite (flatten_rank3 x N B D' Hx). cbn [mbind result_bind].
  unfold FF.call, FF.rff_call. cbn [shape flat_tensor].
  rewrite (shape_W _ _ _ _ _ _ Hc).
  by rewrite (proj2 (Nat.eqb_neq D' D) Hne).
Qed.

Lemma unravel_ravel_1 N n : n < N -> unravel [N] (ravel [N] [n]) = [n].
Proof.
  intros Hn. unfold unravel, ravel. cbn. by rewrite Nat.mod_small by lia.
Qed.

Lemma row_flat_matrix x N D n :
  shape x = [N; D] -> n < N ->
  row (flat_matrix x N D) (ravel [N] [n]) = row x n.
Proof.
  intros Hx Hn. unfold row, flat_matrix. cbn [shape get of_entries].
  by rewrite unravel_ravel_1, Hx.
Qed.

Lemma tmul_features_weights_matrix A W N J P :
  shape A = [N; J; 1] -> shape W = [N; J; P] ->
  tmul A W = Ok (mkT [N; J; P] (ewise_at rmul A W)).
Proof.
  intros HA HW. unfold tmul, ewise, broadcast_shapes. rewrite HA, HW. cbn.
  rewrite !bdim_refl.
  assert (bdim 1 P = Some P) as ->; [|done].
  unfold bdim. destruct (Nat.eqb_spec 1 P) as [<-|]; done.
Qed.

Lemma evaluate_matrix_ok l s x N M D P L :
  consistent l s M D P L ->
  shape (DL.weights_sample s) = [N; L + M; P] ->
  mean_dim (mean_function l) = P ->
  shape x = [N; D] ->
  DL.evaluate l s x = Ok (evaluated_matrix l s x N M D P L).
Proof.
  intros Hc Hw Hm Hx. unfold DL.evaluate, flatten_leading_dims, split_last, rank.
  rewrite Hx. cbn [reverse rev_append length Nat.leb mbind result_bind].
  fold (flat_matrix x N D).
  rewrite (FF_call_ok l _ (flat_matrix x N D) (prod_dims [N]) M D L eq_refl
             (shape_Z _ _ _ _ _ _ Hc) (shape_W _ _ _ _ _ _ Hc)).
  cbn [mbind result_bind]. unfold unflatten. cbn [shape].
  rewrite Nat.eqb_refl. cbn [mbind result_bind app].
  fold (features_matrix l s x N M D L).
  rewrite (tmul_features_weights_matrix (features_matrix l s x N M D L) _ N (L + M) P
             eq_refl Hw).
  cbn [mbind result_bind]. unfold reduce_sum_m2, split_last2.
  cbn [shape reverse rev_append app mbind result_bind].
  unfold apply_mean, split_last. rewrite Hx.
  cbn [reverse rev_append app mbind result_bind]. rewrite Hm.
  unfold tadd. by erewrite (ewise_same radd _ _ [N; P]) by done.
Qed.

Lemma evaluated_matrix_at l s x N M D P L n p :
  shape x = [N; D] ->
  shape (DL.weights_sample s) = [N; L + M; P] ->
  n < N -> p < P ->
  get (evaluated_matrix l s x N M D P L) [n; p]
  = trajectory_value l s L M (row x n) n p.
Proof.
  intros Hx Hw Hn Hp. unfold evaluated_matrix. cbn [get].
  unfold ewise_at at 1. cbn [shape]. unfold bidx.
  cbn [length Nat.sub drop zip_with]. rewrite !bsel_lt by done.
  unfold trajectory_value. f_equal.
  - cbn [get]. unfold reduce_sum_m2_at. cbn [length Nat.sub take nth app].
    apply rsum_ext. intros j Hj. cbn [get]. unfold ewise_at. rewrite Hw.
    change (shape (features_matrix l s x N M D L)) with [N; L + M; 1].
    unfold bidx. cbn [length Nat.sub drop zip_with].
    rewrite !bsel_lt by done. cbn [Nat.eqb]. f_equal; [|by rewrite bsel_lt].
    unfold features_matrix, new_last_axis, new_last_axis_at.
    cbn [get length Nat.sub take]. unfold unflatten_at.
    cbn [length take drop get]. rewrite concat_at_last_rank2. unfold feature_at.
    destruct (j <? L).
    + unfold fourier_features. cbn [get of_entries]. unfold fourier_at.
      by rewrite row_flat_matrix.
    + unfold canonical_features. cbn [get]. unfold transpose_at.
      cbn [length Nat.sub take nth app get of_entries].
      by rewrite row_flat_matrix.
  - cbn [get]. unfold apply_mean_at. cbn [length Nat.sub take nth].
    unfold point_at, row. by rewrite Hx.
Qed.

End MatrixInputFacts.

(** * What a failed first call leaves behind *)

(** X16. The first call of a layer sampler fixes the batch size [B] of its
    input, draws the weights and marks the sampler as initialized before it
    evaluates.  So, when [tf.linalg.cholesky] returns a matrix for the Gram
    matrix the sampler holds, a first call on an input of shape [[N, B, D']]
    whose trailing dimension [D'] is not that of the inducing points raises
    (the features cannot be evaluated), and still leaves the sampler
    initialized for batch size [B], with weights drawn.  When
    [tf.linalg.cholesky] raises instead, the call raises that exception while
    drawing the weights, and leaves the sampler not initialized, with [B]
    recorded. *)
Theorem failed_first_call_leaves {BE : Backend}
    (l : GPLayer) (s : DL.t) (M D P L g : nat) (x : tensor) (N B D' : nat) :
  consistent l s M D P L ->
  DL.initialized s = false ->
  shape x = [N; B; D'] ->
  match factorise M (entries (DL.Kmm (DL.weight_sampler s))) with
  | Ok Luu =>
      D' <> D ->
      DL.call l s x g
      = (Err (InvalidArgumentError OpShapes),
         DL.set_initialized true
           (DL.set_weights_sample
              (drawn_weights l (DL.set_batch_size B s) Luu M P L B g)
              (DL.set_batch_size B s)),
         after_draw M P L B g)
  | Err e =>
      DL.call l s x g = (Err e, DL.set_batch_size B s, after_draw M P L B g)
  end.
Proof.
  intros Hc Hi Hx.
  pose proof (consistent_set_batch_size _ _ _ _ _ _ B Hc) as HcB.
  unfold DL.call, DL.initialize, dim_from_end. rewrite Hi, Hx.
  cbn [reverse rev_append lookup list_lookup].
  destruct (factorise M (entries (DL.Kmm (DL.weight_sampler s)))) as [Luu|e] eqn:Hchol.
  - intros Hne. rewrite (resample_returns l _ M D P L g Luu HcB Hchol).
    change (DL.batch_size (DL.set_batch_size B s)) with B.
    unfold DL.assert_batch_size, dim_from_end. rewrite Hx.
    cbn [reverse rev_append lookup list_lookup mbind result_bind].
    cbn [DL.batch_size DL.set_initialized DL.set_weights_sample DL.set_batch_size].
    rewrite Nat.eqb_refl.
    erewrite (evaluate_wrong_dimension l _ x N B M D P L D'); [done| |done..].
    by apply consistent_set_initialized, consistent_set_weights.
  - rewrite (resample_cholesky_failed l _ M D P L g e HcB Hchol). done.
Qed.

(** The first call of the integer sampler on a point of two coordinates:
    it raises, and the sampler is then bound to batch size 1. *)
Lemma failed_first_call_leaves_witness :
  let l := IntegerBackend.gp_layer 0 in
  let '(r, s', g') := DL.call l IntegerBackend.sampler x_1_1_2 4 in
  r = Err (InvalidArgumentError OpShapes)
  /\ DL.initialized s' = true
  /\ DL.batch_size s' = 1
  /\ g' = 9.
Proof.
  intros l.
  pose proof (failed_first_call_leaves l IntegerBackend.sampler 3 1 1 2 4 x_1_1_2
                1 1 2 IntegerBackendFacts.sampler_consistent eq_refl eq_refl) as H.
  change (factorise 3 (entries (DL.Kmm (DL.weight_sampler IntegerBackend.sampler))))
    with (Ok IntegerBackend.delta : result (nat -> nat -> @R IntegerBackend.backend)) in H.
  cbv beta iota in H.
  rewrite (H ltac:(lia)). by repeat split.
Defined.

(** * A matrix of points is a batch *)

(** X17. A layer sampler takes the second-to-last dimension of its input
    as the batch dimension.  On a matrix of shape [[N, D]] that is [N]: an
    initialized sampler with batch size [N], of a layer whose mean function
    has [P] outputs (as many as [q_mu] has columns), evaluates the matrix to
    a tensor of shape [[N, P]], whose row [n] is the value at the point
    [x[n, :]] of
    the member [n] of the batch, that is, with the weight sample [n]; every
    row is evaluated with different weights. *)
Theorem matrix_input_is_a_batch {BE : Backend}
    (l : GPLayer) (s : DL.t) (x : tensor) (g N M D P L : nat) :
  consistent l s M D P L ->
  DL.initialized s = true ->
  DL.batch_size s = N ->
  shape (DL.weights_sample s) = [N; L + M; P] ->
  mean_dim (mean_function l) = P ->
  shape x = [N; D] ->
  exists y,
    DL.call l s x g = (Ok y, s, g)
    /\ shape y = [N; P]
    /\ forall n p, n < N -> p < P ->
         get y [n; p] = trajectory_value l s L M (row x n) n p.
Proof.
  intros Hc Hi Hb Hw Hm Hx. exists (evaluated_matrix l s x N M D P L).
  split; [|split; [done|]].
  - rewrite call_ready by done. unfold DL.assert_batch_size, dim_from_end.
    rewrite Hx. cbn [reverse rev_append lookup list_lookup mbind result_bind].
    rewrite Hb, Nat.eqb_refl.
    by rewrite (evaluate_matrix_ok l s x N M D P L Hc Hw Hm Hx).
  - intros n p Hn Hp. by apply evaluated_matrix_at.
Qed.

(** The integer sampler with weights for three batch members, on the
    matrix of its three inducing points. *)
Lemma matrix_input_is_a_batch_witness :
  let l := IntegerBackend.gp_layer 0 in
  let x := IntegerBackend.matrix [[-1]; [0]; [1]]%Z in
  exists y,
    DL.call l sampler_of_three x 4 = (Ok y, sampler_of_three, 4)
    /\ shape y = [3; 1]
    /\ forall n, n < 3 ->
         get y [n; 0] = trajectory_value l sampler_of_three 2 3 (row x n) n 0.
Proof.
  intros l x.
  destruct (matrix_input_is_a_batch l sampler_of_three x 4 3 3 1 1 2)
    as (y & Hy & Hs & Hv); try reflexivity.
  - by split.
  - exists y. split; [exact Hy|]. split; [exact Hs|].
    intros n Hn. apply Hv; lia.
Defined.

(** * One latent sample for all the points of a call *)

Section SampleLVFacts.

Context {BE : Backend}.

Lemma shape_expanded n t :
  shape (Nat.iter n SampleLV.expand_dims_0 t) = repeat 1 n ++ shape t.
Proof.
  induction n as [|n IH]; [done|]. rewrite Nat.iter_succ.
  unfold SampleLV.expand_dims_0 at 1. cbn [shape repeat app]. by rewrite IH.
Qed.

Lemma get_expanded n t bi si :
  length bi = n ->
  get (Nat.iter n SampleLV.expand_dims_0 t) (bi ++ si) = get t si.
Proof.
  revert bi. induction n as [|n IH]; intros bi Hbi.
  - by destruct bi.
  - destruct bi as [|b bi]; [done|]. rewrite Nat.iter_succ.
    unfold SampleLV.expand_dims_0 at 1. cbn [get app tail]. apply IH.
    by injection Hbi.
Qed.

Lemma zip_with_mul_batch bs ss :
  zip_with Nat.mul (repeat 1 (length bs) ++ ss) (bs ++ repeat 1 (length ss))
  = bs ++ ss.
Proof.
  induction bs as [|b bs IH]; cbn.
  - induction ss as [|s ss IH]; [done|]. cbn. by rewrite IH, Nat.mul_1_r.
  - by rewrite IH, Nat.add_0_r.
Qed.

Lemma zip_with_mod_batch bi si ss :
  Forall2 lt si ss ->
  zip_with Nat.modulo (bi ++ si) (repeat 1 (length bi) ++ ss)
  = repeat 0 (length bi) ++ si.
Proof.
  intros Hsi. induction bi as [|b bi IH]; cbn.
  - induction Hsi as [|i s si ss Hi _ IH]; [done|]. cbn.
    by rewrite IH, Nat.mod_small.
  - by rewrite IH.
Qed.

Lemma tiled_sample_ok (sample X : tensor) (batch_shape : list nat) (D : nat) :
  shape X = batch_shape ++ [D] ->
  exists tiled,
    SampleLV.tiled_sample sample X = Ok tiled
    /\ shape tiled = batch_shape ++ shape sample
    /\ forall bi si,
         length bi = length batch_shape ->
         Forall2 lt si (shape sample) ->
         get tiled (bi ++ si) = get sample si.
Proof.
  intros HX. unfold SampleLV.tiled_sample, rank. rewrite HX.
  rewrite length_app. cbn [length]. rewrite Nat.add_sub.
  rewrite take_app_length. unfold SampleLV.tile, rank.
  rewrite shape_expanded, !length_app, !repeat_length, Nat.eqb_refl.
  eexists. split; [done|]. cbn [shape get]. split.
  - apply zip_with_mul_batch.
  - intros bi si Hbi Hsi. rewrite <- Hbi.
    rewrite (zip_with_mod_batch bi si (shape sample) Hsi).
    apply get_expanded. by rewrite repeat_length.
Qed.

End SampleLVFacts.

(** X18. The sample function of a latent-variable layer draws from the
    prior once in every call, and gives the compositor that one draw at
    every point of the input: for an input with batch dimensions
    [batch_shape] (all but the last), the compositor gets the input and the
    draw tiled to the shape [batch_shape ++ shape sample], whose entry at a
    batch index [bi] and an index [si] into the draw is the entry [si] of the
    draw, whatever [bi] is.  The generator is left where the draw left it,
    so the next call uses another draw. *)
Theorem latent_sample_shared_by_all_points {BE : Backend}
    (prior_sample : LatentVariableLayer -> nat -> tensor * nat)
    (compositor : LatentVariableLayer -> tensor -> tensor -> result tensor)
    (layer : LatentVariableLayer) (X : tensor) (g : nat)
    (batch_shape : list nat) (D : nat) :
  shape X = batch_shape ++ [D] ->
  let sample := fst (prior_sample layer g) in
  exists tiled,
    SampleLV.call prior_sample compositor layer X g
    = (compositor layer X tiled, snd (prior_sample layer g))
    /\ shape tiled = batch_shape ++ shape sample
    /\ forall bi si,
         length bi = length batch_shape ->
         Forall2 lt si (shape sample) ->
         get tiled (bi ++ si) = get sample si.
Proof.
  intros HX sample.
  destruct (tiled_sample_ok sample X batch_shape D HX) as (tiled & Ht & Hs & Hv).
  exists tiled. split; [|done]. unfold SampleLV.call.
  destruct (prior_sample layer g) as [smp g1] eqn:Hp. cbn [fst snd] in *.
  unfold sample in Ht. by rewrite Ht.
Qed.

(** A draw of two components, for three points with batch size 1. *)
Lemma latent_sample_shared_by_all_points_witness :
  let prior_sample := fun (_ : LatentVariableLayer) (g : nat) =>
    (mkT [2] (fun i => Z.of_nat (g + nth 0 i 0)), g + 2) in
  let compositor := fun (_ : LatentVariableLayer) (_ tiled : tensor) => Ok tiled in
  exists tiled,
    SampleLV.call prior_sample compositor (mkLVLayer 2 0) IntegerBackend.x_3_1_1 5
    = (Ok tiled, 7)
    /\ shape tiled = [3; 1; 2]
    /\ get tiled [2; 0; 1] = 6%Z.
Proof.
  intros prior_sample compositor.
  destruct (latent_sample_shared_by_all_points prior_sample compositor
              (mkLVLayer 2 0) IntegerBackend.x_3_1_1 5 [3; 1] 1 eq_refl)
    as (tiled & Ht & Hs & Hv).
  exists tiled. split; [exact Ht|]. split; [exact Hs|].
  apply (Hv [2; 0] [1] eq_refl). repeat constructor.
Defined.

(** * The first reparametrization sample *)

Section ReparamShapes.

Context {BE : Backend}.

Variable predict : GPLayer -> tensor -> result (tensor * tensor).

Variable sqrt : R -> R.

Variable prior_sample : LatentVariableLayer -> list nat -> nat -> result tensor * nat.

Variable compositor : LatentVariableLayer -> tensor -> tensor -> result tensor.

Variable out : GPLayer -> nat.

Lemma bdim_one_r a : bdim a 1 = Some a.
Proof.
  unfold bdim. destruct (Nat.eqb_spec a 1) as [->|]; [done|].
  by destruct (a =? 1).
Qed.

Lemma tmul_noise A E size N P :
  shape A = [size; N; P] -> shape E = [size; 1; P] ->
  tmul A E = Ok (mkT [size; N; P] (ewise_at rmul A E)).
Proof.
  intros HA HE. unfold tmul, ewise, broadcast_shapes. rewrite HA, HE. cbn.
  by rewrite !bdim_refl, bdim_one_r.
Qed.

Lemma gp_step_first size i l samples eps g N D e0 :
  predicts_at predict out l D ->
  shape samples = [size; N; D] ->
  eps !! i = Some e0 ->
  exists y,
    Reparam.gp_step predict sqrt false size i l samples eps g
    = (Returned y, <[i := fst (random_normal [size; out l] g)]> eps,
       g + prod_dims [size; out l])
    /\ shape y = [size; N; out l].
Proof.
  intros Hp Hs Hi. unfold Reparam.gp_step.
  destruct (Hp samples size N Hs) as (mean & var & -> & Hm & Hv).
  unfold Reparam.assign_eps, dim_from_end. rewrite Hi, Hm.
  cbn [reverse rev_append lookup list_lookup]. unfold random_normal, draw.
  cbn [fst mbind outcome_bind]. unfold Reparam.eps_at.
  rewrite list_lookup_insert_eq by by apply lookup_lt_Some in Hi.
  cbn [mbind outcome_bind]. unfold Reparam.expand_middle. cbn [shape lift].
  cbn [mbind outcome_bind].
  erewrite (tmul_noise (Reparam.tsqrt sqrt var) _ size N (out l)) by done.
  cbn [lift mbind outcome_bind]. unfold tadd.
  erewrite (ewise_same radd mean _ [size; N; out l]) by done.
  by eexists.
Qed.

Lemma sample_layers_first_shape size N ls : forall i samples eps g D,
  predicts predict out ls D ->
  shape samples = [size; N; D] ->
  length eps = i + length ls ->
  exists y eps',
    Reparam.sample_layers predict sqrt prior_sample compositor false size i
      (map IsGPLayer ls) samples eps g
    = (Returned y, eps', g + noise_size out size ls)
    /\ shape y = [size; N; last_out out D ls]
    /\ length eps' = length eps
    /\ forall k l, ls !! k = Some l ->
         shape <$> eps' !! (i + k) = Some [size; out l].
Proof.
  induction ls as [|l ls IH]; intros i samples eps g D Hp Hs Hlen.
  - cbn. unfold noise_size. cbn. rewrite Nat.add_0_r. exists samples, eps.
    by repeat split.
  - cbn [map Reparam.sample_layers]. cbn [length] in Hlen.
    destruct Hp as [Hp Hrest].
    assert (Hi : i < length eps) by lia.
    destruct (lookup_lt_is_Some_2 eps i Hi) as [e0 He0].
    destruct (gp_step_first size i l samples eps g N D e0 Hp Hs He0)
      as (y1 & -> & Hy1).
    destruct (IH (S i) y1 (<[i := fst (random_normal [size; out l] g)]> eps)
                (g + prod_dims [size; out l]) (out l) Hrest Hy1)
      as (y & eps' & Hl & Hy & Hlen' & Heps).
    { rewrite length_insert. lia. }
    exists y, eps'. split; [|split; [|split]].
    + rewrite Hl. f_equal. unfold noise_size. cbn [map sum_list sum_list_with].
      unfold id. lia.
    + rewrite Hy. unfold last_out. destruct ls as [|l' ls']; [done|].
      cbn [last]. destruct (last (l' :: ls')) eqn:Hlast; [done|].
      by apply last_None in Hlast.
    + by rewrite Hlen', length_insert.
    + intros [|k] l' Hk.
      * cbn in Hk. injection Hk as <-. rewrite Nat.add_0_r.
        destruct (sample_layers_first predict sqrt prior_sample compositor
                    _ _ _ _ _ _ _ _ _ Hl) as (_ & Hbefore & _).
        rewrite (Hbefore i) by lia. by rewrite list_lookup_insert_eq.
      * replace (i + S k) with (S i + k) by lia. by apply Heps.
Qed.

End ReparamShapes.

(** X19. The first [sample] of a reparametrization sampler over GP layers,
    with one variable in [_eps_list] for each layer, at [N] points of
    dimension [D]: when [layer.predict] of each layer returns a mean and a
    variance of shape [[S, N, out]] for the samples of shape [[S, N, D']]
    that reach the layer ([D' = D] for the first layer, the outputs of the
    layer before for every other), it returns samples of shape
    [[S, N, out_last]] for the outputs of the last layer, assigns to the
    variable of every layer a noise tensor of shape [[S, out]], drawing [S]
    numbers for each output of each layer, and marks the sampler as
    initialized. *)
Theorem reparam_first_sample_shapes {BE : Backend}
    (predict : GPLayer -> tensor -> result (tensor * tensor)) (sqrt : R -> R)
    (prior_sample : LatentVariableLayer -> list nat -> nat -> result tensor * nat)
    (compositor : LatentVariableLayer -> tensor -> tensor -> result tensor)
    (float : Type) (nonnegative : float -> bool) (out : GPLayer -> nat)
    (at_ : tensor) (jitter : float) (self : Reparam.t) (g : nat)
    (ls : list GPLayer) (N D : nat) :
  predicts predict out ls D ->
  Reparam.f_layers self = map IsGPLayer ls ->
  length (Reparam.eps_list self) = length ls ->
  Reparam.initialized self = false ->
  shape at_ = [N; D] ->
  nonnegative jitter = true ->
  let size := Reparam.sample_size self in
  exists y self',
    Reparam.sample predict sqrt prior_sample compositor float nonnegative
      at_ jitter self g = (Returned y, self', g + noise_size out size ls)
    /\ shape y = [size; N; last_out out D ls]
    /\ Reparam.initialized self' = true
    /\ length (Reparam.eps_list self') = length ls
    /\ forall k l, ls !! k = Some l ->
         shape <$> Reparam.eps_list self' !! k = Some [size; out l].
Proof.
  intros Hp Hl Hlen Hi Hat Hj size. unfold Reparam.sample, rank.
  rewrite Hat, Hj, Hi, Hl. cbn [length Nat.eqb negb].
  destruct (sample_layers_first_shape predict sqrt prior_sample compositor out
              size N ls 0 (Reparam.tile_samples size at_) (Reparam.eps_list self) g D)
    as (y & eps' & Hs & Hy & Hlen' & Heps).
  { done. }
  { unfold Reparam.tile_samples. cbn [shape]. by rewrite Hat. }
  { done. }
  fold size. rewrite Hs. exists y, (Reparam.set_eps eps' true self).
  split; [done|]. split; [done|]. split; [done|]. split; [cbn; congruence|].
  intros k l Hk. by apply (Heps k l).
Qed.

(** The integer sampler of size 2 at three points, with a [predict] that
    refuses samples whose width is not that of the inducing points of the
    layer: samples of shape [2, 3, 1], two random numbers drawn. *)
Lemma reparam_first_sample_shapes_witness :
  exists y self',
    Reparam.sample integer_predict (fun r => r) (fun _ _ g => (Ok (ones []), g))
                   (fun _ x _ => Ok x) unit (fun _ => true)
                   (IntegerBackend.matrix [[1]; [2]; [3]]%Z) () integer_reparam 0
    = (Returned y, self', 2)
    /\ shape y = [2; 3; 1]
    /\ Reparam.initialized self' = true
    /\ shape <$> Reparam.eps_list self' !! 0 = Some [2; 1].
Proof.
  assert (Hp : predicts integer_predict (fun _ => 1) [IntegerBackend.gp_layer 0] 1).
  { split; [|done]. intros x size N Hx. unfold integer_predict. rewrite Hx.
    by eexists _, _. }
  destruct (reparam_first_sample_shapes integer_predict (fun r => r)
              (fun _ _ g => (Ok (ones []), g)) (fun _ x _ => Ok x) unit
              (fun _ => true) (fun _ => 1)
              (IntegerBackend.matrix [[1]; [2]; [3]]%Z) () integer_reparam 0
              [IntegerBackend.gp_layer 0] 3 1 Hp eq_refl eq_refl eq_refl eq_refl
              eq_refl)
    as (y & self' & Hs & Hy & Hi & _ & Heps).
  exists y, self'. split; [exact Hs|]. split; [exact Hy|]. split; [exact Hi|].
  exact (Heps 0 _ eq_refl).
Defined.

(** * From the construction of the manager to an evaluation *)

Section EndToEnd.

Context {BE : Backend}.

(** The first call of a sampler as construction left it. *)
Lemma first_call_as_constructed n l s M D P x N B g :
  as_constructed n l s ->
  layer_shapes l M D P ->
  mean_dim (mean_function l) = P ->
  is_Some (chol M (entries (gram_tensor l M))) ->
  shape x = [N; B; D] ->
  exists y s' g',
    DL.call l s x g = (Ok y, s', g')
    /\ shape y = [N; B; P]
    /\ layer_ready l s' B D P.
Proof.
  intros (Hi & _ & Hn & Hprep & M' & D' & P' & Hc) Hl Hm [Luu Hchol] Hx.
  assert (HcM : consistent l s M D P n).
  { destruct Hl as (HZ & Hmu & Hsq). destruct Hc as [HZ' Hmu' ? ? ? ? ? ?].
    rewrite HZ in HZ'. rewrite Hmu in Hmu'. injection HZ' as <- <-.
    injection Hmu' as <-. by split. }
  destruct Hl as (HZ & Hmu & Hsq).
  assert (Hk : DL.Kmm (DL.weight_sampler s) = gram_tensor l M).
  { rewrite (prepare_ok l M D P HZ Hmu Hsq) in Hprep. by injection Hprep as <-. }
  rewrite <- Hk in Hchol.
  set (c := DL.set_batch_size B s).
  assert (HcB : consistent l c M D P n) by by apply consistent_set_batch_size.
  set (s' := DL.set_initialized true
               (DL.set_weights_sample (drawn_weights l c Luu M P n B g) c)).
  assert (Hcs' : consistent l s' M D P n)
    by by apply consistent_set_initialized, consistent_set_weights.
  exists (evaluated l s' x N B M D P n), s', (after_draw M P n B g).
  split; [|split; [done|]].
  - unfold DL.call, DL.initialize, dim_from_end. rewrite Hi, Hx.
    cbn [reverse rev_append lookup list_lookup]. fold c.
    rewrite (resample_ok l c M D P n g Luu HcB Hchol).
    change (DL.batch_size c) with B. fold s'.
    unfold DL.assert_batch_size, dim_from_end. rewrite Hx.
    cbn [reverse rev_append lookup list_lookup mbind result_bind].
    change (DL.batch_size s') with B. rewrite Nat.eqb_refl.
    by rewrite (evaluate_ok l s' x N B M D P n Hcs' eq_refl Hm Hx).
  - exists M, n. split; [exact Hcs'|]. by repeat split.
Qed.

Lemma first_call_layers n ls : forall ss D P x N B g,
  Forall2 (as_constructed n) ls ss ->
  layers_fit ls D P ->
  shape x = [N; B; D] ->
  exists z ss' g',
    Traj.call_layers ls ss x g = (Ok z, ss', g')
    /\ shape z = [N; B; P]
    /\ chained ls ss' B D P.
Proof.
  induction ls as [|l ls IH]; intros ss D P x N B g Hall Hfit Hx.
  - apply Forall2_nil_inv_l in Hall as ->. cbn in Hfit. subst.
    by exists x, [], g.
  - apply Forall2_cons_inv_l in Hall as (s & ss0 & Hs & Hall & ->).
    destruct Hfit as (M & P' & Hl & Hm & Hchol & Hfit).
    destruct (first_call_as_constructed n l s M D P' x N B g Hs Hl Hm Hchol Hx)
      as (y & s' & g1 & Hcall & Hy & Hready).
    destruct (IH ss0 P' P y N B g1 Hall Hfit Hy) as (z & ss' & g' & Hrest & Hz & Hch).
    exists z, (s' :: ss'), g'. cbn [Traj.call_layers]. rewrite Hcall, Hrest.
    split; [done|]. split; [done|]. exists P'. by split.
Qed.

Lemma init_layers_as_constructed m num_features g self g' :
  Manager.init m num_features g = (Ok self, g') ->
  Forall2 (as_constructed (Z.to_nat num_features))
          (Manager.gp_layers self) (Manager.sampling_layers self).
Proof.
  unfold Manager.init. destruct m as [[ls|]|]; [|discriminate..].
  destruct (0 <? num_features)%Z; [|discriminate].
  destruct (Manager.build_layers ls _ g) as [[ss|e] g1] eqn:Hb; [|discriminate].
  intros [= <- <-]. cbn [Manager.gp_layers Manager.sampling_layers].
  by destruct (build_layers_Ok ls _ g ss g1 Hb).
Qed.

End EndToEnd.

(** X20. From the construction of the decoupled trajectory sampler to an
    evaluation: when the layers of the model fit together from [D] inputs to
    [P >= 1] outputs (consistent parameter shapes, mean functions with as
    many outputs as their layers, Gram matrices with a Cholesky factor), the
    trajectory that [get_trajectory] hands out evaluates an input of shape
    [[N, B, D]] to a tensor of shape [[N, B]], initializing every layer
    sampler for the batch size [B]; evaluating it again returns the same
    tensor and changes nothing. *)
Theorem constructed_trajectory_evaluates {BE : Backend}
    (m : model) (num_features : Z) (g : nat) (self : Manager.t) (g0 : nat)
    (D P N B : nat) (x : tensor) :
  Manager.init m num_features g = (Ok self, g0) ->
  layers_fit (Manager.gp_layers self) D P ->
  0 < P ->
  shape x = [N; B; D] ->
  let '(t, self1) := Manager.get_trajectory self in
  exists y self2,
    Manager.call_trajectory x self1 = (Ok y, self2)
    /\ shape y = [N; B]
    /\ chained (Manager.gp_layers self2) (Manager.sampling_layers self2) B D P
    /\ Manager.call_trajectory x self2 = (Ok y, self2).
Proof.
  intros Hinit Hfit HP Hx.
  pose proof (init_layers_as_constructed m num_features g self g0 Hinit) as Hall.
  unfold Manager.get_trajectory, Manager.call_trajectory, Traj.call.
  cbn [Manager.gp_layers Manager.sampling_layers Manager.generator].
  destruct (first_call_layers _ _ _ D P x N B (Manager.generator self) Hall Hfit Hx)
    as (z & ss' & g' & Hcall & Hz & Hch).
  rewrite Hcall. cbn [mbind result_bind].
  assert (Hlast : last_axis_0 z = Ok (mkT [N; B] (last_axis_0_at z))).
  { unfold last_axis_0, split_last. rewrite Hz. cbn [reverse rev_append].
    by rewrite (proj2 (Nat.ltb_lt 0 P) HP). }
  rewrite Hlast. eexists _, _. split; [done|]. split; [done|].
  unfold Manager.set_samplers.
  cbn [Manager.gp_layers Manager.sampling_layers Manager.generator
       Manager.num_features Manager.next_object].
  split; [done|].
  destruct (call_layers_twice _ _ _ _ _ _ _ Hcall) as [Htwice _].
  rewrite Htwice. cbn [mbind result_bind]. by rewrite Hlast.
Qed.

(** The one-layer integer model, with two features, on three points with
    batch size 1. *)
Lemma constructed_trajectory_evaluates_witness :
  Manager.init integer_model 2 0 = (Ok integer_manager, 4)
  /\ layers_fit (Manager.gp_layers integer_manager) 1 1
  /\ exists y self2,
       Manager.call_trajectory IntegerBackend.x_3_1_1
         (snd (Manager.get_trajectory integer_manager)) = (Ok y, self2)
       /\ shape y = [3; 1]
       /\ Manager.call_trajectory IntegerBackend.x_3_1_1 self2 = (Ok y, self2).
Proof.
  assert (Hinit : Manager.init integer_model 2 0 = (Ok integer_manager, 4))
    by reflexivity.
  assert (Hfit : layers_fit (Manager.gp_layers integer_manager) 1 1).
  { exists 3, 1. split; [by repeat split|]. split; [reflexivity|].
    split; [|reflexivity]. eexists. vm_compute. reflexivity. }
  split; [exact Hinit|]. split; [exact Hfit|].
  destruct (constructed_trajectory_evaluates integer_model 2 0 integer_manager 4
              1 1 3 1 IntegerBackend.x_3_1_1 Hinit Hfit (le_n 1) eq_refl)
    as (y & self2 & Hcall & Hy & _ & Hagain).
  by exists y, self2.
Defined.
